(** * MicroNOVA disk controllers: 6095 hard disk (DHP) and 6038 floppy (DKT)

    A shallow embedding of [NOVA/micronova_dhp.c] and [NOVA/micronova_dkt.c]
    together with the properties of the two controllers.

    Conventions.  [int32] variables are integers of [Z]; the C code masks every
    register it stores, and those masks are kept as [Z.land].  Where a value
    the registers or the unit words accept can leave the 32 bits of the
    variable it is stored in (the seek delay, the byte offset of a floppy
    sector) the result is taken back to 32 bits by [to_int32], and the
    properties that depend on it carry the bound within which C defines the
    arithmetic.  [x & ~m] is [Z.land x (Z.lnot m)], [x >> n] is
    [Z.shiftr x n].  The globals of a controller are the fields of one state
    record which every routine takes and returns. *)

From Stdlib Require Import ZArith List Bool Lia.
Import ListNotations.
Local Open Scope Z_scope.

(** ** Tests on flag words *)

(** The C condition [if (x & m)]. *)
Definition tst (x m : Z) : bool := negb (Z.land x m =? 0).

(** ** 32-bit integers *)

(** The value an [int32] variable holds after it is assigned [x]: the low 32
    bits in two's complement.  This is what the conversion of a wider value
    gives on the compilers the simulator is built with, and what they make of
    a product of two [int32] that overflows, which C leaves undefined. *)
Definition to_int32 (x : Z) : Z := (x + 2147483648) mod 4294967296 - 2147483648.

(** ** Simulator services used by the controllers *)

Module Sim.

(** Modelled from the spec: the discrete-event scheduler ([sim_activate],
    [sim_activate_after], [sim_cancel], [sim_is_active]) is outside the two
    source files.  The controllers only ask it to run a unit's service
    routine after a delay; a unit has at most one entry in the queue.  An
    entry is a unit number with the time left until it fires, and the queue is
    kept in firing order. *)
Definition event : Type := Z * Z.
Definition queue : Type := list event.

Definition sim_is_active (u : Z) (q : queue) : bool :=
  existsb (fun e => fst e =? u) q.

Fixpoint enqueue (u t : Z) (q : queue) : queue :=
  match q with
  | [] => [(u, t)]
  | e :: q' => if t <? snd e then (u, t) :: q else e :: enqueue u t q'
  end.

Definition sim_activate (u t : Z) (q : queue) : queue :=
  if sim_is_active u q then q else enqueue u t q.

(** [sim_activate_after] takes its delay in microseconds of simulated time;
    the model has one virtual time line, so it is [sim_activate]. *)
Definition sim_activate_after (u t : Z) (q : queue) : queue :=
  sim_activate u t q.

Definition sim_cancel (u : Z) (q : queue) : queue :=
  filter (fun e => negb (fst e =? u)) q.

(** Time left before unit [u] fires, if it is queued. *)
Definition sim_activate_time (u : Z) (q : queue) : option Z :=
  option_map snd (find (fun e => fst e =? u) q).

(** Number of queue entries of unit [u]. *)
Definition pending (u : Z) (q : queue) : nat :=
  length (filter (fun e => fst e =? u) q).

(** Modelled from the spec: the backing store is a flat file of 16-bit words
    behind a C stream.  [fdata] is the file contents, [fpos] the byte position
    of the stream, [ferr] its error indicator and [frdonly] says that the
    stream was opened for reading only, in which case a write fails and sets
    the indicator.  Every position the controllers seek to is even. *)
Record FILE : Type := mkFILE {
  fdata   : list Z;
  fpos    : Z;
  ferr    : bool;
  frdonly : bool
}.

Definition fseek (f : FILE) (off : Z) : Z * FILE :=
  if off <? 0 then (-1, f)
  else (0, mkFILE (fdata f) off (ferr f) (frdonly f)).

(** [fxread (buf, 2, n, f)]: the words read, fewer than [n] at end of file. *)
Definition fxread (n : Z) (f : FILE) : list Z * FILE :=
  let ws := firstn (Z.to_nat n) (skipn (Z.to_nat (fpos f / 2)) (fdata f)) in
  (ws, mkFILE (fdata f) (fpos f + 2 * Z.of_nat (length ws)) (ferr f) (frdonly f)).

(** [fxwrite (buf, 2, n, f)]: a gap before the position reads as zeros. *)
Definition fxwrite (buf : list Z) (f : FILE) : FILE :=
  if frdonly f then mkFILE (fdata f) (fpos f) true (frdonly f)
  else
    let p := Z.to_nat (fpos f / 2) in
    let old := fdata f ++ repeat 0 (p - length (fdata f)) in
    mkFILE (firstn p old ++ buf ++ skipn (p + length buf) old)
           (fpos f + 2 * Z.of_nat (length buf)) (ferr f) (frdonly f).

Definition ferror (f : FILE) : bool := ferr f.

Definition clearerr (f : FILE) : FILE :=
  mkFILE (fdata f) (fpos f) false (frdonly f).

(** The unit descriptor: the flags the controllers test, the three
    device-specific words [u3], [u4], [u5] under the names the sources
    give them ([FUNC], [CYL], [SECT]), and the attached file.  A unit that is
    not attached has no stream in the source (its [fileref] is a null
    pointer, which the C library cannot seek or read); the record then holds
    a file that stands for nothing, and what is said about a transfer is said
    of attached units. *)
Record UNIT : Type := mkUNIT {
  UNIT_ATT  : bool;
  UNIT_WPRT : bool;
  DTYPE     : Z;
  FUNC      : Z;
  CYL       : Z;
  SECT      : Z;
  fileref   : FILE
}.

Definition empty_file : FILE := mkFILE [] 0 false false.
Definition idle_unit : UNIT := mkUNIT false false 0 0 0 0 empty_file.

Definition GET_DTYPE (u : UNIT) : Z := Z.land (DTYPE u) 15.

Definition set_FUNC (v : Z) (u : UNIT) : UNIT :=
  mkUNIT (UNIT_ATT u) (UNIT_WPRT u) (DTYPE u) v (CYL u) (SECT u) (fileref u).
Definition set_CYL (v : Z) (u : UNIT) : UNIT :=
  mkUNIT (UNIT_ATT u) (UNIT_WPRT u) (DTYPE u) (FUNC u) v (SECT u) (fileref u).
Definition set_SECT (v : Z) (u : UNIT) : UNIT :=
  mkUNIT (UNIT_ATT u) (UNIT_WPRT u) (DTYPE u) (FUNC u) (CYL u) v (fileref u).
Definition set_fileref (f : FILE) (u : UNIT) : UNIT :=
  mkUNIT (UNIT_ATT u) (UNIT_WPRT u) (DTYPE u) (FUNC u) (CYL u) (SECT u) f.

(** The unit array of a device, indexed by unit number.  Every index the
    controllers form is masked to the bounds of the array. *)
Definition units : Type := Z -> UNIT.

Definition unit_at (us : units) (u : Z) : UNIT := us u.

Definition upd_unit (u : Z) (f : UNIT -> UNIT) (us : units) : units :=
  fun i => if i =? u then f (us i) else us i.

(** The CPU side of a data-channel transfer: the address mask [AMASK], the
    memory size behind [MEM_ADDR_OK] and the bank mapping [MapAddr] are
    declared in [nova_defs.h]; they are carried as data. *)
Record cpu_env : Type := mkCPU {
  AMASK   : Z;
  MEMSIZE : Z;
  MapAddr : Z -> Z -> Z
}.

Definition MEM_ADDR_OK (c : cpu_env) (pa : Z) : bool :=
  (0 <=? pa) && (pa <? MEMSIZE c).

Definition DMASK : Z := 65535.                       (* 0177777 *)

Definition mem : Type := Z -> Z.
Definition mem_store (m : mem) (pa v : Z) : mem :=
  fun a => if a =? pa then v else m a.

(** The word loops of a sector transfer.  Reading from disk, each word goes to
    memory through the map if its address passes [MEM_ADDR_OK]; writing to
    disk, the words are fetched without that check.  The memory address
    register is stepped and masked after every word; both loops return it. *)
Fixpoint dma_in (c : cpu_env) (map : Z) (tbuf : list Z) (m : mem) (ma : Z)
  : mem * Z :=
  match tbuf with
  | [] => (m, ma)
  | w :: tbuf' =>
      let pa := MapAddr c map (Z.land ma (AMASK c)) in
      let m := if MEM_ADDR_OK c pa then mem_store m pa w else m in
      dma_in c map tbuf' m (Z.land (ma + 1) (AMASK c))
  end.

Fixpoint dma_out (c : cpu_env) (map : Z) (n : nat) (m : mem) (ma : Z)
  : list Z * Z :=
  match n with
  | O => ([], ma)
  | S n' =>
      let pa := MapAddr c map (Z.land ma (AMASK c)) in
      let '(ws, ma') := dma_out c map n' m (Z.land (ma + 1) (AMASK c)) in
      (m pa :: ws, ma')
  end.

(** Modelled from the spec: the scheduler's dispatch takes the first entry of
    the queue, lets its time pass for every other entry, and hands the unit
    to its service routine.  The result is the unit, the time that passed and
    the rest of the queue. *)
Definition sim_next_event (q : queue) : option (Z * Z * queue) :=
  match q with
  | [] => None
  | (u, t) :: q' => Some (u, t, map (fun e => (fst e, snd e - t)) q')
  end.

(** I/O instruction codes and pulses ([ioNIO] .. [ioSKP], [iopN] .. [iopP]). *)
Inductive io_code : Type :=
  ioNIO | ioDIA | ioDOA | ioDIB | ioDOB | ioDIC | ioDOC | ioSKP.
Inductive io_pulse : Type := iopN | iopS | iopC | iopP.

Inductive t_stat : Type := SCPE_OK | SCPE_IOERR.

(** Disk geometry, [struct drvtyp]. *)
Record drvtyp : Type := mkDRV {
  sect : Z;
  surf : Z;
  cyl  : Z;
  size : Z;
  newf : bool
}.

Definition GET_SA (cy sf sc : Z) (G : drvtyp) : Z :=
  (((cy * surf G) + sf) * sect G) + sc.

End Sim.

(** ** The 6095 hard-disk controller, [micronova_dhp.c] *)

Module DHP.
Import Sim.

Definition DHP_NUMDR : Z := 1.                        (* #drives *)
Definition DHP_NUMWD : Z := 256.                      (* words/sector *)

(** Unit, surface, sector, count register. *)
Definition USSC_V_COUNT    : Z := 0.
Definition USSC_M_COUNT    : Z := 15.                 (* 017 *)
Definition USSC_V_OSECTOR  : Z := 4.
Definition USSC_M_OSECTOR  : Z := 15.                 (* 017 *)
Definition USSC_V_OSURFACE : Z := 8.
Definition USSC_M_OSURFACE : Z := 63.                 (* 077 *)
Definition USSC_V_NSECTOR  : Z := 4.
Definition USSC_M_NSECTOR  : Z := 31.                 (* 037 *)
Definition USSC_V_NSURFACE : Z := 9.
Definition USSC_M_NSURFACE : Z := 31.                 (* 037 *)
Definition USSC_V_UNIT     : Z := 14.
Definition USSC_M_UNIT     : Z := 3.
Definition USSC_UNIT       : Z := Z.shiftl USSC_M_UNIT USSC_V_UNIT.

(** Flags, command, cylinder register. *)
Definition FCCY_V_OCYL : Z := 0.
Definition FCCY_M_OCYL : Z := 255.                    (* 0377 *)
Definition FCCY_V_OCMD : Z := 8.
Definition FCCY_M_OCMD : Z := 3.
Definition FCCY_V_OCEX : Z := 10.
Definition FCCY_OCEX   : Z := Z.shiftl 1 FCCY_V_OCEX.
Definition FCCY_V_NCYL : Z := 0.
Definition FCCY_M_NCYL : Z := 511.                    (* 0777 *)
Definition FCCY_V_NCMD : Z := 9.
Definition FCCY_M_NCMD : Z := 3.
Definition FCCY_READ   : Z := 0.
Definition FCCY_WRITE  : Z := 1.
Definition FCCY_SEEK   : Z := 2.
Definition FCCY_RECAL  : Z := 3.
Definition FCCY_FLAGS  : Z := 63488.                  (* 0174000 *)

(** Status. *)
Definition STA_ERR   : Z := 1.                        (* error *)
Definition STA_DLT   : Z := 2.                        (* data late *)
Definition STA_CRC   : Z := 4.                        (* crc error *)
Definition STA_UNS   : Z := 8.                        (* unsafe *)
Definition STA_XCY   : Z := 16.                       (* cross cylinder *)
Definition STA_CYL   : Z := 32.                       (* nx cylinder *)
Definition STA_DRDY  : Z := 64.                       (* drive ready *)
Definition STA_SEEK3 : Z := 128.
Definition STA_SEEK2 : Z := 256.
Definition STA_SEEK1 : Z := 512.
Definition STA_SEEK0 : Z := 1024.                     (* seeking unit 0 *)
Definition STA_SKDN3 : Z := 2048.
Definition STA_SKDN2 : Z := 4096.
Definition STA_SKDN1 : Z := 8192.
Definition STA_SKDN0 : Z := 16384.                    (* seek done unit 0 *)
Definition STA_DONE  : Z := 32768.                    (* operation done *)

Definition STA_DYN : Z := Z.lor STA_DRDY STA_CYL.
Definition STA_EFLGS : Z :=
  Z.lor STA_ERR (Z.lor STA_DLT (Z.lor STA_CRC (Z.lor STA_UNS
        (Z.lor STA_XCY STA_CYL)))).
Definition STA_DFLGS : Z :=
  Z.lor STA_DONE (Z.lor STA_SKDN0 (Z.lor STA_SKDN1 (Z.lor STA_SKDN2 STA_SKDN3))).

(** The drive table: one catalogued type, then the all-zero terminator. *)
Definition TYPE_6095 : Z := 0.
Definition SECT_6095 : Z := 12.
Definition SURF_6095 : Z := 4.
Definition CYL_6095  : Z := 408.
Definition SIZE_6095 : Z := SECT_6095 * SURF_6095 * CYL_6095 * DHP_NUMWD.
Definition NFMT_6095 : bool := false.

Definition drv_end : drvtyp := mkDRV 0 0 0 0 false.
Definition drv_tab_entries : list drvtyp :=
  [ mkDRV SECT_6095 SURF_6095 CYL_6095 SIZE_6095 NFMT_6095; drv_end ].
(** [drv_tab[t]]; an index past the table reads as the terminator. *)
Definition drv_tab (t : Z) : drvtyp := nth (Z.to_nat t) drv_tab_entries drv_end.

Definition GET_COUNT (x : Z) : Z := Z.land (Z.shiftr x USSC_V_COUNT) USSC_M_COUNT.
Definition GET_SECT (x dt : Z) : Z :=
  if newf (drv_tab dt)
  then Z.land (Z.shiftr x USSC_V_NSECTOR) USSC_M_NSECTOR
  else Z.land (Z.shiftr x USSC_V_OSECTOR) USSC_M_OSECTOR.
Definition GET_SURF (x dt : Z) : Z :=
  if newf (drv_tab dt)
  then Z.land (Z.shiftr x USSC_V_NSURFACE) USSC_M_NSURFACE
  else Z.land (Z.shiftr x USSC_V_OSURFACE) USSC_M_OSURFACE.
Definition GET_UNIT (x : Z) : Z := Z.land (Z.shiftr x USSC_V_UNIT) USSC_M_UNIT.
Definition GET_CMD (x dt : Z) : Z :=
  if newf (drv_tab dt)
  then Z.land (Z.shiftr x FCCY_V_NCMD) FCCY_M_NCMD
  else Z.land (Z.shiftr x FCCY_V_OCMD) FCCY_M_OCMD.
Definition GET_CYL (x dt : Z) : Z :=
  if newf (drv_tab dt)
  then Z.land (Z.shiftr x FCCY_V_NCYL) FCCY_M_NCYL
  else Z.lor (Z.land (Z.shiftr x FCCY_V_OCYL) FCCY_M_OCYL)
             (Z.shiftr (Z.land x FCCY_OCEX) (FCCY_V_OCEX - FCCY_V_OCMD)).

(** The controller: its registers, the device flags of its interrupt bit, its
    units, the memory it transfers to and the event queue. *)
Record state : Type := mkState {
  dhp_ma       : Z;          (* memory address *)
  dhp_map      : Z;          (* DCH map 0=A 3=B *)
  dhp_ussc     : Z;          (* unit/sf/sc/cnt *)
  dhp_fccy     : Z;          (* flags/cylinder *)
  dhp_sta      : Z;          (* status register *)
  dhp_swait    : Z;          (* seek latency *)
  dhp_rwait    : Z;          (* rotate latency *)
  dhp_diagmode : bool;       (* diagnostic mode *)
  dev_busy     : bool;
  dev_done     : bool;
  dev_disable  : bool;
  int_req      : bool;
  dhp_unit     : units;
  M            : mem;
  cpu          : cpu_env;
  sim_clock_queue : queue
}.

Definition set_ma v s := mkState v (dhp_map s) (dhp_ussc s) (dhp_fccy s) (dhp_sta s)
  (dhp_swait s) (dhp_rwait s) (dhp_diagmode s) (dev_busy s) (dev_done s)
  (dev_disable s) (int_req s) (dhp_unit s) (M s) (cpu s) (sim_clock_queue s).
Definition set_map v s := mkState (dhp_ma s) v (dhp_ussc s) (dhp_fccy s) (dhp_sta s)
  (dhp_swait s) (dhp_rwait s) (dhp_diagmode s) (dev_busy s) (dev_done s)
  (dev_disable s) (int_req s) (dhp_unit s) (M s) (cpu s) (sim_clock_queue s).
Definition set_ussc v s := mkState (dhp_ma s) (dhp_map s) v (dhp_fccy s) (dhp_sta s)
  (dhp_swait s) (dhp_rwait s) (dhp_diagmode s) (dev_busy s) (dev_done s)
  (dev_disable s) (int_req s) (dhp_unit s) (M s) (cpu s) (sim_clock_queue s).
Definition set_fccy v s := mkState (dhp_ma s) (dhp_map s) (dhp_ussc s) v (dhp_sta s)
  (dhp_swait s) (dhp_rwait s) (dhp_diagmode s) (dev_busy s) (dev_done s)
  (dev_disable s) (int_req s) (dhp_unit s) (M s) (cpu s) (sim_clock_queue s).
Definition set_sta v s := mkState (dhp_ma s) (dhp_map s) (dhp_ussc s) (dhp_fccy s) v
  (dhp_swait s) (dhp_rwait s) (dhp_diagmode s) (dev_busy s) (dev_done s)
  (dev_disable s) (int_req s) (dhp_unit s) (M s) (cpu s) (sim_clock_queue s).
Definition set_swait v s := mkState (dhp_ma s) (dhp_map s) (dhp_ussc s) (dhp_fccy s)
  (dhp_sta s) v (dhp_rwait s) (dhp_diagmode s) (dev_busy s) (dev_done s)
  (dev_disable s) (int_req s) (dhp_unit s) (M s) (cpu s) (sim_clock_queue s).
Definition set_diagmode v s := mkState (dhp_ma s) (dhp_map s) (dhp_ussc s) (dhp_fccy s)
  (dhp_sta s) (dhp_swait s) (dhp_rwait s) v (dev_busy s) (dev_done s)
  (dev_disable s) (int_req s) (dhp_unit s) (M s) (cpu s) (sim_clock_queue s).
Definition set_busy v s := mkState (dhp_ma s) (dhp_map s) (dhp_ussc s) (dhp_fccy s)
  (dhp_sta s) (dhp_swait s) (dhp_rwait s) (dhp_diagmode s) v (dev_done s)
  (dev_disable s) (int_req s) (dhp_unit s) (M s) (cpu s) (sim_clock_queue s).
Definition set_done v s := mkState (dhp_ma s) (dhp_map s) (dhp_ussc s) (dhp_fccy s)
  (dhp_sta s) (dhp_swait s) (dhp_rwait s) (dhp_diagmode s) (dev_busy s) v
  (dev_disable s) (int_req s) (dhp_unit s) (M s) (cpu s) (sim_clock_queue s).
Definition set_int_req v s := mkState (dhp_ma s) (dhp_map s) (dhp_ussc s) (dhp_fccy s)
  (dhp_sta s) (dhp_swait s) (dhp_rwait s) (dhp_diagmode s) (dev_busy s) (dev_done s)
  (dev_disable s) v (dhp_unit s) (M s) (cpu s) (sim_clock_queue s).
Definition set_units v s := mkState (dhp_ma s) (dhp_map s) (dhp_ussc s) (dhp_fccy s)
  (dhp_sta s) (dhp_swait s) (dhp_rwait s) (dhp_diagmode s) (dev_busy s) (dev_done s)
  (dev_disable s) (int_req s) v (M s) (cpu s) (sim_clock_queue s).
Definition set_M v s := mkState (dhp_ma s) (dhp_map s) (dhp_ussc s) (dhp_fccy s)
  (dhp_sta s) (dhp_swait s) (dhp_rwait s) (dhp_diagmode s) (dev_busy s) (dev_done s)
  (dev_disable s) (int_req s) (dhp_unit s) v (cpu s) (sim_clock_queue s).
Definition set_queue v s := mkState (dhp_ma s) (dhp_map s) (dhp_ussc s) (dhp_fccy s)
  (dhp_sta s) (dhp_swait s) (dhp_rwait s) (dhp_diagmode s) (dev_busy s) (dev_done s)
  (dev_disable s) (int_req s) (dhp_unit s) (M s) (cpu s) v.

(** The device-flag macros of [nova_defs.h], for this device's bit. *)
Definition DEV_SET_BUSY := set_busy true.
Definition DEV_CLR_BUSY := set_busy false.
Definition DEV_SET_DONE := set_done true.
Definition DEV_CLR_DONE := set_done false.
Definition DEV_UPDATE_INTR (s : state) : state :=
  set_int_req (dev_done s && negb (dev_disable s)) s.

Definition uptr (s : state) (u : Z) : UNIT := unit_at (dhp_unit s) u.
Definition with_unit (u : Z) (f : UNIT -> UNIT) (s : state) : state :=
  set_units (upd_unit u f (dhp_unit s)) s.
Definition or_sta (m : Z) (s : state) : state := set_sta (Z.lor (dhp_sta s) m) s.
Definition clr_sta (m : Z) (s : state) : state :=
  set_sta (Z.land (dhp_sta s) (Z.lnot m)) s.

Definition sim_activate (u t : Z) (s : state) : state :=
  set_queue (Sim.sim_activate u t (sim_clock_queue s)) s.
Definition sim_cancel (u : Z) (s : state) : state :=
  set_queue (Sim.sim_cancel u (sim_clock_queue s)) s.
Definition sim_is_active (u : Z) (s : state) : bool :=
  Sim.sim_is_active u (sim_clock_queue s).

(** [DHP_UPDATE_USSC]; as the source warns, no sector or surface masking. *)
Definition DHP_UPDATE_USSC (dtype count sf sc : Z) (s : state) : state :=
  set_ussc
    (Z.lor (Z.lor (Z.land (dhp_ussc s) USSC_UNIT)
                  (Z.land (dhp_ussc s + count) USSC_M_COUNT))
           (if newf (drv_tab dtype)
            then Z.lor (Z.shiftl sf USSC_V_NSURFACE) (Z.shiftl sc USSC_V_NSECTOR)
            else Z.lor (Z.shiftl sf USSC_V_OSURFACE) (Z.shiftl sc USSC_V_OSECTOR)))
    s.

(** *** New command: [dhp_go]

    Start versus pulse is handled by the caller.  The result is [true] when
    the command was accepted and [false] on error.  The two arms of the
    command switch come first: [dhp_go_rw] is the arm of read and write,
    [dhp_go_seek] the arm of seek, which recalibrate falls into. *)

Definition dhp_go_rw (pulse : io_pulse) (u dtype : Z) (s : state)
  : bool * state :=
  let s :=
    if negb (UNIT_ATT (uptr s u)) ||                    (* not attached? *)
       (UNIT_WPRT (uptr s u) && (FUNC (uptr s u) =? FCCY_WRITE))
    then or_sta (Z.lor STA_DONE STA_ERR) s              (* error *)
    else if CYL (uptr s u) >=? cyl (drv_tab dtype)      (* bad cylinder *)
    then or_sta (Z.lor (Z.lor STA_DONE STA_ERR) STA_CYL) s
    else if GET_SURF (dhp_ussc s) dtype >=? surf (drv_tab dtype)
    then or_sta (Z.lor (Z.lor STA_DONE STA_ERR) STA_UNS) s
    else if GET_SECT (dhp_ussc s) dtype >=? sect (drv_tab dtype)
    then or_sta (Z.lor (Z.lor STA_DONE STA_ERR) STA_XCY) s
    else s in
  if match pulse with iopS => false | _ => true end || tst (dhp_sta s) STA_ERR
  then (false, s)
  else (true, sim_activate u (dhp_rwait s) s).         (* schedule read or write *)

Definition dhp_go_seek (pulse : io_pulse) (u dtype oldCyl : Z) (s : state)
  : bool * state :=
  let s :=
    if negb (UNIT_ATT (uptr s u))                       (* not attached? *)
    then or_sta (Z.lor STA_DONE STA_ERR) s
    else if CYL (uptr s u) >=? cyl (drv_tab dtype)      (* bad cylinder? *)
    then or_sta (Z.lor STA_ERR STA_CYL) s
    else s in
  if match pulse with iopP => false | _ => true end || tst (dhp_sta s) STA_ERR
  then (false, s)                                       (* only 'P' starts seeks *)
  else
    (* do the seek *)
    let s := or_sta (Z.shiftr STA_SEEK0 u) s in         (* set seeking *)
    let oldCyl := Z.abs (oldCyl - CYL (uptr s u)) in
    let oldCyl :=                                       (* enforce minimum wait *)
      if negb (dhp_swait s =? 0) && (oldCyl =? 0) then 1 else oldCyl in
    (true, sim_activate u (to_int32 (dhp_swait s * oldCyl)) s).

Definition dhp_go (pulse : io_pulse) (s : state) : bool * state :=
  let s := clr_sta STA_EFLGS s in                       (* clear errors *)
  let u := GET_UNIT (dhp_ussc s) in                     (* get unit number *)
  if negb (UNIT_ATT (uptr s u)) || sim_is_active u s then
    (false, or_sta STA_ERR s)                           (* attached or busy? *)
  else if dhp_diagmode s then                           (* diagnostic mode? *)
    (true, DEV_UPDATE_INTR (DEV_SET_DONE (DEV_CLR_BUSY (or_sta STA_DONE s))))
  else
    let oldCyl := CYL (uptr s u) in                     (* get old cylinder *)
    let dtype := GET_DTYPE (uptr s u) in                (* get drive type *)
    let s := with_unit u (set_FUNC (GET_CMD (dhp_fccy s) dtype)) s in
    let s := with_unit u (set_CYL (GET_CYL (dhp_fccy s) dtype)) s in
    let f := FUNC (uptr s u) in                         (* decode command *)
    if (f =? FCCY_READ) || (f =? FCCY_WRITE) then dhp_go_rw pulse u dtype s
    else if f =? FCCY_RECAL then                        (* recalibrate *)
      dhp_go_seek pulse u dtype oldCyl
        (with_unit u (set_CYL 0) (with_unit u (set_FUNC FCCY_SEEK) s))
    else if f =? FCCY_SEEK then dhp_go_seek pulse u dtype oldCyl s
    else (true, s).

(** *** Unit service: [dhp_svc] *)

Definition dhp_dma_in (tbuf : list Z) (s : state) : state :=
  let '(m, ma) := dma_in (cpu s) (dhp_map s) tbuf (M s) (dhp_ma s) in
  set_ma ma (set_M m s).

Definition dhp_dma_out (n : nat) (s : state) : list Z * state :=
  let '(ws, ma) := dma_out (cpu s) (dhp_map s) n (M s) (dhp_ma s) in
  (ws, set_ma ma s).

(** How an iteration of the read/write loop ends. *)
Inductive loop_exit : Type := Next | Break.

(** The transfer of one sector in the loop of [dhp_svc]: position the file,
    read or write, then step the sector and the count. *)
Definition dhp_rw_transfer (u dtype : Z) (s : state) (rval : t_stat)
  : state * t_stat * loop_exit :=
  let sa := GET_SA (CYL (uptr s u)) (GET_SURF (dhp_ussc s) dtype)
                   (GET_SECT (dhp_ussc s) dtype) (drv_tab dtype) in
  let bda := sa * DHP_NUMWD * 2 in                      (* to words, bytes *)
  let '(err, f) := fseek (fileref (uptr s u)) bda in    (* position drive *)
  let advance (s : state) : state * t_stat * loop_exit :=
    let newsect := GET_SECT (dhp_ussc s) dtype + 1 in   (* update next sector *)
    let newsurf := GET_SURF (dhp_ussc s) dtype in       (* and next head *)
    (DHP_UPDATE_USSC dtype 1 newsurf newsect s, rval, Next) in
  if FUNC (uptr s u) =? FCCY_READ then                  (* read? *)
    let '(ws, f) := fxread DHP_NUMWD f in
    let tbuf := ws ++ repeat 0 (Z.to_nat DHP_NUMWD - length ws) in
    let s := with_unit u (set_fileref f) s in
    if ferror f then (s, rval, Break)
    else advance (dhp_dma_in tbuf s)
  else if FUNC (uptr s u) =? FCCY_WRITE then            (* write? *)
    let '(tbuf, s) := dhp_dma_out (Z.to_nat DHP_NUMWD) s in
    let f := fxwrite tbuf f in
    let s := with_unit u (set_fileref f) s in
    if ferror f then (s, rval, Break)
    else advance s
  else
    let s := with_unit u (set_fileref f) s in
    if err =? 0 then advance s
    else (with_unit u (set_fileref (clearerr f)) s, SCPE_IOERR, Break).

(** One pass through the body of the [do ... while] loop of [dhp_svc]. *)
Definition dhp_rw_body (u : Z) (s : state) (rval : t_stat)
  : state * t_stat * loop_exit :=
  let dtype := GET_DTYPE (uptr s u) in
  if GET_SECT (dhp_ussc s) dtype >=? sect (drv_tab dtype) then
    (* sector overflows to 0 ; surface gets incremented *)
    let newsurf := GET_SURF (dhp_ussc s) dtype + 1 in
    let newsurf := Z.land newsurf (if newf (drv_tab dtype)
                                   then USSC_M_NSURFACE else USSC_M_OSURFACE) in
    let s := DHP_UPDATE_USSC dtype 0 newsurf 0 s in
    if GET_SURF (dhp_ussc s) dtype >=? surf (drv_tab dtype)
    then (or_sta (Z.lor (Z.lor STA_DONE STA_ERR) STA_XCY) s, rval, Break)
    else dhp_rw_transfer u dtype s rval
  else dhp_rw_transfer u dtype s rval.

(** The loop itself: the body runs, then again while the count is not zero.
    [None] stands for a loop that has not ended within [fuel] passes. *)
Fixpoint dhp_rw_loop (fuel : nat) (u : Z) (s : state) (rval : t_stat)
  : option (state * t_stat) :=
  match fuel with
  | O => None
  | S fuel' =>
      match dhp_rw_body u s rval with
      | (s', rval', Break) => Some (s', rval')
      | (s', rval', Next) =>
          if GET_COUNT (dhp_ussc s') =? 0 then Some (s', rval')
          else dhp_rw_loop fuel' u s' rval'
      end
  end.

(** The count field has four bits, so sixteen passes always suffice. *)
Definition dhp_rw_fuel : nat := 16.

Definition dhp_svc (u : Z) (s : state) : option (t_stat * state) :=
  let dtype := GET_DTYPE (uptr s u) in
  let finish (r : t_stat * state) : option (t_stat * state) :=
    Some (fst r, DEV_UPDATE_INTR (DEV_SET_DONE (DEV_CLR_BUSY (snd r)))) in
  if FUNC (uptr s u) =? FCCY_SEEK then                  (* seek? *)
    let s :=
      if negb (UNIT_ATT (uptr s u))
      then or_sta (Z.lor STA_DONE STA_ERR) s
      else if CYL (uptr s u) >=? cyl (drv_tab dtype)
      then or_sta (Z.lor STA_ERR STA_CYL) s
      else s in
    let s := DEV_UPDATE_INTR (DEV_SET_DONE s) in
    Some (SCPE_OK,
          set_sta (Z.land (Z.lor (dhp_sta s) (Z.shiftr STA_SKDN0 u))
                          (Z.lnot (Z.shiftr STA_SEEK0 u))) s)
  else if negb (UNIT_ATT (uptr s u)) ||
          (UNIT_WPRT (uptr s u) && (FUNC (uptr s u) =? FCCY_WRITE))
  then finish (SCPE_OK, or_sta (Z.lor STA_DONE STA_ERR) s)
  else if CYL (uptr s u) >=? cyl (drv_tab dtype) then   (* bad cylinder *)
    let s := or_sta (Z.lor (Z.lor STA_DONE STA_ERR) STA_CYL) s in
    let s := or_sta (Z.lor STA_ERR STA_CYL) s in
    Some (SCPE_OK, DEV_UPDATE_INTR (DEV_SET_DONE s))
  else if GET_SURF (dhp_ussc s) dtype >=? surf (drv_tab dtype)
  then finish (SCPE_OK, or_sta (Z.lor (Z.lor STA_DONE STA_ERR) STA_UNS) s)
  else if GET_SECT (dhp_ussc s) dtype >=? sect (drv_tab dtype)
  then finish (SCPE_OK, or_sta (Z.lor (Z.lor STA_DONE STA_ERR) STA_XCY) s)
  else
    match dhp_rw_loop dhp_rw_fuel u s SCPE_OK with
    | None => None
    | Some (s, rval) => finish (rval, or_sta STA_DONE s)
    end.

(** *** Reset routine: [dhp_reset] *)

Fixpoint reset_units (n : nat) (u : Z) (s : state) : state :=
  match n with
  | O => s
  | S n' =>
      let s := sim_cancel u s in                        (* cancel activity *)
      let s := with_unit u (set_FUNC 0) s in
      let s := with_unit u (set_CYL (FUNC (uptr s u))) s in
      reset_units n' (u + 1) s
  end.

Definition dhp_reset (s : state) : t_stat * state :=
  let s := DEV_UPDATE_INTR (DEV_CLR_DONE (DEV_CLR_BUSY s)) in
  let s := set_sta 0 s in
  let s := set_ma (dhp_sta s) s in
  let s := set_ussc (dhp_ma s) s in
  let s := set_fccy (dhp_ussc s) s in                   (* clear registers *)
  let s := set_diagmode false s in
  let s := set_map 0 s in
  (SCPE_OK, reset_units (Z.to_nat DHP_NUMDR) 0 s).

(** *** IOT routine: [dhp]

    The routine has two switches in a row: the first decodes the instruction
    code, the second the pulse.  [dhp_code] and [dhp_pulse] are the two
    switches, [dhp] runs one after the other. *)

Definition dhp_code (code : io_code) (AC : Z) (s : state) : Z * state :=
  let u := GET_UNIT (dhp_ussc s) in                     (* select unit *)
  let dtype := GET_DTYPE (uptr s u) in                  (* get drive type *)
  match code with
  | ioDIA =>
      let s := clr_sta STA_DRDY s in                    (* keep error flags *)
      let s := if UNIT_ATT (uptr s u) then or_sta STA_DRDY s else s in
      let s := if CYL (uptr s u) >=? cyl (drv_tab dtype)
               then or_sta STA_CYL s else s in          (* bad cylinder? *)
      let s := if tst (dhp_sta s) STA_EFLGS then or_sta STA_ERR s else s in
      (dhp_sta s, s)
  | ioDOA =>
      let s := if tst AC 32768                          (* clear rw done? *)
               then clr_sta (Z.lor STA_CYL (Z.lor STA_XCY (Z.lor STA_UNS STA_CRC))) s
               else s in
      let s := if negb (dev_busy s)
               then clr_sta (Z.land AC FCCY_FLAGS) (set_fccy AC s)
               else s in
      let s := DEV_CLR_DONE s in
      let s := if tst (dhp_sta s) STA_DFLGS then DEV_SET_DONE s else s in
      (0, DEV_UPDATE_INTR s)
  | ioDIB => (Z.land (dhp_ma s) 32767, s)               (* return buf addr *)
  | ioDOB =>
      (0,
       if negb (dev_busy s)
       then set_map (if tst AC 32768 then 3 else 0)
              (set_ma (Z.land AC (if newf (drv_tab dtype)
                                  then DMASK else AMASK (cpu s))) s)
       else s)
  | ioDIC => (dhp_ussc s, s)                            (* return unit, sect *)
  | ioDOC => (0, if negb (dev_busy s) then set_ussc AC s else s)
  | ioNIO | ioSKP => (0, s)
  end.

Definition dhp_pulse (pulse : io_pulse) (s : state) : state :=
  let u := GET_UNIT (dhp_ussc s) in                     (* update current unit *)
  match pulse with
  | iopS =>                                             (* start *)
      let s := DEV_UPDATE_INTR (DEV_CLR_DONE (DEV_SET_BUSY s)) in
      let '(ok, s) := dhp_go pulse s in
      if ok then s
      else or_sta STA_DONE (DEV_UPDATE_INTR (DEV_SET_DONE (DEV_CLR_BUSY s)))
  | iopC =>                                             (* clear *)
      let s := DEV_UPDATE_INTR (DEV_CLR_DONE (DEV_CLR_BUSY s)) in
      let s := clr_sta (STA_DFLGS + STA_EFLGS) s in     (* clear controller flags *)
      if negb (FUNC (uptr s u) =? FCCY_SEEK)
      then sim_cancel u s                               (* cancel any r/w op *)
      else s
  | iopP =>                                             (* pulse *)
      let seek_done (s : state) : state :=
        or_sta (Z.shiftr STA_SKDN0 u) (DEV_UPDATE_INTR (DEV_SET_DONE s)) in
      if dhp_diagmode s then seek_done (set_diagmode false s)
      else
        let s := DEV_UPDATE_INTR (DEV_CLR_DONE s) in
        let '(ok, s) := dhp_go pulse s in
        if ok then s else seek_done s
  | iopN => s
  end.

Definition dhp (pulse : io_pulse) (code : io_code) (AC : Z) (s : state)
  : Z * state :=
  let '(rval, s) := dhp_code code AC s in
  (rval, dhp_pulse pulse s).

End DHP.

(** ** The 6038 floppy controller, [micronova_dkt.c] *)

Module DKT.
Import Sim.

Definition DKT_NUMDR : Z := 2.                        (* #drives *)
Definition DKT_NUMWD : Z := 256.                      (* words/sector *)
Definition DKT_TIMER : Z := DKT_NUMDR.

(** 6038 specify command register. *)
Definition SC_6038_V_CMD    : Z := 0.
Definition SC_6038_M_CMD    : Z := 255.               (* 0377 *)
Definition SC_6038_V_SECTOR : Z := 8.
Definition SC_6038_M_SECTOR : Z := 7.
Definition SC_6038_V_HITRK  : Z := 14.
Definition SC_6038_M_HITRK  : Z := 1.
Definition SC_6038_V_UNIT   : Z := 15.
Definition SC_6038_M_UNIT   : Z := 1.

Definition SC_6038_GET_SECT (x : Z) : Z :=
  Z.land (Z.shiftr x SC_6038_V_SECTOR) SC_6038_M_SECTOR.
Definition SC_6038_GET_UNIT (x : Z) : Z :=
  Z.land (Z.shiftr x SC_6038_V_UNIT) SC_6038_M_UNIT.
Definition SC_6038_GET_CMD (x : Z) : Z :=
  Z.land (Z.shiftr x SC_6038_V_CMD) SC_6038_M_CMD.
Definition SC_6038_GET_HITRK (x : Z) : Z :=
  Z.land (Z.shiftr x SC_6038_V_HITRK) SC_6038_M_HITRK.

Definition SC_6038_SETTLE     : Z := 0.               (* 000 *)
Definition SC_6038_STEPOUT    : Z := 1.               (* 001 *)
Definition SC_6038_STEPIN     : Z := 2.               (* 002 *)
Definition SC_6038_READPREAMB : Z := 8.               (* 010 *)
Definition SC_6038_READNEXT   : Z := 16.              (* 020 *)
Definition SC_6038_WRITENEXT  : Z := 32.              (* 040 *)
Definition SC_6038_FORMAT0    : Z := 240.
Definition SC_6038_FORMATNEXT : Z := 241.

(** 6038 current address register. *)
Definition CA_6038_V_SECTOR : Z := 2.
Definition CA_6038_M_SECTOR : Z := 7.
Definition CA_6038_V_TRACK  : Z := 8.
Definition CA_6038_M_TRACK  : Z := 127.               (* 0177 *)

(** 6038 status. *)
Definition STA_6038_NOTREADY     : Z := 32768.        (* 0100000 *)
Definition STA_6038_TRACK0       : Z := 16384.        (* 0040000 *)
Definition STA_6038_HEADON       : Z := 8192.         (* 0020000 *)
Definition STA_6038_WRITEPROT    : Z := 512.          (* 0001000 *)
Definition STA_6038_UNIT         : Z := 256.          (* 0000400 *)
Definition STA_6038_DRIVESTAT    : Z := 128.          (* 0000200 *)
Definition STA_6038_ILLEGAL      : Z := 32.           (* 0000040 *)
Definition STA_6038_SECTORERR    : Z := 16.           (* 0000020 *)
Definition STA_6038_CHECKWORDERR : Z := 8.            (* 0000010 *)
Definition STA_6038_DATALATE     : Z := 4.            (* 0000004 *)
Definition STA_6038_WRITEFAULT   : Z := 2.            (* 0000002 *)
Definition STA_6038_ERROR        : Z := 1.            (* 0000001 *)

Definition STA_EFLGS : Z :=
  Z.lor STA_6038_ERROR (Z.lor STA_6038_DATALATE (Z.lor STA_6038_CHECKWORDERR
    (Z.lor STA_6038_SECTORERR (Z.lor STA_6038_WRITEFAULT
      (Z.lor STA_6038_ILLEGAL STA_6038_DRIVESTAT))))).
Definition STA_FLGS_SCLR : Z :=
  Z.lor STA_6038_ERROR (Z.lor STA_6038_DATALATE (Z.lor STA_6038_CHECKWORDERR
    (Z.lor STA_6038_SECTORERR (Z.lor STA_6038_WRITEFAULT STA_6038_ILLEGAL)))).
Definition STA_FLGS_GENERAL_ERROR : Z :=
  Z.lor STA_6038_ILLEGAL (Z.lor STA_6038_SECTORERR (Z.lor STA_6038_CHECKWORDERR
    (Z.lor STA_6038_DATALATE STA_6038_WRITEFAULT))).
Definition STA_6038_V_UNIT : Z := 8.
Definition STA_6038_M_UNIT : Z := 1.

(** The drive table: the 6038, then the all-zero terminator. *)
Definition TYPE_6038 : Z := 0.
Definition SECT_6038 : Z := 8.
Definition SURF_6038 : Z := 1.
Definition CYL_6038  : Z := 77.
Definition SIZE_6038 : Z := SECT_6038 * SURF_6038 * CYL_6038 * DKT_NUMWD.
Definition NFMT_6038 : bool := false.

Definition drv_end : drvtyp := mkDRV 0 0 0 0 false.
Definition drv_tab_entries : list drvtyp :=
  [ mkDRV SECT_6038 SURF_6038 CYL_6038 SIZE_6038 NFMT_6038; drv_end ].
Definition drv_tab (t : Z) : drvtyp := nth (Z.to_nat t) drv_tab_entries drv_end.

(** Sector timing of the simulated drive. *)
Definition DKT_SIM_SECTORTIME : Z := 500.
Definition DKT_SIM_ADDRTIME   : Z := 5.
Definition DKT_SIM_DATATIME   : Z := 490.

(** The program-load ROM, read byte by byte through [DIAS]. *)
Definition progload_rom_6038 : list Z :=
  [
    0x00; 0x07; 0xff; 0xc0; 0x00; 0x3f; 0xff; 0xd9; 0x00; 0x59; 0x28; 0x58;
    0x21; 0xfc; 0x8f; 0x00; 0x49; 0x38; 0xa8; 0x00; 0x11; 0x29; 0x11; 0x29;
    0x11; 0x2a; 0x11; 0x2b; 0xab; 0x04; 0x01; 0xfb; 0x21; 0xf3; 0x31; 0xf3;
    0x2a; 0x00; 0xda; 0xc0; 0xfb; 0xc0; 0x4b; 0x00; 0xd3; 0x00; 0x83; 0x04;
    0x01; 0xfa; 0x03; 0xdb; 0x62; 0xbf; 0x65; 0xbf; 0x09; 0x15; 0x01; 0x04;
    0x01; 0xfe; 0x85; 0x50; 0x09; 0x11; 0xaa; 0x4b; 0x01; 0xfd; 0x85; 0x00;
    0x09; 0x0e; 0xae; 0x4b; 0x01; 0xfe; 0x21; 0x18; 0x09; 0x0a; 0xc4; 0x1c;
    0x01; 0xfe; 0x82; 0x50; 0x09; 0x06; 0x01; 0x02; 0x01; 0xec; 0x21; 0x11;
    0x00; 0xff; 0xd4; 0x91; 0xd4; 0x00; 0x62; 0x3f; 0x67; 0x7f; 0x01; 0xff;
    0x68; 0xff; 0xcf; 0x00; 0x75; 0x7f; 0xd2; 0x90; 0xd2; 0x90; 0xaa; 0x8b;
    0xaa; 0x52; 0x03; 0x01; 0x03; 0x00; 0x00; 0x08; 0x00; 0x44; 0x00 ].

Record state : Type := mkState {
  dkt_6038_sc  : Z;          (* specify command register *)
  dkt_6038_ma  : Z;          (* memory address counter register *)
  dkt_6038_ca  : Z;          (* current address register *)
  dkt_6038_progload_romaddr : Z;
  dkt_sta      : Z;          (* status register *)
  dkt_swait    : Z;
  dkt_rwait    : Z;          (* rotate latency *)
  dkt_settle   : Z;          (* settle time *)
  dkt_step     : Z;          (* head step time *)
  dkt_sectwait : Z;
  dev_busy     : bool;
  dev_done     : bool;
  dev_disable  : bool;
  int_req      : bool;
  dkt_unit     : units;      (* two drives, then the sector timer *)
  M            : mem;
  cpu          : cpu_env;
  sim_clock_queue : queue
}.

Definition set_sc v s := mkState v (dkt_6038_ma s) (dkt_6038_ca s)
  (dkt_6038_progload_romaddr s) (dkt_sta s) (dkt_swait s) (dkt_rwait s) (dkt_settle s)
  (dkt_step s) (dkt_sectwait s) (dev_busy s) (dev_done s) (dev_disable s) (int_req s)
  (dkt_unit s) (M s) (cpu s) (sim_clock_queue s).
Definition set_ma v s := mkState (dkt_6038_sc s) v (dkt_6038_ca s)
  (dkt_6038_progload_romaddr s) (dkt_sta s) (dkt_swait s) (dkt_rwait s) (dkt_settle s)
  (dkt_step s) (dkt_sectwait s) (dev_busy s) (dev_done s) (dev_disable s) (int_req s)
  (dkt_unit s) (M s) (cpu s) (sim_clock_queue s).
Definition set_ca v s := mkState (dkt_6038_sc s) (dkt_6038_ma s) v
  (dkt_6038_progload_romaddr s) (dkt_sta s) (dkt_swait s) (dkt_rwait s) (dkt_settle s)
  (dkt_step s) (dkt_sectwait s) (dev_busy s) (dev_done s) (dev_disable s) (int_req s)
  (dkt_unit s) (M s) (cpu s) (sim_clock_queue s).
Definition set_romaddr v s := mkState (dkt_6038_sc s) (dkt_6038_ma s) (dkt_6038_ca s)
  v (dkt_sta s) (dkt_swait s) (dkt_rwait s) (dkt_settle s)
  (dkt_step s) (dkt_sectwait s) (dev_busy s) (dev_done s) (dev_disable s) (int_req s)
  (dkt_unit s) (M s) (cpu s) (sim_clock_queue s).
Definition set_sta v s := mkState (dkt_6038_sc s) (dkt_6038_ma s) (dkt_6038_ca s)
  (dkt_6038_progload_romaddr s) v (dkt_swait s) (dkt_rwait s) (dkt_settle s)
  (dkt_step s) (dkt_sectwait s) (dev_busy s) (dev_done s) (dev_disable s) (int_req s)
  (dkt_unit s) (M s) (cpu s) (sim_clock_queue s).
Definition set_busy v s := mkState (dkt_6038_sc s) (dkt_6038_ma s) (dkt_6038_ca s)
  (dkt_6038_progload_romaddr s) (dkt_sta s) (dkt_swait s) (dkt_rwait s) (dkt_settle s)
  (dkt_step s) (dkt_sectwait s) v (dev_done s) (dev_disable s) (int_req s)
  (dkt_unit s) (M s) (cpu s) (sim_clock_queue s).
Definition set_done v s := mkState (dkt_6038_sc s) (dkt_6038_ma s) (dkt_6038_ca s)
  (dkt_6038_progload_romaddr s) (dkt_sta s) (dkt_swait s) (dkt_rwait s) (dkt_settle s)
  (dkt_step s) (dkt_sectwait s) (dev_busy s) v (dev_disable s) (int_req s)
  (dkt_unit s) (M s) (cpu s) (sim_clock_queue s).
Definition set_int_req v s := mkState (dkt_6038_sc s) (dkt_6038_ma s) (dkt_6038_ca s)
  (dkt_6038_progload_romaddr s) (dkt_sta s) (dkt_swait s) (dkt_rwait s) (dkt_settle s)
  (dkt_step s) (dkt_sectwait s) (dev_busy s) (dev_done s) (dev_disable s) v
  (dkt_unit s) (M s) (cpu s) (sim_clock_queue s).
Definition set_units v s := mkState (dkt_6038_sc s) (dkt_6038_ma s) (dkt_6038_ca s)
  (dkt_6038_progload_romaddr s) (dkt_sta s) (dkt_swait s) (dkt_rwait s) (dkt_settle s)
  (dkt_step s) (dkt_sectwait s) (dev_busy s) (dev_done s) (dev_disable s) (int_req s)
  v (M s) (cpu s) (sim_clock_queue s).
Definition set_M v s := mkState (dkt_6038_sc s) (dkt_6038_ma s) (dkt_6038_ca s)
  (dkt_6038_progload_romaddr s) (dkt_sta s) (dkt_swait s) (dkt_rwait s) (dkt_settle s)
  (dkt_step s) (dkt_sectwait s) (dev_busy s) (dev_done s) (dev_disable s) (int_req s)
  (dkt_unit s) v (cpu s) (sim_clock_queue s).
Definition set_queue v s := mkState (dkt_6038_sc s) (dkt_6038_ma s) (dkt_6038_ca s)
  (dkt_6038_progload_romaddr s) (dkt_sta s) (dkt_swait s) (dkt_rwait s) (dkt_settle s)
  (dkt_step s) (dkt_sectwait s) (dev_busy s) (dev_done s) (dev_disable s) (int_req s)
  (dkt_unit s) (M s) (cpu s) v.

Definition DEV_SET_BUSY := set_busy true.
Definition DEV_CLR_BUSY := set_busy false.
Definition DEV_SET_DONE := set_done true.
Definition DEV_CLR_DONE := set_done false.
Definition DEV_IS_BUSY (s : state) : bool := dev_busy s.
Definition DEV_UPDATE_INTR (s : state) : state :=
  set_int_req (dev_done s && negb (dev_disable s)) s.

Definition uptr (s : state) (u : Z) : UNIT := unit_at (dkt_unit s) u.
Definition with_unit (u : Z) (f : UNIT -> UNIT) (s : state) : state :=
  set_units (upd_unit u f (dkt_unit s)) s.
Definition or_sta (m : Z) (s : state) : state := set_sta (Z.lor (dkt_sta s) m) s.
Definition clr_sta (m : Z) (s : state) : state :=
  set_sta (Z.land (dkt_sta s) (Z.lnot m)) s.

Definition sim_activate (u t : Z) (s : state) : state :=
  set_queue (Sim.sim_activate u t (sim_clock_queue s)) s.
Definition sim_activate_after (u t : Z) (s : state) : state :=
  set_queue (Sim.sim_activate_after u t (sim_clock_queue s)) s.
Definition sim_cancel (u : Z) (s : state) : state :=
  set_queue (Sim.sim_cancel u (sim_clock_queue s)) s.
Definition sim_is_active (u : Z) (s : state) : bool :=
  Sim.sim_is_active u (sim_clock_queue s).

Definition CA_6038_SETADDR (trk sc : Z) (s : state) : state :=
  set_ca (Z.lor (Z.shiftl (Z.land trk CA_6038_M_TRACK) CA_6038_V_TRACK)
                (Z.shiftl (Z.land sc CA_6038_M_SECTOR) CA_6038_V_SECTOR)) s.

Definition STA_6038_SET_UNIT (x : Z) (s : state) : state :=
  set_sta (Z.lor (Z.land (dkt_sta s)
                         (Z.lnot (Z.shiftl STA_6038_M_UNIT STA_6038_V_UNIT)))
                 (Z.shiftl (Z.land x STA_6038_M_UNIT) STA_6038_V_UNIT)) s.

(** The closing lines of [dkt] and [dkt_svc]: a general error raises the
    summary error bit. *)
Definition general_error (s : state) : state :=
  if tst (dkt_sta s) STA_FLGS_GENERAL_ERROR then or_sta STA_6038_ERROR s else s.

(** *** Command dispatch: [dkt_go] *)
Definition dkt_go (pulse : io_pulse) (s : state) : bool * state :=
  let s := clr_sta STA_EFLGS s in                       (* clear errors *)
  let u := SC_6038_GET_UNIT (dkt_6038_sc s) in          (* get unit number *)
  if negb (UNIT_ATT (uptr s u)) || sim_is_active u s then
    (false, or_sta STA_6038_ERROR s)                    (* attached or busy? *)
  else
    let s := with_unit u (set_FUNC (SC_6038_GET_CMD (dkt_6038_sc s))) s in
    let f := FUNC (uptr s u) in
    if f =? SC_6038_SETTLE then
      (true, sim_activate u (dkt_settle s) s)           (* schedule head settle *)
    else if (f =? SC_6038_STEPIN) || (f =? SC_6038_STEPOUT) then
      (true, sim_activate u (dkt_step s) s)             (* schedule head step *)
    else if (f =? SC_6038_FORMAT0) || (f =? SC_6038_FORMATNEXT) then
      if UNIT_WPRT (uptr s u)
      then (false, set_sta (Z.land (dkt_sta s) STA_6038_WRITEPROT) s)
      else (true, sim_activate u (dkt_rwait s) s)
    else
      (* read preamble, read next and write next wait for the sector timer *)
      (true, s).

(** *** Unit service: [dkt_svc]

    The byte offset of the sector is stored in the [int32] variable [bda]:
    from cylinder 2^19 on it no longer fits, becomes negative and the seek
    fails.  The routine does not test [UNIT_ATT]; [dkt_go] records a command
    only for an attached drive, and for a drive without a stream the source
    does not return from the seek, so the transfer arm stands for attached
    drives only. *)

Definition dkt_dma_in (tbuf : list Z) (s : state) : state :=
  let '(m, ma) := dma_in (cpu s) 0 tbuf (M s) (dkt_6038_ma s) in
  set_ma ma (set_M m s).

Definition dkt_dma_out (n : nat) (s : state) : list Z * state :=
  let '(ws, ma) := dma_out (cpu s) 0 n (M s) (dkt_6038_ma s) in
  (ws, set_ma ma s).

Definition dkt_svc (u : Z) (s : state) : t_stat * state :=
  let dtype := GET_DTYPE (uptr s u) in
  let f := FUNC (uptr s u) in
  let '(rval, s) :=
    if f =? SC_6038_SETTLE then (SCPE_OK, or_sta STA_6038_HEADON s)
    else if f =? SC_6038_STEPIN then
      let s := with_unit u (fun up => set_CYL (CYL up + 1) up) s in
      (SCPE_OK, clr_sta STA_6038_TRACK0 s)
    else if f =? SC_6038_STEPOUT then
      let s := if negb (CYL (uptr s u) =? 0)
               then with_unit u (fun up => set_CYL (CYL up - 1) up) s else s in
      (SCPE_OK, if CYL (uptr s u) =? 0 then or_sta STA_6038_TRACK0 s else s)
    else if f =? SC_6038_READPREAMB then
      (SCPE_OK, CA_6038_SETADDR (CYL (uptr s u)) (SECT (uptr s u)) s)
    else if (f =? SC_6038_READNEXT) || (f =? SC_6038_WRITENEXT) then
      let s := CA_6038_SETADDR (CYL (uptr s u)) (SECT (uptr s u)) s in
      if negb (SECT (uptr s u) =? SC_6038_GET_SECT (dkt_6038_sc s)) then
        (SCPE_OK, or_sta STA_6038_SECTORERR s)
      else
        let sa := GET_SA (CYL (uptr s u)) 0 (SECT (uptr s u)) (drv_tab dtype) in
        let bda := to_int32 (sa * DKT_NUMWD * 2) in     (* to words, bytes *)
        let '(err, fl) := fseek (fileref (uptr s u)) bda in
        let '(err, fl, s) :=
          if err =? 0 then
            if FUNC (uptr s u) =? SC_6038_READNEXT then
              let '(ws, fl) := fxread DKT_NUMWD fl in
              let tbuf := ws ++ repeat 0 (Z.to_nat DKT_NUMWD - length ws) in
              if ferror fl then (true, fl, s)
              else (false, fl, dkt_dma_in tbuf s)
            else
              let '(tbuf, s) := dkt_dma_out (Z.to_nat DKT_NUMWD) s in
              let fl := fxwrite tbuf fl in
              (ferror fl, fl, s)
          else (true, fl, s) in
        if err
        then (SCPE_IOERR, with_unit u (set_fileref (clearerr fl)) s)
        else (SCPE_OK, with_unit u (set_fileref fl) s)
    else if (f =? SC_6038_FORMAT0) || (f =? SC_6038_FORMATNEXT) then (SCPE_OK, s)
    else (SCPE_OK, or_sta (Z.lor STA_6038_ILLEGAL STA_6038_ERROR) s) in
  let s := if CYL (uptr s u) =? 0
           then or_sta STA_6038_TRACK0 s else clr_sta STA_6038_TRACK0 s in
  let s := general_error s in
  (rval, DEV_UPDATE_INTR (DEV_SET_DONE (DEV_CLR_BUSY s))).

(** *** Sector timer: [dkt_tmrsvc]

    Simulates the next sector coming up under the head. *)
Fixpoint advance_sectors (n : nat) (u : Z) (s : state) : state :=
  match n with
  | O => s
  | S n' =>
      advance_sectors n' (u + 1)
        (with_unit u (fun up => set_SECT (Z.land (SECT up + 1) 7) up) s)
  end.

Definition dkt_tmrsvc (tmr : Z) (s : state) : t_stat * state :=
  let s := advance_sectors (Z.to_nat DKT_NUMDR) 0 s in    (* loop thru units *)
  let s :=
    if DEV_IS_BUSY s then
      (* a read preamble, read or write command may be pending *)
      let u := SC_6038_GET_UNIT (dkt_6038_sc s) in      (* get unit number *)
      if negb (sim_is_active u s) then
        let f := FUNC (uptr s u) in
        if f =? SC_6038_READPREAMB
        then sim_activate_after u DKT_SIM_ADDRTIME s
        else if f =? SC_6038_READNEXT
        then sim_activate_after u (DKT_SIM_ADDRTIME + DKT_SIM_DATATIME) s
        else if f =? SC_6038_WRITENEXT
        then sim_activate_after u (DKT_SIM_ADDRTIME + DKT_SIM_DATATIME) s
        else s
      else s
    else s in
  (SCPE_OK, sim_activate_after tmr DKT_SIM_SECTORTIME s). (* reactivate *)

(** *** Reset routine: [dkt_reset] *)
Fixpoint reset_units (n : nat) (u : Z) (s : state) : state :=
  match n with
  | O => s
  | S n' =>
      let s := sim_cancel u s in                        (* cancel activity *)
      let s := with_unit u (set_FUNC 0) s in
      let s := with_unit u (set_SECT (FUNC (uptr s u))) s in
      let s := with_unit u (set_CYL (SECT (uptr s u))) s in
      reset_units n' (u + 1) s
  end.

Definition dkt_reset (s : state) : t_stat * state :=
  let s := DEV_UPDATE_INTR (DEV_CLR_DONE (DEV_CLR_BUSY s)) in
  let s := set_sta 0 s in
  let s := set_romaddr (dkt_sta s) s in
  let s := set_ca (dkt_6038_progload_romaddr s) s in
  let s := set_ma (dkt_6038_ca s) s in
  let s := set_sc (dkt_6038_ma s) s in
  let s := reset_units (Z.to_nat DKT_NUMDR) 0 s in
  let s := sim_cancel DKT_TIMER s in
  (SCPE_OK, sim_activate_after DKT_TIMER DKT_SIM_SECTORTIME s).

(** *** IOT routine: [dkt] *)
Definition dkt (pulse : io_pulse) (code : io_code) (AC : Z) (s : state)
  : Z * state :=
  let u := SC_6038_GET_UNIT (dkt_6038_sc s) in          (* last selected unit *)
  let '(rval, s) :=
    match pulse with
    | iopS =>
        if sim_is_active u s then (0, or_sta STA_6038_ERROR s)   (* busy! *)
        else
          (* clear error flags, set busy, clear done *)
          let s := DEV_CLR_DONE (DEV_SET_BUSY (clr_sta STA_FLGS_SCLR s)) in
          match code with
          | ioNIO =>
              (0, set_romaddr 0 (DEV_UPDATE_INTR (DEV_SET_DONE (DEV_CLR_BUSY s))))
          | ioDIA =>                                    (* program load ROM *)
              let rval := nth (Z.to_nat (dkt_6038_progload_romaddr s))
                              progload_rom_6038 0 in
              let s := set_romaddr (dkt_6038_progload_romaddr s + 1) s in
              (rval, DEV_UPDATE_INTR (DEV_SET_DONE (DEV_CLR_BUSY s)))
          | ioDOA =>
              let newu := SC_6038_GET_UNIT AC in        (* select drive *)
              let s :=
                if negb (newu =? u) then
                  (* different drive: restore its last known address *)
                  let s := STA_6038_SET_UNIT newu s in
                  CA_6038_SETADDR (CYL (uptr s newu)) (SECT (uptr s newu)) s
                else s in
              let s := set_sc AC s in
              let '(ok, s) := dkt_go pulse s in         (* do command *)
              if ok then (0, s)
              else (0, DEV_UPDATE_INTR (DEV_SET_DONE (DEV_CLR_BUSY s)))
          | _ => (0, s)
          end
    | _ =>
        let '(rval, s) :=
          match code with
          | ioDIA => (dkt_sta s, s)                     (* read status *)
          | ioDIB => (Z.land (dkt_6038_ma s) 32767, s)  (* read memory address *)
          | ioDOB => (0, set_ma (Z.land AC 32767) s)
          | ioDIC => (dkt_6038_ca s, s)
          | _ => (0, s)
          end in
        match pulse with
        | iopC =>
            (* clear all error flags, clear busy, clear done *)
            let s := DEV_UPDATE_INTR (DEV_CLR_DONE (DEV_CLR_BUSY s)) in
            let u := SC_6038_GET_UNIT (dkt_6038_sc s) in
            let s := clr_sta STA_EFLGS s in             (* clear controller flags *)
            (rval, sim_cancel u s)                      (* cancel any r/w op *)
        | _ => (rval, s)
        end
    end in
  (rval, general_error s).

(** Modelled from the spec: one turn of the scheduler's dispatch loop on this
    device.  The first queued unit fires: the sector timer runs [dkt_tmrsvc],
    a drive runs [dkt_svc].  The result names the unit and the time passed. *)
Definition sim_process_event (s : state) : option (Z * Z * state) :=
  match sim_next_event (sim_clock_queue s) with
  | None => None
  | Some (u, t, q) =>
      let s := set_queue q s in
      Some (u, t, snd (if u =? DKT_TIMER then dkt_tmrsvc u s else dkt_svc u s))
  end.

End DKT.

(** * Vocabulary of the properties *)

Import Sim.

(** A cylinder, surface, sector triple that the geometry admits. *)
Definition chs_valid (G : drvtyp) (c h s : Z) : Prop :=
  0 <= c < cyl G /\ 0 <= h < surf G /\ 0 <= s < sect G.

(** Lexicographic order on (cylinder, surface, sector). *)
Definition chs_lt (c h s c' h' s' : Z) : Prop :=
  c < c' \/ (c = c' /\ (h < h' \/ (h = h' /\ s < s'))).

(** The sizes of a geometry are counts. *)
Definition geometry_ok (G : drvtyp) : Prop :=
  0 <= sect G /\ 0 <= surf G /\ 0 <= cyl G.

(** A MicroNOVA without memory map: 32K words, addresses passed through. *)
Definition nova_cpu : cpu_env := mkCPU 32767 32768 (fun _ a => a).

(** A disk image of [n] words, word [i] holding [i mod 65536]. *)
Definition image (n : Z) : FILE :=
  mkFILE (map (fun i => Z.of_nat i mod 65536) (seq 0 (Z.to_nat n))) 0 false false.

(** The hard-disk controller as built: registers at their initial values,
    no unit attached, nothing queued. *)
Definition dhp_power_on : DHP.state :=
  DHP.mkState 0 0 0 0 0 100 100 false false false false false
    (fun _ => idle_unit) (fun _ => 0) nova_cpu [].

(** The same with a disk in unit 0. *)
Definition dhp_attached (wprt : bool) (f : FILE) : DHP.state :=
  DHP.with_unit 0 (fun _ => mkUNIT true wprt 0 0 0 0 f) dhp_power_on.

(** A read of cylinder 0 started on unit 0 ([DOAS] with all fields zero), and
    a seek to cylinder 5 started with [DOAP]. *)
Definition dhp_reading : DHP.state :=
  snd (DHP.dhp iopS ioDOA 0 (dhp_attached false (image 0))).
Definition dhp_seeking : DHP.state :=
  snd (DHP.dhp iopP ioDOA 517 (dhp_attached false (image 0))).

(** The floppy controller as built, and with a diskette in drive 0. *)
Definition dkt_power_on : DKT.state :=
  DKT.mkState 0 0 0 0 0 100 100 10 1 16 false false false false
    (fun _ => idle_unit) (fun _ => 0) nova_cpu [].

Definition dkt_attached (wprt : bool) (f : FILE) : DKT.state :=
  DKT.with_unit 0 (fun _ => mkUNIT true wprt 0 0 0 0 f) dkt_power_on.

(** The scheduler run for [n] events on the floppy controller: the units that
    fired with the time each waited, and the state reached. *)
Fixpoint dkt_run (n : nat) (s : DKT.state) : list (Z * Z) * DKT.state :=
  match n with
  | O => ([], s)
  | S n' =>
      match DKT.sim_process_event s with
      | None => ([], s)
      | Some (u, t, s') =>
          let '(tr, s'') := dkt_run n' s' in ((u, t) :: tr, s'')
      end
  end.

(** The floppy controller after reset with a diskette of sixteen sectors in
    drive 0, write-protected or not; sector 0 is under the head. *)
Definition dkt_ready (wprt : bool) : DKT.state :=
  snd (DKT.dkt_reset (dkt_attached wprt (image 4096))).

(** [DOAS] of read next for sector 5 of drive 0. *)
Definition dkt_read5 : DKT.state :=
  snd (DKT.dkt iopS ioDOA 1296 (dkt_ready false)).

(** A two-sector read on unit 0 that starts at the last sector of the last
    surface of cylinder 0: surface 3, sector 11, count field 14. *)
Definition dhp_last_sector : DHP.state :=
  DHP.set_ussc 958 (dhp_attached false (image 12288)).

(** The same register once the first sector is done: sector field 12. *)
Definition dhp_sector_overflow : DHP.state :=
  DHP.set_ussc 975 (dhp_attached false (image 12288)).

(** [DOAS] of write next for sector 1 of drive 0, whose diskette is write
    locked while its image file is open for writing. *)
Definition dkt_write1_protected : DKT.state :=
  snd (DKT.dkt iopS ioDOA 288 (dkt_ready true)).

(** The fields of the register after [DHP_UPDATE_USSC], old format. *)
Definition ussc_old (ussc count sf sc : Z) : Z :=
  Z.lor (Z.lor (Z.land ussc DHP.USSC_UNIT) (Z.land (ussc + count) DHP.USSC_M_COUNT))
        (Z.lor (Z.shiftl sf DHP.USSC_V_OSURFACE) (Z.shiftl sc DHP.USSC_V_OSECTOR)).

(** What holds at the start of every pass of the read/write loop: the surface
    is below the surface count and the sector is at most the sector count. *)
Definition dhp_rw_inv (u : Z) (s : DHP.state) : Prop :=
  let dtype := GET_DTYPE (DHP.uptr s u) in
  DHP.GET_SURF (DHP.dhp_ussc s) dtype < surf (DHP.drv_tab dtype) /\
  DHP.GET_SECT (DHP.dhp_ussc s) dtype <= sect (DHP.drv_tab dtype).

(** The states in which a pass of the loop that began in [s0] starts. *)
Inductive dhp_rw_pass (u : Z) (s0 : DHP.state) : DHP.state -> Prop :=
| pass_first : dhp_rw_pass u s0 s0
| pass_next s s' rval rval' :
    dhp_rw_pass u s0 s ->
    DHP.dhp_rw_body u s rval = (s', rval', DHP.Next) ->
    DHP.GET_COUNT (DHP.dhp_ussc s') <> 0 ->
    dhp_rw_pass u s0 s'.

(** The unit array of the hard disk has entries beyond the [DHP_NUMDR] units
    of the device.  They are idle when nothing is attached to them, their
    function and cylinder are zero and the queue holds no event for them. *)
Definition dhp_spare_idle (s : DHP.state) : Prop :=
  forall v, DHP.DHP_NUMDR <= v ->
    UNIT_ATT (DHP.uptr s v) = false /\ FUNC (DHP.uptr s v) = 0 /\
    CYL (DHP.uptr s v) = 0 /\ DHP.sim_is_active v s = false.

(** What the service routine of unit [u] leaves alone: every other unit and
    the event queue. *)
Definition dhp_frame (u : Z) (s s' : DHP.state) : Prop :=
  (forall v, v <> u -> DHP.uptr s' v = DHP.uptr s v) /\
  DHP.sim_clock_queue s' = DHP.sim_clock_queue s.

(** ** Vocabulary of the further properties *)

(** The functions a hard-disk unit can have pending: the dispatcher stores
    read, write or seek, a recalibrate being stored as a seek. *)
Definition func_ok (f : Z) : Prop :=
  f = DHP.FCCY_READ \/ f = DHP.FCCY_WRITE \/ f = DHP.FCCY_SEEK.
Definition dhp_func_ok (s : DHP.state) : Prop :=
  forall v, func_ok (FUNC (DHP.uptr s v)).

(** What a transfer does to memory: nothing outside the addresses that pass
    [MEM_ADDR_OK], and nothing at all unless it reads from disk. *)
Definition dhp_mem_rel (rd : bool) (s s' : DHP.state) : Prop :=
  DHP.cpu s' = DHP.cpu s /\
  (forall a, MEM_ADDR_OK (DHP.cpu s) a = false -> DHP.M s' a = DHP.M s a) /\
  (rd = false -> DHP.M s' = DHP.M s).

(** The commands the floppy service routine has an arm for. *)
Definition dkt_func_known (f : Z) : bool :=
  (f =? DKT.SC_6038_SETTLE) || (f =? DKT.SC_6038_STEPIN) ||
  (f =? DKT.SC_6038_STEPOUT) || (f =? DKT.SC_6038_READPREAMB) ||
  (f =? DKT.SC_6038_READNEXT) || (f =? DKT.SC_6038_WRITENEXT) ||
  (f =? DKT.SC_6038_FORMAT0) || (f =? DKT.SC_6038_FORMATNEXT).

(** Every queued event of the floppy controller is the sector timer or a
    drive whose pending command the service routine knows. *)
Definition dkt_queue_ok (s : DKT.state) : Prop :=
  forall v, DKT.sim_is_active v s = true ->
    v = DKT.DKT_TIMER \/ dkt_func_known (FUNC (DKT.uptr s v)) = true.

(** [n] bytes of the program-load ROM read one after the other with [DIAS]. *)
Fixpoint dkt_rom_read (n : nat) (s : DKT.state) : list Z * DKT.state :=
  match n with
  | O => ([], s)
  | S n' =>
      let '(b, s1) := DKT.dkt iopS ioDIA 0 s in
      let '(bs, s2) := dkt_rom_read n' s1 in
      (b :: bs, s2)
  end.

(** The byte offset of the sector under the head of unit [u], as the
    variable [bda] of [dkt_svc] holds it. *)
Definition dkt_bda (u : Z) (s : DKT.state) : Z :=
  to_int32 (GET_SA (CYL (DKT.uptr s u)) 0 (SECT (DKT.uptr s u))
                   (DKT.drv_tab (GET_DTYPE (DKT.uptr s u))) * DKT.DKT_NUMWD * 2).

(** The first cylinder whose byte offset leaves the 32 bits, and the first
    at which the offset arithmetic itself overflows. *)
Definition DKT_CYL_FIT : Z := 524288.                 (* 2^19 *)
Definition DKT_CYL_DEFINED : Z := 1048576.            (* 2^20 *)

(** A CPU whose data channel sees memory flat: 32K words, map 0 the identity. *)
Definition flat_cpu (c : cpu_env) : Prop :=
  AMASK c = 32767 /\ MEMSIZE c = 32768 /\ forall a, MapAddr c 0 a = a.

(** The heads of both drives are on the disk: a cylinder that is not
    negative and one of the eight sectors. *)
Definition dkt_heads_ok (s : DKT.state) : Prop :=
  forall d, 0 <= d < DKT.DKT_NUMDR ->
    0 <= CYL (DKT.uptr s d) /\ 0 <= SECT (DKT.uptr s d) < DKT.SECT_6038.

(** The word the current address register holds for a head position. *)
Definition dkt_ca_of (up : UNIT) : Z :=
  Z.lor (Z.shiftl (Z.land (CYL up) DKT.CA_6038_M_TRACK) DKT.CA_6038_V_TRACK)
        (Z.shiftl (Z.land (SECT up) DKT.CA_6038_M_SECTOR) DKT.CA_6038_V_SECTOR).

(** A diskette whose image file is open for reading only, with write next
    pending on drive 0. *)
Definition dkt_write_rdonly : DKT.state :=
  DKT.with_unit 0
    (fun _ => mkUNIT true false 0 DKT.SC_6038_WRITENEXT 0 0 (mkFILE [] 0 false true))
    dkt_power_on.

(** Read next pending on drive 0, which has been stepped in to cylinder
    2^19. *)
Definition dkt_far_out : DKT.state :=
  DKT.with_unit 0
    (fun _ => mkUNIT true false 0 DKT.SC_6038_READNEXT DKT_CYL_FIT 0 (image 0))
    dkt_power_on.

(** Write next pending on drive 0 for sector 0, memory word [a] holding [a]. *)
Definition dkt_writing : DKT.state :=
  DKT.set_M (fun a => a)
    (DKT.with_unit 0
       (fun _ => mkUNIT true false 0 DKT.SC_6038_WRITENEXT 0 0 (image 0))
       dkt_power_on).

(** The sector written, then read next pending for it. *)
Definition dkt_reading_back : DKT.state :=
  DKT.with_unit 0 (set_FUNC DKT.SC_6038_READNEXT)
    (snd (DKT.dkt_svc 0 dkt_writing)).

(** * Properties *)

(** ** Flag words, bit by bit *)

Lemma land_pow2 (x k : Z) :
  0 <= k -> Z.land x (2 ^ k) = if Z.testbit x k then 2 ^ k else 0.
Proof.
  intros Hk. apply Z.bits_inj'. intros n Hn.
  rewrite Z.land_spec, Z.pow2_bits_eqb by assumption.
  destruct (Z.eqb_spec k n) as [->|Hne].
  - destruct (Z.testbit x n); simpl.
    + rewrite Z.pow2_bits_eqb, Z.eqb_refl by assumption. reflexivity.
    + now rewrite Z.bits_0.
  - rewrite andb_false_r.
    destruct (Z.testbit x k).
    + rewrite Z.pow2_bits_eqb by assumption.
      symmetry. now apply Z.eqb_neq.
    + now rewrite Z.bits_0.
Qed.

Lemma tst_pow2 (x m k : Z) :
  m = 2 ^ k -> 0 <= k -> tst x m = Z.testbit x k.
Proof.
  intros -> Hk. unfold tst. rewrite land_pow2 by assumption.
  assert (0 < 2 ^ k) by (apply Z.pow_pos_nonneg; lia).
  destruct (Z.testbit x k); simpl.
  - destruct (Z.eqb_spec (2 ^ k) 0); [lia | reflexivity].
  - reflexivity.
Qed.

Lemma tst_lor (x a b : Z) : tst x (Z.lor a b) = tst x a || tst x b.
Proof.
  unfold tst. rewrite Z.land_lor_distr_r.
  destruct (Z.eqb_spec (Z.land x a) 0) as [Ha|Ha];
    destruct (Z.eqb_spec (Z.land x b) 0) as [Hb|Hb]; simpl;
    destruct (Z.eqb_spec (Z.lor (Z.land x a) (Z.land x b)) 0) as [H|H];
    try reflexivity.
  - exfalso. apply H. rewrite Ha, Hb. reflexivity.
  - apply Z.lor_eq_0_iff in H. tauto.
  - apply Z.lor_eq_0_iff in H. tauto.
  - apply Z.lor_eq_0_iff in H. tauto.
Qed.

(** Case analysis on every condition of the goal. *)
Ltac split_ifs :=
  repeat match goal with
    | |- context [if ?b then _ else _] => destruct b
    end.

(** Rewrites a test of bit [k] (mask [m]) into [Z.testbit]. *)
Ltac tst_bit m k :=
  rewrite ?(tst_pow2 _ m k) in * by (reflexivity || lia).

(** Pushes [Z.testbit] through the bitwise operators and evaluates it on
    numerals. *)
Ltac eval_bits :=
  repeat first
    [ rewrite Z.lor_spec | rewrite Z.land_spec
    | rewrite Z.lnot_spec by lia
    | rewrite Z.shiftl_spec by lia | rewrite Z.shiftr_spec by lia ];
  repeat match goal with
    | |- context [Z.testbit (Zpos ?p) (Zpos ?q)] =>
        let b := eval vm_compute in (Z.testbit (Zpos p) (Zpos q)) in
        change (Z.testbit (Zpos p) (Zpos q)) with b
    | |- context [Z.testbit (Zpos ?p) 0] =>
        let b := eval vm_compute in (Z.testbit (Zpos p) 0) in
        change (Z.testbit (Zpos p) 0) with b
    | |- context [Z.testbit 0 ?q] => rewrite (Z.bits_0 q)
    end;
  rewrite ?andb_true_r, ?andb_false_r, ?orb_true_r, ?orb_false_r,
          ?andb_true_l, ?andb_false_l, ?orb_true_l, ?orb_false_l; simpl negb.

(** ** Linear block address (claim C5) *)

Section LinearAddress.

Variable G : drvtyp.
Hypothesis Gok : geometry_ok G.

Lemma GET_SA_range c h s :
  chs_valid G c h s -> 0 <= GET_SA c h s G < cyl G * surf G * sect G.
Proof.
  unfold chs_valid, GET_SA. intros (Hc & Hh & Hs).
  assert (0 <= c * surf G + h) by nia.
  assert (c * surf G + h + 1 <= cyl G * surf G) by nia.
  split; [nia|].
  assert ((c * surf G + h + 1) * sect G <= cyl G * surf G * sect G)
    by (apply Z.mul_le_mono_nonneg_r; lia).
  nia.
Qed.

Lemma GET_SA_mono c h s c' h' s' :
  chs_valid G c h s -> chs_valid G c' h' s' ->
  chs_lt c h s c' h' s' -> GET_SA c h s G < GET_SA c' h' s' G.
Proof.
  unfold chs_valid, chs_lt, GET_SA.
  intros (Hc & Hh & Hs) (Hc' & Hh' & Hs') Hlt.
  destruct Hlt as [Hlt | (-> & [Hlt | (-> & Hlt)])].
  - assert (c * surf G + h + 1 <= c' * surf G + h') by nia.
    assert ((c * surf G + h + 1) * sect G <= (c' * surf G + h') * sect G)
      by (apply Z.mul_le_mono_nonneg_r; lia).
    nia.
  - assert ((c' * surf G + h + 1) * sect G <= (c' * surf G + h') * sect G)
      by (apply Z.mul_le_mono_nonneg_r; lia).
    nia.
  - lia.
Qed.

Lemma GET_SA_inj c h s c' h' s' :
  chs_valid G c h s -> chs_valid G c' h' s' ->
  GET_SA c h s G = GET_SA c' h' s' G -> c = c' /\ h = h' /\ s = s'.
Proof.
  intros V V' E.
  destruct (Z.lt_trichotomy c c') as [L | [-> | L]].
  - pose proof (GET_SA_mono c h s c' h' s' V V' (or_introl L)). lia.
  - destruct (Z.lt_trichotomy h h') as [L | [-> | L]].
    + pose proof (GET_SA_mono c' h s c' h' s' V V'
                    (or_intror (conj eq_refl (or_introl L)))). lia.
    + unfold GET_SA in E. lia.
    + pose proof (GET_SA_mono c' h' s' c' h s V' V
                    (or_intror (conj eq_refl (or_introl L)))). lia.
  - pose proof (GET_SA_mono c' h' s' c h s V' V (or_introl L)). lia.
Qed.

Lemma GET_SA_onto n :
  0 <= n < cyl G * surf G * sect G ->
  exists c h s, chs_valid G c h s /\ GET_SA c h s G = n.
Proof.
  destruct Gok as (HS & HH & HC). intros Hn.
  assert (0 < sect G) by nia.
  assert (0 < surf G) by nia.
  exists (n / sect G / surf G), ((n / sect G) mod surf G), (n mod sect G).
  pose proof (Z.div_mod n (sect G) ltac:(lia)) as E1.
  pose proof (Z.mod_pos_bound n (sect G) ltac:(lia)) as B1.
  pose proof (Z.div_mod (n / sect G) (surf G) ltac:(lia)) as E2.
  pose proof (Z.mod_pos_bound (n / sect G) (surf G) ltac:(lia)) as B2.
  assert (0 <= n / sect G) by (apply Z.div_pos; lia).
  assert (0 <= n / sect G / surf G) by (apply Z.div_pos; lia).
  assert (n / sect G < cyl G * surf G)
    by (apply Z.div_lt_upper_bound; nia).
  assert (n / sect G / surf G < cyl G)
    by (apply Z.div_lt_upper_bound; nia).
  unfold chs_valid, GET_SA. repeat split; lia.
Qed.

End LinearAddress.

(** Claim C5.  For every geometry, the linear block address
    [(c * surf + h) * sect + s] maps the triples with [c < cyl], [h < surf],
    [s < sect] one-to-one onto the interval from 0 up to [cyl * surf * sect],
    and it is strictly increasing in the lexicographic order of (c, h, s). *)
Theorem GET_SA_bijection_monotone (G : drvtyp) (Gok : geometry_ok G) :
  (forall c h s, chs_valid G c h s ->
     0 <= GET_SA c h s G < cyl G * surf G * sect G) /\
  (forall c h s c' h' s', chs_valid G c h s -> chs_valid G c' h' s' ->
     GET_SA c h s G = GET_SA c' h' s' G -> c = c' /\ h = h' /\ s = s') /\
  (forall n, 0 <= n < cyl G * surf G * sect G ->
     exists c h s, chs_valid G c h s /\ GET_SA c h s G = n) /\
  (forall c h s c' h' s', chs_valid G c h s -> chs_valid G c' h' s' ->
     chs_lt c h s c' h' s' -> GET_SA c h s G < GET_SA c' h' s' G).
Proof.
  split; [| split; [| split]].
  - intros c h s. now apply GET_SA_range.
  - intros c h s c' h' s'. now apply GET_SA_inj.
  - intros n. now apply GET_SA_onto.
  - intros c h s c' h' s'. now apply GET_SA_mono.
Qed.

Lemma GET_SA_bijection_monotone_witness :
  0 <= GET_SA 407 3 11 (DHP.drv_tab DHP.TYPE_6095) < 408 * 4 * 12 /\
  GET_SA 0 3 11 (DHP.drv_tab DHP.TYPE_6095)
  < GET_SA 1 0 0 (DHP.drv_tab DHP.TYPE_6095) /\
  (exists c h s, chs_valid (DHP.drv_tab DHP.TYPE_6095) c h s /\
                 GET_SA c h s (DHP.drv_tab DHP.TYPE_6095) = 12345).
Proof.
  assert (E : DHP.drv_tab DHP.TYPE_6095 = mkDRV 12 4 408 5013504 false)
    by reflexivity.
  rewrite E.
  assert (Gok : geometry_ok (mkDRV 12 4 408 5013504 false))
    by (unfold geometry_ok; simpl; lia).
  destruct (GET_SA_bijection_monotone _ Gok) as (R & _ & O & Mn).
  assert (V : forall c h s, 0 <= c < 408 -> 0 <= h < 4 -> 0 <= s < 12 ->
                chs_valid (mkDRV 12 4 408 5013504 false) c h s)
    by (intros; repeat split; simpl; lia).
  split; [|split].
  - apply R, V; lia.
  - apply Mn; [apply V; lia | apply V; lia | left; lia].
  - apply O. simpl. lia.
Defined.

(** ** The event queue *)

Lemma active_pending u q : sim_is_active u q = negb (Nat.eqb (pending u q) 0).
Proof.
  unfold sim_is_active, pending.
  induction q as [|e q IH]; simpl; [reflexivity|].
  destruct (fst e =? u); simpl; [reflexivity | exact IH].
Qed.

Lemma pending_enqueue v u t q :
  pending v (enqueue u t q) = (pending v q + if (u =? v)%Z then 1 else 0)%nat.
Proof.
  unfold pending. induction q as [|e q IH]; simpl.
  - destruct (u =? v); reflexivity.
  - destruct (t <? snd e); simpl.
    + destruct (u =? v); simpl; destruct (fst e =? v); simpl; lia.
    + destruct (fst e =? v); simpl; rewrite IH; lia.
Qed.

Lemma pending_activate v u t q :
  (pending v q <= 1)%nat -> (pending v (sim_activate u t q) <= 1)%nat.
Proof.
  intros H. unfold sim_activate.
  destruct (sim_is_active u q) eqn:E; [assumption|].
  rewrite pending_enqueue.
  destruct (Z.eqb_spec u v) as [->|]; [|lia].
  rewrite active_pending in E.
  destruct (pending v q); [lia | discriminate].
Qed.

Lemma active_cancel u q : sim_is_active u (sim_cancel u q) = false.
Proof.
  unfold sim_is_active, sim_cancel.
  induction q as [|e q IH]; simpl; [reflexivity|].
  destruct (fst e =? u) eqn:E; simpl; [exact IH|].
  rewrite E. exact IH.
Qed.

Lemma active_cancel_other u v q :
  u <> v -> sim_is_active v (sim_cancel u q) = sim_is_active v q.
Proof.
  intros Hne. unfold sim_is_active, sim_cancel.
  induction q as [|e q IH]; simpl; [reflexivity|].
  destruct (Z.eqb_spec (fst e) u) as [E|E]; simpl.
  - destruct (Z.eqb_spec (fst e) v); [congruence | exact IH].
  - now rewrite IH.
Qed.

Lemma time_enqueue u t q :
  sim_is_active u q = false -> sim_activate_time u (enqueue u t q) = Some t.
Proof.
  unfold sim_is_active, sim_activate_time.
  induction q as [|e q IH]; simpl; intros H.
  - now rewrite Z.eqb_refl.
  - apply orb_false_iff in H. destruct H as [He Hq].
    destruct (t <? snd e); simpl.
    + now rewrite Z.eqb_refl.
    + rewrite He. now apply IH.
Qed.

Lemma time_activate u t q :
  sim_is_active u q = false -> sim_activate_time u (sim_activate u t q) = Some t.
Proof.
  intros H. unfold sim_activate. rewrite H. now apply time_enqueue.
Qed.

Lemma active_enqueue v u t q :
  sim_is_active v (enqueue u t q) = (u =? v) || sim_is_active v q.
Proof.
  rewrite !active_pending, pending_enqueue.
  destruct (u =? v); simpl.
  - rewrite Nat.add_1_r. reflexivity.
  - rewrite Nat.add_0_r. reflexivity.
Qed.

Lemma active_activate_other v u t q :
  u <> v -> sim_is_active v (Sim.sim_activate u t q) = sim_is_active v q.
Proof.
  intros Hne. unfold Sim.sim_activate.
  destruct (sim_is_active u q); [reflexivity|].
  rewrite active_enqueue.
  destruct (Z.eqb_spec u v); [contradiction | reflexivity].
Qed.

Lemma pending_cancel u q : pending u (sim_cancel u q) = 0%nat.
Proof.
  pose proof (active_cancel u q) as H. rewrite active_pending in H.
  destruct (pending u (sim_cancel u q)); [reflexivity | discriminate].
Qed.

Lemma pending_activate_idle u t q :
  sim_is_active u q = false -> pending u (Sim.sim_activate u t q) = 1%nat.
Proof.
  intros H. unfold Sim.sim_activate. rewrite H, pending_enqueue, Z.eqb_refl.
  rewrite active_pending in H.
  destruct (pending u q); [reflexivity | discriminate].
Qed.

(** ** Hard disk: decode and dispatch *)

Import DHP.

Lemma dhp_rval pulse code AC s : fst (dhp pulse code AC s) = fst (dhp_code code AC s).
Proof. unfold dhp. destruct (dhp_code code AC s). reflexivity. Qed.

Lemma dhp_snd pulse code AC s :
  snd (dhp pulse code AC s) = dhp_pulse pulse (snd (dhp_code code AC s)).
Proof. unfold dhp. destruct (dhp_code code AC s). reflexivity. Qed.

Lemma dhp_code_units code AC s : dhp_unit (snd (dhp_code code AC s)) = dhp_unit s.
Proof.
  unfold dhp_code. destruct code; simpl; try reflexivity;
  split_ifs;
  reflexivity.
Qed.

Lemma dhp_code_queue code AC s :
  sim_clock_queue (snd (dhp_code code AC s)) = sim_clock_queue s.
Proof.
  unfold dhp_code. destruct code; simpl; try reflexivity;
  split_ifs;
  reflexivity.
Qed.

(** Replaces the status masks by their numerals. *)
Ltac dhp_consts :=
  cbv [STA_ERR STA_DLT STA_CRC STA_UNS STA_XCY STA_CYL STA_DRDY
       STA_SEEK0 STA_SEEK1 STA_SEEK2 STA_SEEK3
       STA_SKDN0 STA_SKDN1 STA_SKDN2 STA_SKDN3 STA_DONE
       STA_EFLGS STA_DFLGS] in *.


(** *** The clear pulse (claim C1) *)

Lemma land_lnot_same x m : Z.land (Z.land x (Z.lnot m)) m = 0.
Proof.
  rewrite <- Z.land_assoc, (Z.land_comm (Z.lnot m)), Z.land_lnot_diag.
  apply Z.land_0_r.
Qed.

(** Claim C1, as amended.  On the clear pulse the hard-disk controller
    cancels the queued event of the selected unit unless the unit's pending
    function is a seek: a pending read or write loses its event, a queued
    seek keeps it.  Busy and done are cleared and so are the done and error
    bits of the status register, whatever the pending function. *)
Theorem dhp_clear_cancels_all_but_seeks code AC s :
  let s' := snd (dhp iopC code AC s) in
  let u := GET_UNIT (dhp_ussc s') in
  sim_clock_queue s' =
    (if FUNC (uptr s u) =? FCCY_SEEK then sim_clock_queue s
     else Sim.sim_cancel u (sim_clock_queue s)) /\
  sim_is_active u s' = (FUNC (uptr s u) =? FCCY_SEEK) && sim_is_active u s /\
  dev_busy s' = false /\ dev_done s' = false /\
  Z.land (dhp_sta s') (Z.lor STA_DFLGS STA_EFLGS) = 0.
Proof.
  intros s' u. subst s' u. rewrite dhp_snd.
  pose proof (dhp_code_units code AC s) as HU.
  pose proof (dhp_code_queue code AC s) as HQ.
  set (s1 := snd (dhp_code code AC s)) in *.
  unfold uptr, sim_is_active. rewrite <- HU, <- HQ. clear HU HQ.
  unfold dhp_pulse, uptr.
  change (dhp_unit (clr_sta _ _)) with (dhp_unit s1).
  destruct (FUNC (unit_at (dhp_unit s1) (GET_UNIT (dhp_ussc s1))) =? FCCY_SEEK)
    eqn:EF.
  - cbn -[Z.land Z.lor Z.lnot]. rewrite EF.
    repeat split. apply (land_lnot_same _ (STA_DFLGS + STA_EFLGS)).
  - cbn -[Z.land Z.lor Z.lnot Sim.sim_cancel Sim.sim_is_active]. rewrite EF.
    rewrite active_cancel.
    repeat split. apply (land_lnot_same _ (STA_DFLGS + STA_EFLGS)).
Qed.


(** Claim C1 as stated fails: it has the test the other way round.  A read
    started with [DOAS] is queued for the rotate latency; [NIOC] removes it.
    A seek started with [DOAP] is queued for five cylinders; [NIOC] leaves
    it in the queue. *)
Lemma dhp_clear_keeps_seek_cancels_read :
  (FUNC (uptr dhp_reading 0) = FCCY_READ /\
   sim_clock_queue dhp_reading = [(0, 100)] /\
   sim_clock_queue (snd (dhp iopC ioNIO 0 dhp_reading)) = []) /\
  (FUNC (uptr dhp_seeking 0) = FCCY_SEEK /\
   sim_clock_queue dhp_seeking = [(0, 500)] /\
   sim_clock_queue (snd (dhp iopC ioNIO 0 dhp_seeking)) = [(0, 500)]).
Proof. vm_compute. repeat split. Qed.

(** *** Status read (claim C7) *)

(** Claim C7, as amended.  A status read recomputes drive ready from the
    selected unit: the bit is set exactly when the unit is attached.  The bad
    cylinder bit is set when the unit's cylinder is at or beyond the cylinder
    count and is otherwise left as the status register holds it. *)
Theorem dhp_DIA_status pulse AC s :
  let u := GET_UNIT (dhp_ussc s) in
  let rval := fst (dhp pulse ioDIA AC s) in
  tst rval STA_DRDY = UNIT_ATT (uptr s u) /\
  tst rval STA_CYL =
    (CYL (uptr s u) >=? cyl (drv_tab (GET_DTYPE (uptr s u))))
    || tst (dhp_sta s) STA_CYL.
Proof.
  intros u rval. subst rval u. rewrite dhp_rval. unfold dhp_code.
  set (u := GET_UNIT _).
  change (uptr (clr_sta STA_DRDY s) u) with (uptr s u).
  tst_bit STA_DRDY 6. tst_bit STA_CYL 5.
  destruct (UNIT_ATT (uptr s u)) eqn:Ea;
  cbn -[Z.lor Z.land Z.lnot tst drv_tab GET_DTYPE Z.geb Z.testbit];
  rewrite ?Ea;
  destruct (CYL _ >=? cyl _) eqn:Ec;
  cbn -[Z.lor Z.land Z.lnot tst drv_tab GET_DTYPE Z.geb Z.testbit];
  destruct (tst _ STA_EFLGS);
  cbn -[Z.lor Z.land Z.lnot tst drv_tab GET_DTYPE Z.geb Z.testbit];
  dhp_consts; eval_bits; auto.
Qed.

(** Claim C7 as stated fails for the bad cylinder bit.  A seek to cylinder
    500 on unit 0 is refused and latches the bit; selecting unit 1, whose
    cylinder is 0, and reading the status still returns it. *)
Lemma dhp_DIA_bad_cylinder_latched :
  let s1 := snd (dhp iopP ioDOA 1780 (dhp_attached false (image 0))) in
  let s2 := snd (dhp iopN ioDOC 16384 s1) in
  let u := GET_UNIT (dhp_ussc s2) in
  u = 1 /\
  (CYL (uptr s2 u) >=? cyl (drv_tab (GET_DTYPE (uptr s2 u)))) = false /\
  tst (fst (dhp iopN ioDIA 0 s2)) STA_CYL = true.
Proof. vm_compute. repeat split. Qed.

(** *** Seek delay (claim C3) *)

Lemma uptr_with_unit u v f s :
  uptr (with_unit u f s) v = if v =? u then f (uptr s v) else uptr s v.
Proof. reflexivity. Qed.

Lemma dhp_go_seek_accepted pulse u dtype oldCyl s :
  fst (dhp_go_seek pulse u dtype oldCyl s) = true ->
  sim_is_active u s = false ->
  let dist := Z.abs (oldCyl - CYL (uptr s u)) in
  sim_activate_time u (sim_clock_queue (snd (dhp_go_seek pulse u dtype oldCyl s)))
  = Some (to_int32
            (dhp_swait s
             * (if negb (dhp_swait s =? 0) && (dist =? 0) then 1 else dist))).
Proof.
  intros Hacc Hidle dist. revert Hacc. unfold dhp_go_seek. intros Hacc.
  set (s1 := if negb (UNIT_ATT (uptr s u)) then _ else _) in *.
  assert (Hq : sim_clock_queue s1 = sim_clock_queue s)
    by (subst s1; split_ifs; reflexivity).
  assert (Hu : uptr s1 u = uptr s u) by (subst s1; split_ifs; reflexivity).
  assert (Hw : dhp_swait s1 = dhp_swait s) by (subst s1; split_ifs; reflexivity).
  destruct (_ || _); [discriminate|].
  cbn [snd].
  change (uptr (or_sta _ s1) u) with (uptr s1 u).
  change (dhp_swait (or_sta _ s1)) with (dhp_swait s1).
  unfold sim_activate. cbn [sim_clock_queue set_queue or_sta set_sta].
  rewrite Hq, Hu, Hw. fold dist.
  apply time_activate. exact Hidle.
Qed.

(** A value inside the 32 bits is kept by the conversion. *)
Lemma to_int32_fits x : -2147483648 <= x < 2147483648 -> to_int32 x = x.
Proof.
  intros H. unfold to_int32. rewrite Z.mod_small by lia. lia.
Qed.

(** Claim C3, as amended.  For every seek or recalibrate that the dispatcher
    accepts and starts (diagnostic mode starts nothing), and whose seek wait
    times the distance in cylinders (the seek wait itself for distance zero)
    fits the signed 32 bits the delay is computed in, the delay is the seek
    wait times the distance, and the seek wait itself when the distance is
    zero.  When the seek wait is positive the delay is positive, so the seek
    does not complete in zero virtual time. *)
Theorem dhp_seek_delay pulse s :
  let u := GET_UNIT (dhp_ussc s) in
  let dtype := GET_DTYPE (uptr s u) in
  let cmd := GET_CMD (dhp_fccy s) dtype in
  let target := if cmd =? FCCY_RECAL then 0 else GET_CYL (dhp_fccy s) dtype in
  let dist := Z.abs (CYL (uptr s u) - target) in
  let fires := sim_activate_time u (sim_clock_queue (snd (dhp_go pulse s))) in
  dhp_diagmode s = false ->
  cmd = FCCY_SEEK \/ cmd = FCCY_RECAL ->
  fst (dhp_go pulse s) = true ->
  -2147483648 <= dhp_swait s * Z.max 1 dist < 2147483648 ->
  (dist <> 0 -> fires = Some (dhp_swait s * dist)) /\
  (dist = 0 -> fires = Some (dhp_swait s)) /\
  (0 < dhp_swait s -> exists d, fires = Some d /\ 0 < d).
Proof.
  intros u dtype cmd target dist fires Hdiag Hcmd Hacc Hfit.
  assert (Hf : fires =
    Some (dhp_swait s * (if negb (dhp_swait s =? 0) && (dist =? 0) then 1 else dist))).
  { assert (Hd0 : 0 <= dist) by apply Z.abs_nonneg.
    rewrite <- (to_int32_fits
                  (dhp_swait s
                   * (if negb (dhp_swait s =? 0) && (dist =? 0) then 1 else dist)))
      by (destruct (Z.eqb_spec (dhp_swait s) 0) as [E|E];
          destruct (Z.eqb_spec dist 0) as [E'|E']; cbn [negb andb];
          rewrite ?E, ?E' in *; cbn in Hfit |- *;
          rewrite ?Z.max_r, ?Z.mul_1_r in Hfit by lia; lia).
    subst fires. revert Hacc. unfold dhp_go.
    change (uptr (clr_sta STA_EFLGS s) ?x) with (uptr s x).
    change (dhp_ussc (clr_sta STA_EFLGS s)) with (dhp_ussc s).
    change (sim_is_active ?x (clr_sta STA_EFLGS s)) with (sim_is_active x s).
    change (dhp_diagmode (clr_sta STA_EFLGS s)) with (dhp_diagmode s).
    change (dhp_fccy (clr_sta STA_EFLGS s)) with (dhp_fccy s).
    fold u. fold dtype. rewrite Hdiag.
    destruct (negb (UNIT_ATT (uptr s u)) || sim_is_active u s) eqn:E1;
      [discriminate|].
    apply orb_false_iff in E1. destruct E1 as [_ Hidle].
    change (dhp_fccy (with_unit u _ _)) with (dhp_fccy s).
    rewrite !uptr_with_unit, !Z.eqb_refl.
    change (FUNC (set_CYL _ (set_FUNC ?c _))) with c.
    fold cmd.
    subst dist target.
    destruct Hcmd as [Hc | Hc]; rewrite Hc;
      cbn [orb Z.eqb FCCY_SEEK FCCY_RECAL FCCY_READ FCCY_WRITE Pos.eqb];
      intros Hacc;
      rewrite (dhp_go_seek_accepted _ _ _ _ _ Hacc Hidle);
      cbn [dhp_swait with_unit set_units clr_sta set_sta];
      rewrite !uptr_with_unit, !Z.eqb_refl; reflexivity. }
  rewrite Hf. repeat split.
  - intros Hd. destruct (Z.eqb_spec dist 0); [contradiction|].
    now rewrite andb_false_r.
  - intros Hd. rewrite Hd. simpl (0 =? 0). rewrite andb_true_r.
    destruct (Z.eqb_spec (dhp_swait s) 0) as [->|]; simpl; f_equal; lia.
  - intros Hw. eexists. split; [reflexivity|].
    destruct (Z.eqb_spec (dhp_swait s) 0); [lia|]. simpl.
    destruct (Z.eqb_spec dist 0); [lia|].
    assert (0 <= dist) by (apply Z.abs_nonneg). nia.
Qed.

Lemma dhp_seek_delay_witness :
  sim_activate_time 0
    (sim_clock_queue
       (snd (dhp_go iopP (snd (dhp_code ioDOA 517 (dhp_attached false (image 0)))))))
  = Some 500.
Proof.
  assert (Hfit : -2147483648 <= 100 * Z.max 1 (Z.abs (0 - 5)) < 2147483648)
    by lia.
  apply (proj1 (dhp_seek_delay iopP
                  (snd (dhp_code ioDOA 517 (dhp_attached false (image 0))))
                  eq_refl (or_introl eq_refl) eq_refl Hfit)).
  vm_compute. discriminate.
Defined.

(** Claim C3 as stated fails in its last part: the minimum wait is only
    enforced when the seek wait is not zero.  With the seek wait set to zero a
    seek to the current cylinder is accepted and queued with delay zero. *)
Lemma dhp_seek_zero_wait :
  let s := set_swait 0 (dhp_attached false (image 0)) in
  let r := dhp_go iopP (snd (dhp_code ioDOA 512 s)) in
  fst r = true /\ sim_clock_queue (snd r) = [(0, 0)].
Proof. vm_compute. split; reflexivity. Qed.

(** *** Refused dispatch (claim C6) *)

(** Claim C6.  When the selected unit is not attached or already has a
    scheduled event, the dispatcher of either controller sets the error bit,
    returns failure and leaves the event queue as it was.  A dispatch never
    gives a unit a second queue entry. *)
Theorem go_rejects_unready_unit :
  (forall pulse s,
     let u := GET_UNIT (dhp_ussc s) in
     UNIT_ATT (uptr s u) = false \/ sim_is_active u s = true ->
     fst (dhp_go pulse s) = false /\
     tst (dhp_sta (snd (dhp_go pulse s))) STA_ERR = true /\
     sim_clock_queue (snd (dhp_go pulse s)) = sim_clock_queue s) /\
  (forall pulse s,
     let u := DKT.SC_6038_GET_UNIT (DKT.dkt_6038_sc s) in
     UNIT_ATT (DKT.uptr s u) = false \/ DKT.sim_is_active u s = true ->
     fst (DKT.dkt_go pulse s) = false /\
     tst (DKT.dkt_sta (snd (DKT.dkt_go pulse s))) DKT.STA_6038_ERROR = true /\
     DKT.sim_clock_queue (snd (DKT.dkt_go pulse s)) = DKT.sim_clock_queue s) /\
  (forall pulse s v,
     (pending v (sim_clock_queue s) <= 1)%nat ->
     (pending v (sim_clock_queue (snd (dhp_go pulse s))) <= 1)%nat) /\
  (forall pulse s v,
     (pending v (DKT.sim_clock_queue s) <= 1)%nat ->
     (pending v (DKT.sim_clock_queue (snd (DKT.dkt_go pulse s))) <= 1)%nat).
Proof.
  split; [| split; [| split]].
  - intros pulse s u H. unfold dhp_go.
    change (uptr (clr_sta STA_EFLGS s) ?x) with (uptr s x).
    change (dhp_ussc (clr_sta STA_EFLGS s)) with (dhp_ussc s).
    change (sim_is_active ?x (clr_sta STA_EFLGS s)) with (sim_is_active x s).
    fold u.
    assert (E : negb (UNIT_ATT (uptr s u)) || sim_is_active u s = true).
    { destruct H as [-> | ->]; [reflexivity | apply orb_true_r]. }
    rewrite E. cbn -[tst Z.land Z.lor Z.lnot].
    repeat split. tst_bit STA_ERR 0. dhp_consts. eval_bits. reflexivity.
  - intros pulse s u H. unfold DKT.dkt_go.
    change (DKT.uptr (DKT.clr_sta DKT.STA_EFLGS s) ?x) with (DKT.uptr s x).
    change (DKT.dkt_6038_sc (DKT.clr_sta DKT.STA_EFLGS s)) with (DKT.dkt_6038_sc s).
    change (DKT.sim_is_active ?x (DKT.clr_sta DKT.STA_EFLGS s))
      with (DKT.sim_is_active x s).
    fold u.
    assert (E : negb (UNIT_ATT (DKT.uptr s u)) || DKT.sim_is_active u s = true).
    { destruct H as [-> | ->]; [reflexivity | apply orb_true_r]. }
    rewrite E. cbn -[tst Z.land Z.lor Z.lnot].
    repeat split. tst_bit DKT.STA_6038_ERROR 0.
    cbv [DKT.STA_6038_ERROR]. eval_bits. reflexivity.
  - intros pulse s v H. unfold dhp_go, dhp_go_rw, dhp_go_seek.
    split_ifs; cbn -[Sim.sim_activate pending]; auto using pending_activate.
  - intros pulse s v H. unfold DKT.dkt_go.
    split_ifs; cbn -[Sim.sim_activate pending]; auto using pending_activate.
Qed.

Lemma go_rejects_unready_unit_witness :
  (fst (dhp_go iopS dhp_reading) = false /\
   tst (dhp_sta (snd (dhp_go iopS dhp_reading))) STA_ERR = true /\
   sim_clock_queue (snd (dhp_go iopS dhp_reading)) = sim_clock_queue dhp_reading) /\
  (fst (DKT.dkt_go iopS dkt_power_on) = false /\
   tst (DKT.dkt_sta (snd (DKT.dkt_go iopS dkt_power_on))) DKT.STA_6038_ERROR = true /\
   DKT.sim_clock_queue (snd (DKT.dkt_go iopS dkt_power_on))
   = DKT.sim_clock_queue dkt_power_on).
Proof.
  split.
  - apply (proj1 go_rejects_unready_unit iopS dhp_reading).
    right. reflexivity.
  - apply (proj1 (proj2 go_rejects_unready_unit) iopS dkt_power_on).
    left. reflexivity.
Defined.

(** *** Reset (claim C9) *)

Lemma dhp_reset_units s u :
  0 <= u < DHP.DHP_NUMDR ->
  DHP.sim_is_active u (snd (DHP.dhp_reset s)) = false /\
  CYL (DHP.uptr (snd (DHP.dhp_reset s)) u) = 0 /\
  FUNC (DHP.uptr (snd (DHP.dhp_reset s)) u) = 0.
Proof.
  intros Hu. assert (u = 0) by (unfold DHP.DHP_NUMDR in Hu; lia). subst u.
  unfold DHP.dhp_reset, DHP.sim_is_active.
  change (Z.to_nat DHP.DHP_NUMDR) with 1%nat.
  cbn -[Sim.sim_cancel Sim.sim_is_active].
  rewrite active_cancel. repeat split.
Qed.

(** Claim C9.  After reset the registers of either controller are zero, no
    unit of the device has an event queued, and cylinder and function of
    every unit are zero; the floppy's sector timer has exactly one queue entry,
    one sector time ahead.  The hard disk declares [DHP_NUMDR] units, the
    floppy [DKT_NUMDR] drives. *)
Theorem reset_clears_controllers :
  (forall s,
     let s' := snd (DHP.dhp_reset s) in
     (DHP.dhp_fccy s' = 0 /\ DHP.dhp_ussc s' = 0 /\ DHP.dhp_ma s' = 0 /\
      DHP.dhp_sta s' = 0 /\ DHP.dhp_map s' = 0) /\
     (forall u, 0 <= u < DHP.DHP_NUMDR ->
        DHP.sim_is_active u s' = false /\
        CYL (DHP.uptr s' u) = 0 /\ FUNC (DHP.uptr s' u) = 0)) /\
  (forall s,
     let s' := snd (DKT.dkt_reset s) in
     (DKT.dkt_6038_sc s' = 0 /\ DKT.dkt_6038_ma s' = 0 /\ DKT.dkt_6038_ca s' = 0 /\
      DKT.dkt_6038_progload_romaddr s' = 0 /\ DKT.dkt_sta s' = 0) /\
     (forall u, 0 <= u < DKT.DKT_NUMDR ->
        DKT.sim_is_active u s' = false /\
        CYL (DKT.uptr s' u) = 0 /\ FUNC (DKT.uptr s' u) = 0) /\
     pending DKT.DKT_TIMER (DKT.sim_clock_queue s') = 1%nat /\
     sim_activate_time DKT.DKT_TIMER (DKT.sim_clock_queue s')
       = Some DKT.DKT_SIM_SECTORTIME).
Proof.
  split.
  - intros s s'. subst s'. split; [repeat split|].
    intros u Hu. now apply dhp_reset_units.
  - intros s s'. subst s'. split; [repeat split|].
    unfold DKT.dkt_reset, DKT.sim_is_active, DKT.sim_activate_after,
      Sim.sim_activate_after.
    change (Z.to_nat DKT.DKT_NUMDR) with 2%nat.
    cbn -[Sim.sim_cancel Sim.sim_is_active Sim.sim_activate pending
          sim_activate_time].
    split; [|split].
    + intros u Hu. unfold DKT.DKT_TIMER, DKT.DKT_NUMDR in *.
      rewrite active_activate_other by lia.
      rewrite active_cancel_other by lia.
      assert (H : u = 0 \/ u = 1) by lia.
      destruct H; subst u.
      * rewrite active_cancel_other by lia. rewrite active_cancel.
        repeat split.
      * rewrite active_cancel. repeat split.
    + apply pending_activate_idle, active_cancel.
    + apply time_activate, active_cancel.
Qed.


Lemma reset_clears_controllers_witness :
  (DHP.sim_is_active 0 (snd (DHP.dhp_reset dhp_seeking)) = false /\
   CYL (DHP.uptr (snd (DHP.dhp_reset dhp_seeking)) 0) = 0 /\
   FUNC (DHP.uptr (snd (DHP.dhp_reset dhp_seeking)) 0) = 0) /\
  (DKT.sim_is_active 1 (snd (DKT.dkt_reset dkt_read5)) = false /\
   CYL (DKT.uptr (snd (DKT.dkt_reset dkt_read5)) 1) = 0 /\
   FUNC (DKT.uptr (snd (DKT.dkt_reset dkt_read5)) 1) = 0).
Proof.
  split.
  - apply (proj2 (proj1 reset_clears_controllers dhp_seeking) 0).
    unfold DHP.DHP_NUMDR. lia.
  - apply (proj1 (proj2 (proj2 reset_clears_controllers dkt_read5)) 1).
    unfold DKT.DKT_NUMDR. lia.
Defined.

(** ** Floppy: service and sector timer *)

Import DKT.

(** Replaces the status masks by their numerals. *)
Ltac dkt_consts :=
  cbv [STA_6038_NOTREADY STA_6038_TRACK0 STA_6038_HEADON STA_6038_WRITEPROT
       STA_6038_UNIT STA_6038_DRIVESTAT STA_6038_ILLEGAL STA_6038_SECTORERR
       STA_6038_CHECKWORDERR STA_6038_DATALATE STA_6038_WRITEFAULT
       STA_6038_ERROR STA_EFLGS STA_FLGS_SCLR STA_FLGS_GENERAL_ERROR] in *.

(** Claim C10.  When a read-next or write-next event fires and the sector
    under the head is not the sector asked for in the specify-command
    register, the controller sets the sector-address-mismatch bit and the
    summary error bit and records the current track and sector in the
    current-address register; no unit, hence no file, changes, and neither
    does memory or the memory-address register. *)
Theorem dkt_sector_mismatch u s :
  FUNC (uptr s u) = SC_6038_READNEXT \/ FUNC (uptr s u) = SC_6038_WRITENEXT ->
  SECT (uptr s u) <> SC_6038_GET_SECT (dkt_6038_sc s) ->
  let s' := snd (dkt_svc u s) in
  tst (dkt_sta s') STA_6038_SECTORERR = true /\
  tst (dkt_sta s') STA_6038_ERROR = true /\
  dkt_6038_ca s' =
    Z.lor (Z.shiftl (Z.land (CYL (uptr s u)) CA_6038_M_TRACK) CA_6038_V_TRACK)
          (Z.shiftl (Z.land (SECT (uptr s u)) CA_6038_M_SECTOR) CA_6038_V_SECTOR) /\
  dkt_unit s' = dkt_unit s /\
  M s' = M s /\
  dkt_6038_ma s' = dkt_6038_ma s /\
  fst (dkt_svc u s) = SCPE_OK.
Proof.
  intros Hf Hs s'. subst s'. unfold dkt_svc.
  assert (E : (if FUNC (uptr s u) =? SC_6038_SETTLE then 0 else
               if FUNC (uptr s u) =? SC_6038_STEPIN then 0 else
               if FUNC (uptr s u) =? SC_6038_STEPOUT then 0 else
               if FUNC (uptr s u) =? SC_6038_READPREAMB then 0 else 1) = 1)
    by (destruct Hf as [-> | ->]; reflexivity).
  destruct (FUNC (uptr s u) =? SC_6038_SETTLE); [discriminate|].
  destruct (FUNC (uptr s u) =? SC_6038_STEPIN); [discriminate|].
  destruct (FUNC (uptr s u) =? SC_6038_STEPOUT); [discriminate|].
  destruct (FUNC (uptr s u) =? SC_6038_READPREAMB); [discriminate|].
  clear E.
  assert (E : (FUNC (uptr s u) =? SC_6038_READNEXT)
              || (FUNC (uptr s u) =? SC_6038_WRITENEXT) = true)
    by (destruct Hf as [-> | ->]; reflexivity).
  rewrite E. clear E.
  change (uptr (CA_6038_SETADDR _ _ s) u) with (uptr s u).
  change (dkt_6038_sc (CA_6038_SETADDR _ _ s)) with (dkt_6038_sc s).
  destruct (Z.eqb_spec (SECT (uptr s u)) (SC_6038_GET_SECT (dkt_6038_sc s)));
    [contradiction|].
  cbn [negb].
  set (s1 := or_sta STA_6038_SECTORERR _).
  change (uptr s1 u) with (uptr s u).
  set (s2 := if CYL (uptr s u) =? 0 then _ else _).
  assert (H2 : Z.testbit (dkt_sta s2) 4 = true /\ dkt_6038_ca s2 = dkt_6038_ca s1 /\
               dkt_unit s2 = dkt_unit s /\ M s2 = M s /\
               dkt_6038_ma s2 = dkt_6038_ma s).
  { subst s2 s1. destruct (CYL (uptr s u) =? 0);
      cbn -[Z.testbit Z.lor Z.land Z.lnot Z.shiftl];
      (split; [dkt_consts; eval_bits; reflexivity | repeat split]). }
  destruct H2 as (Hb & Hca & Hun & HM & Hma).
  assert (Hg : tst (dkt_sta s2) STA_FLGS_GENERAL_ERROR = true).
  { unfold STA_FLGS_GENERAL_ERROR. rewrite !tst_lor.
    tst_bit STA_6038_SECTORERR 4. rewrite Hb. now rewrite !orb_true_r. }
  unfold general_error. rewrite Hg.
  cbn -[Z.testbit Z.lor Z.land Z.lnot Z.shiftl tst].
  tst_bit STA_6038_SECTORERR 4. tst_bit STA_6038_ERROR 0.
  rewrite Hca, Hun, HM, Hma. subst s1.
  cbn -[Z.testbit Z.lor Z.land Z.lnot Z.shiftl tst].
  repeat split.
  - rewrite Z.lor_spec, Hb. reflexivity.
  - dkt_consts. eval_bits. reflexivity.
Qed.

Lemma dkt_sector_mismatch_witness :
  let s := snd (dkt_run 1 dkt_read5) in
  tst (dkt_sta (snd (dkt_svc 0 s))) STA_6038_SECTORERR = true /\
  dkt_unit (snd (dkt_svc 0 s)) = dkt_unit s /\
  dkt_6038_ma (snd (dkt_svc 0 s)) = dkt_6038_ma s.
Proof.
  intros s.
  destruct (dkt_sector_mismatch 0 s) as (H1 & _ & _ & H2 & _ & H3 & _).
  - left. reflexivity.
  - vm_compute. discriminate.
  - auto.
Defined.

(** *** The sector timer (claim C8) *)

Lemma land7_mod8 x : Z.land x 7 = x mod 8.
Proof. exact (Z.land_ones x 3 ltac:(lia)). Qed.

Lemma time_activate_other v u t q :
  u <> v -> sim_activate_time v (Sim.sim_activate u t q) = sim_activate_time v q.
Proof.
  intros Hne. unfold Sim.sim_activate.
  destruct (Sim.sim_is_active u q); [reflexivity|].
  unfold sim_activate_time. f_equal.
  induction q as [|e q IH]; simpl.
  - destruct (Z.eqb_spec u v); [contradiction | reflexivity].
  - destruct (t <? snd e); simpl.
    + destruct (Z.eqb_spec u v); [contradiction | reflexivity].
    + destruct (fst e =? v); [reflexivity | exact IH].
Qed.

Lemma advance_sectors_spec s :
  let s' := advance_sectors (Z.to_nat DKT_NUMDR) 0 s in
  (forall d, 0 <= d < DKT_NUMDR ->
     SECT (uptr s' d) = (SECT (uptr s d) + 1) mod SECT_6038 /\
     FUNC (uptr s' d) = FUNC (uptr s d)) /\
  sim_clock_queue s' = sim_clock_queue s /\
  dev_busy s' = dev_busy s /\ dkt_6038_sc s' = dkt_6038_sc s.
Proof.
  change (Z.to_nat DKT_NUMDR) with 2%nat. cbn -[Z.land].
  split; [|repeat split].
  intros d Hd. unfold DKT_NUMDR in Hd.
  assert (H : d = 0 \/ d = 1) by lia.
  destruct H; subst d; cbn -[Z.land]; rewrite land7_mod8; split; reflexivity.
Qed.

(** Claim C8, as amended.  On each tick of the sector timer the sector
    counter of every drive advances by one modulo the sector count, and the
    timer, having fired, is queued again one sector time ahead.  When the
    controller is busy and the selected unit has no event queued, a pending
    read preamble is scheduled after the address latency and a pending read
    next or write next after address plus data latency.  The delays are
    constants: the sector asked for plays no part in them. *)
Theorem dkt_tmrsvc_tick s :
  let s' := snd (dkt_tmrsvc DKT_TIMER s) in
  let u := SC_6038_GET_UNIT (dkt_6038_sc s) in
  let f := FUNC (uptr s u) in
  let armed := dev_busy s && negb (sim_is_active u s) in
  (forall d, 0 <= d < DKT_NUMDR ->
     SECT (uptr s' d) = (SECT (uptr s d) + 1) mod SECT_6038) /\
  (sim_is_active DKT_TIMER s = false ->
     sim_activate_time DKT_TIMER (sim_clock_queue s') = Some DKT_SIM_SECTORTIME) /\
  (armed = true -> f = SC_6038_READPREAMB ->
     sim_activate_time u (sim_clock_queue s') = Some DKT_SIM_ADDRTIME) /\
  (armed = true -> f = SC_6038_READNEXT \/ f = SC_6038_WRITENEXT ->
     sim_activate_time u (sim_clock_queue s')
     = Some (DKT_SIM_ADDRTIME + DKT_SIM_DATATIME)).
Proof.
  intros s' u f armed. subst s'.
  destruct (advance_sectors_spec s) as (HS & HQ & HB & HC).
  unfold dkt_tmrsvc.
  set (s1 := advance_sectors (Z.to_nat DKT_NUMDR) 0 s) in *.
  assert (Hu01 : 0 <= u < DKT_NUMDR).
  { subst u. unfold SC_6038_GET_UNIT, SC_6038_M_UNIT, DKT_NUMDR.
    pose proof (Z.land_ones (Z.shiftr (dkt_6038_sc s) SC_6038_V_UNIT) 1
                  ltac:(lia)) as E.
    change (Z.ones 1) with 1 in E. rewrite E.
    pose proof (Z.mod_pos_bound (Z.shiftr (dkt_6038_sc s) SC_6038_V_UNIT) (2 ^ 1)
                  ltac:(lia)). lia. }
  assert (Hne : u <> DKT_TIMER) by (unfold DKT_TIMER; lia).
  unfold DEV_IS_BUSY, sim_is_active, sim_activate_after, Sim.sim_activate_after.
  rewrite HB, HC, HQ. fold u.
  rewrite (proj2 (HS u Hu01)). fold f.
  split; [|split; [|split]].
  - intros d Hd. rewrite <- (proj1 (HS d Hd)).
    split_ifs;
      reflexivity.
  - intros Ht.
    assert (Hidle : forall t,
              Sim.sim_is_active DKT_TIMER
                (Sim.sim_activate u t (sim_clock_queue s)) = false).
    { intros t. rewrite active_activate_other by assumption. exact Ht. }
    split_ifs;
      cbn -[Sim.sim_activate sim_activate_time];
      rewrite ?HQ; apply time_activate; auto.
  - intros Ha Hf. subst armed. apply andb_true_iff in Ha. destruct Ha as [Hb Hi].
    apply negb_true_iff in Hi. unfold sim_is_active in Hi.
    rewrite Hb, Hi, Hf. cbn -[Sim.sim_activate sim_activate_time].
    rewrite ?HQ; rewrite time_activate_other by auto.
    apply time_activate. exact Hi.
  - intros Ha Hf. subst armed. apply andb_true_iff in Ha. destruct Ha as [Hb Hi].
    apply negb_true_iff in Hi. unfold sim_is_active in Hi.
    rewrite Hb, Hi. cbn [negb].
    destruct Hf as [Hf | Hf]; rewrite Hf;
      cbn -[Sim.sim_activate sim_activate_time];
      rewrite ?HQ; rewrite time_activate_other by auto;
      apply time_activate; exact Hi.
Qed.

Lemma dkt_tmrsvc_tick_witness :
  sim_activate_time DKT_TIMER
    (sim_clock_queue (snd (dkt_tmrsvc DKT_TIMER (set_queue [] dkt_read5))))
  = Some 500 /\
  sim_activate_time 0
    (sim_clock_queue (snd (dkt_tmrsvc DKT_TIMER (set_queue [] dkt_read5))))
  = Some 495.
Proof.
  destruct (dkt_tmrsvc_tick (set_queue [] dkt_read5)) as (_ & H2 & _ & H4).
  split.
  - apply H2. reflexivity.
  - apply H4; [reflexivity | left; reflexivity].
Defined.

(** Claim C8 as stated fails in its timing.  Read next is issued for sector 5
    while sector 0 is under the head, five sectors ahead.  The next tick
    schedules the event all the same; it fires 995 time units after the
    command, well before five sector times plus the address latency, and
    completes the command with a sector-address mismatch. *)
Lemma dkt_read_next_fires_on_next_tick :
  SECT (uptr dkt_read5 0) = 0 /\
  SC_6038_GET_SECT (dkt_6038_sc dkt_read5) = 5 /\
  dev_busy dkt_read5 = true /\
  fst (dkt_run 2 dkt_read5) = [(DKT_TIMER, 500); (0, 495)] /\
  dev_busy (snd (dkt_run 2 dkt_read5)) = false /\
  dev_done (snd (dkt_run 2 dkt_read5)) = true /\
  tst (dkt_sta (snd (dkt_run 2 dkt_read5))) STA_6038_SECTORERR = true /\
  500 + 495 < 5 * DKT_SIM_SECTORTIME + DKT_SIM_ADDRTIME.
Proof. vm_compute. repeat split. Qed.

(** ** Hard disk: the read/write loop *)

Import DHP.

Lemma testbit_below x k n :
  0 <= x < 2 ^ k -> k <= n -> Z.testbit x n = false.
Proof.
  intros Hx Hn.
  assert (0 <= k).
  { destruct (Z.le_gt_cases 0 k); [assumption|].
    rewrite Z.pow_neg_r in Hx by assumption. lia. }
  rewrite <- (Z.mod_small x (2 ^ k)) by assumption.
  apply Z.mod_pow2_bits_high. lia.
Qed.

Lemma drv_tab_newf t : newf (drv_tab t) = false.
Proof.
  unfold drv_tab, drv_tab_entries.
  destruct (Z.to_nat t) as [|[|[|n]]]; reflexivity.
Qed.

Lemma drv_tab_6095 t :
  0 < surf (drv_tab t) ->
  drv_tab t = mkDRV SECT_6095 SURF_6095 CYL_6095 SIZE_6095 NFMT_6095.
Proof.
  unfold drv_tab, drv_tab_entries.
  destruct (Z.to_nat t) as [|[|[|n]]]; simpl; intros H;
    (reflexivity || (exfalso; lia)).
Qed.

Lemma ussc_old_count ussc count sf sc :
  Z.land (ussc_old ussc count sf sc) 15 = Z.land (ussc + count) 15.
Proof.
  unfold ussc_old, USSC_UNIT, USSC_M_UNIT, USSC_V_UNIT, USSC_M_COUNT,
    USSC_V_OSURFACE, USSC_V_OSECTOR.
  apply Z.bits_inj'. intros n Hn.
  rewrite !Z.land_spec, !Z.lor_spec, !Z.land_spec, !Z.shiftl_spec by assumption.
  change 15 with (Z.ones 4).
  destruct (Z.lt_ge_cases n 4) as [L|L].
  - rewrite Z.ones_spec_low by lia.
    rewrite (Z.testbit_neg_r _ (n - 14)), (Z.testbit_neg_r _ (n - 8)),
            (Z.testbit_neg_r _ (n - 4)) by lia.
    now rewrite !andb_true_r, !andb_false_r, !orb_false_r.
  - rewrite Z.ones_spec_high by lia. now rewrite !andb_false_r.
Qed.

Lemma ussc_old_sect ussc count sf sc :
  0 <= sc < 16 ->
  Z.land (Z.shiftr (ussc_old ussc count sf sc) 4) 15 = sc.
Proof.
  intros Hsc.
  unfold ussc_old, USSC_UNIT, USSC_M_UNIT, USSC_V_UNIT, USSC_M_COUNT,
    USSC_V_OSURFACE, USSC_V_OSECTOR.
  apply Z.bits_inj'. intros n Hn.
  rewrite Z.land_spec, Z.shiftr_spec, !Z.lor_spec, !Z.land_spec,
          !Z.shiftl_spec by lia.
  change 15 with (Z.ones 4).
  replace (n + 4 - 4) with n by lia.
  destruct (Z.lt_ge_cases n 4) as [L|L].
  - rewrite (Z.ones_spec_low 4 n) by lia.
    rewrite (Z.ones_spec_high 4 (n + 4)) by lia.
    rewrite (Z.testbit_neg_r _ (n + 4 - 14)), (Z.testbit_neg_r _ (n + 4 - 8)) by lia.
    now rewrite !andb_true_r, !andb_false_r.
  - rewrite (Z.ones_spec_high 4 n) by lia.
    rewrite (testbit_below sc 4 n) by lia.
    now rewrite !andb_false_r.
Qed.

Lemma ussc_old_surf ussc count sf sc :
  0 <= sf < 64 -> 0 <= sc < 16 ->
  Z.land (Z.shiftr (ussc_old ussc count sf sc) 8) 63 = sf.
Proof.
  intros Hsf Hsc.
  unfold ussc_old, USSC_UNIT, USSC_M_UNIT, USSC_V_UNIT, USSC_M_COUNT,
    USSC_V_OSURFACE, USSC_V_OSECTOR.
  apply Z.bits_inj'. intros n Hn.
  rewrite Z.land_spec, Z.shiftr_spec, !Z.lor_spec, !Z.land_spec,
          !Z.shiftl_spec by lia.
  change 63 with (Z.ones 6). change 15 with (Z.ones 4).
  replace (n + 8 - 8) with n by lia.
  destruct (Z.lt_ge_cases n 6) as [L|L].
  - rewrite (Z.ones_spec_low 6 n) by lia.
    rewrite (Z.ones_spec_high 4 (n + 8)) by lia.
    rewrite (Z.testbit_neg_r _ (n + 8 - 14)) by lia.
    rewrite (testbit_below sc 4 (n + 8 - 4)) by lia.
    now rewrite !andb_true_r, !andb_false_r, !orb_false_r.
  - rewrite (Z.ones_spec_high 6 n) by lia.
    rewrite (testbit_below sf 6 n) by lia.
    now rewrite !andb_false_r.
Qed.

Lemma GET_SURF_range x t : 0 <= GET_SURF x t < 64.
Proof.
  unfold GET_SURF. rewrite drv_tab_newf.
  unfold USSC_M_OSURFACE. change 63 with (Z.ones 6).
  rewrite Z.land_ones by lia. apply Z.mod_pos_bound. lia.
Qed.

Lemma GET_SECT_range x t : 0 <= GET_SECT x t < 16.
Proof.
  unfold GET_SECT. rewrite drv_tab_newf.
  unfold USSC_M_OSECTOR. change 15 with (Z.ones 4).
  rewrite Z.land_ones by lia. apply Z.mod_pos_bound. lia.
Qed.

Lemma UPDATE_USSC_old t count sf sc s :
  dhp_ussc (DHP_UPDATE_USSC t count sf sc s) = ussc_old (dhp_ussc s) count sf sc.
Proof. unfold DHP_UPDATE_USSC. rewrite drv_tab_newf. reflexivity. Qed.

Lemma GET_COUNT_update t count sf sc s :
  GET_COUNT (dhp_ussc (DHP_UPDATE_USSC t count sf sc s))
  = Z.land (dhp_ussc s + count) 15.
Proof.
  rewrite UPDATE_USSC_old. unfold GET_COUNT, USSC_V_COUNT, USSC_M_COUNT.
  rewrite Z.shiftr_0_r. apply ussc_old_count.
Qed.

Lemma GET_SECT_update t count sf sc s :
  0 <= sc < 16 -> GET_SECT (dhp_ussc (DHP_UPDATE_USSC t count sf sc s)) t = sc.
Proof.
  intros H. rewrite UPDATE_USSC_old. unfold GET_SECT. rewrite drv_tab_newf.
  now apply ussc_old_sect.
Qed.

Lemma GET_SURF_update t count sf sc s :
  0 <= sf < 64 -> 0 <= sc < 16 ->
  GET_SURF (dhp_ussc (DHP_UPDATE_USSC t count sf sc s)) t = sf.
Proof.
  intros H1 H2. rewrite UPDATE_USSC_old. unfold GET_SURF. rewrite drv_tab_newf.
  now apply ussc_old_surf.
Qed.

(** *** Sector and surface overflow (claim C4) *)

(** Claim C4.  In the read/write loop, when the sector number has reached
    the sector count, the sector field goes to zero and the surface field is
    incremented, the count staying as it is.  If the new surface is still
    below the surface count the pass goes on with the transfer at that
    surface.  If it has reached the surface count, cross-cylinder, error and
    done are set and the loop ends at once: the surface field keeps the
    overflowed number and no unit, file, memory word or memory address
    changes. *)
Theorem dhp_rw_sector_overflow u s rval :
  let dtype := GET_DTYPE (uptr s u) in
  let G := drv_tab dtype in
  let sf' := GET_SURF (dhp_ussc s) dtype + 1 in
  let s1 := DHP_UPDATE_USSC dtype 0 sf' 0 s in
  let s2 := or_sta (Z.lor (Z.lor STA_DONE STA_ERR) STA_XCY) s1 in
  GET_SECT (dhp_ussc s) dtype >= sect G ->
  GET_SURF (dhp_ussc s) dtype < surf G ->
  (GET_SECT (dhp_ussc s1) dtype = 0 /\ GET_SURF (dhp_ussc s1) dtype = sf' /\
   GET_COUNT (dhp_ussc s1) = GET_COUNT (dhp_ussc s)) /\
  (sf' < surf G -> dhp_rw_body u s rval = dhp_rw_transfer u dtype s1 rval) /\
  (sf' >= surf G ->
     dhp_rw_body u s rval = (s2, rval, Break) /\
     (forall fuel, dhp_rw_loop (S fuel) u s rval = Some (s2, rval)) /\
     tst (dhp_sta s2) STA_XCY = true /\ tst (dhp_sta s2) STA_ERR = true /\
     tst (dhp_sta s2) STA_DONE = true /\
     GET_SURF (dhp_ussc s2) dtype = surf G /\
     dhp_unit s2 = dhp_unit s /\ M s2 = M s /\ dhp_ma s2 = dhp_ma s).
Proof.
  intros dtype G sf' s1 s2 Hsect Hsurf.
  assert (HG : G = mkDRV SECT_6095 SURF_6095 CYL_6095 SIZE_6095 NFMT_6095).
  { apply drv_tab_6095. pose proof (GET_SURF_range (dhp_ussc s) dtype).
    subst G. lia. }
  assert (Hsf : 0 <= sf' < 64).
  { pose proof (GET_SURF_range (dhp_ussc s) dtype). subst sf'.
    rewrite HG in Hsurf. simpl in Hsurf. unfold SURF_6095 in Hsurf. lia. }
  assert (F1 : GET_SECT (dhp_ussc s1) dtype = 0)
    by (apply GET_SECT_update; lia).
  assert (F2 : GET_SURF (dhp_ussc s1) dtype = sf')
    by (apply GET_SURF_update; lia).
  assert (F3 : GET_COUNT (dhp_ussc s1) = GET_COUNT (dhp_ussc s)).
  { subst s1. rewrite GET_COUNT_update, Z.add_0_r. unfold GET_COUNT.
    now rewrite Z.shiftr_0_r. }
  assert (Hbody : dhp_rw_body u s rval =
                  if sf' >=? surf G then (s2, rval, Break)
                  else dhp_rw_transfer u dtype s1 rval).
  { unfold dhp_rw_body. fold dtype. fold G.
    destruct (Z.geb_spec (GET_SECT (dhp_ussc s) dtype) (sect G)); [|lia].
    subst G. rewrite drv_tab_newf.
    replace (Z.land (GET_SURF (dhp_ussc s) dtype + 1) USSC_M_OSURFACE) with sf'.
    - fold s1. rewrite F2. reflexivity.
    - fold sf'. unfold USSC_M_OSURFACE. change 63 with (Z.ones 6).
      rewrite Z.land_ones by lia. symmetry. apply Z.mod_small. lia. }
  split; [auto|]. split.
  - intros H. rewrite Hbody.
    destruct (Z.geb_spec sf' (surf G)); [lia | reflexivity].
  - intros H.
    assert (Hb : dhp_rw_body u s rval = (s2, rval, Break)).
    { rewrite Hbody. destruct (Z.geb_spec sf' (surf G)); [reflexivity | lia]. }
    split; [exact Hb|]. split.
    { intros fuel. simpl. rewrite Hb. reflexivity. }
    assert (Hlast : GET_SURF (dhp_ussc s2) dtype = surf G).
    { change (dhp_ussc s2) with (dhp_ussc s1). rewrite F2. subst sf'. lia. }
    subst s2. cbn -[Z.lor tst Z.testbit] in *.
    tst_bit STA_XCY 4. tst_bit STA_ERR 0. tst_bit STA_DONE 15.
    repeat split; try (dhp_consts; eval_bits; reflexivity).
    exact Hlast.
Qed.

Lemma dhp_rw_sector_overflow_witness :
  snd (dhp_rw_body 0 dhp_sector_overflow SCPE_OK) = Break /\
  tst (dhp_sta (fst (fst (dhp_rw_body 0 dhp_sector_overflow SCPE_OK)))) STA_XCY
  = true /\
  GET_SURF (dhp_ussc (fst (fst (dhp_rw_body 0 dhp_sector_overflow SCPE_OK)))) 0
  = 4.
Proof.
  destruct (dhp_rw_sector_overflow 0 dhp_sector_overflow SCPE_OK)
    as (_ & _ & H).
  - vm_compute. discriminate.
  - vm_compute. reflexivity.
  - destruct H as (Hb & _ & Hx & _ & _ & Hs & _).
    + vm_compute. discriminate.
    + rewrite Hb. repeat split; assumption.
Defined.

(** The whole service routine on the two-sector read: one sector reaches
    memory, then the loop stops on surface 4 with cross-cylinder, error and
    done, and the device goes from busy to done. *)
Example dhp_svc_stops_at_last_surface :
  match dhp_svc 0 dhp_last_sector with
  | Some (r, s) =>
      r = SCPE_OK /\ dhp_sta s = Z.lor (Z.lor STA_DONE STA_ERR) STA_XCY /\
      GET_SURF (dhp_ussc s) 0 = 4 /\ GET_SECT (dhp_ussc s) 0 = 0 /\
      GET_COUNT (dhp_ussc s) = 15 /\ dhp_ma s = 256 /\
      M s 0 = 47 * 256 /\ M s 255 = 47 * 256 + 255 /\ M s 256 = 0 /\
      dev_busy s = false /\ dev_done s = true
  | None => False
  end.
Proof. vm_compute. repeat split. Qed.

(** *** The loop ends *)

Lemma GET_COUNT_range x : 0 <= GET_COUNT x < 16.
Proof.
  unfold GET_COUNT, USSC_V_COUNT, USSC_M_COUNT. change 15 with (Z.ones 4).
  rewrite Z.land_ones by lia. apply Z.mod_pos_bound. lia.
Qed.

Lemma GET_COUNT_step t sf sc s :
  GET_COUNT (dhp_ussc (DHP_UPDATE_USSC t 1 sf sc s))
  = (GET_COUNT (dhp_ussc s) + 1) mod 16.
Proof.
  rewrite GET_COUNT_update. unfold GET_COUNT, USSC_V_COUNT, USSC_M_COUNT.
  rewrite Z.shiftr_0_r. change 15 with (Z.ones 4).
  rewrite !Z.land_ones by lia. change (2 ^ 4) with 16.
  now rewrite Z.add_mod_idemp_l by lia.
Qed.

Lemma dhp_dma_in_ussc tbuf s : dhp_ussc (dhp_dma_in tbuf s) = dhp_ussc s.
Proof. unfold dhp_dma_in. destruct (dma_in _ _ _ _ _). reflexivity. Qed.

Lemma dhp_dma_out_ussc n s : dhp_ussc (snd (dhp_dma_out n s)) = dhp_ussc s.
Proof. unfold dhp_dma_out. destruct (dma_out _ _ _ _ _). reflexivity. Qed.

Lemma dhp_rw_transfer_count u t s rval s' rval' :
  dhp_rw_transfer u t s rval = (s', rval', Next) ->
  GET_COUNT (dhp_ussc s') = (GET_COUNT (dhp_ussc s) + 1) mod 16.
Proof.
  unfold dhp_rw_transfer.
  destruct (fseek _ _) as [err f].
  destruct (FUNC (uptr s u) =? FCCY_READ).
  - destruct (fxread _ _) as [ws f'].
    destruct (ferror f'); [discriminate|].
    intros H. injection H as <- _.
    rewrite GET_COUNT_step. cbn [with_unit set_units dhp_ussc].
    now rewrite dhp_dma_in_ussc.
  - destruct (FUNC (uptr s u) =? FCCY_WRITE).
    + pose proof (dhp_dma_out_ussc (Z.to_nat DHP_NUMWD) s) as E.
      destruct (dhp_dma_out _ _) as [tbuf s0]. simpl in E.
      destruct (ferror _); [discriminate|].
      intros H. injection H as <- _.
      rewrite GET_COUNT_step. cbn [with_unit set_units dhp_ussc].
      now rewrite E.
    + destruct (err =? 0); [|discriminate].
      intros H. injection H as <- _.
      rewrite GET_COUNT_step. reflexivity.
Qed.

Lemma dhp_rw_body_count u s rval s' rval' :
  dhp_rw_body u s rval = (s', rval', Next) ->
  GET_COUNT (dhp_ussc s') = (GET_COUNT (dhp_ussc s) + 1) mod 16.
Proof.
  unfold dhp_rw_body.
  destruct (_ >=? _).
  - destruct (_ >=? _); [discriminate|].
    intros H. apply dhp_rw_transfer_count in H. rewrite H.
    rewrite GET_COUNT_update, Z.add_0_r. unfold GET_COUNT.
    now rewrite Z.shiftr_0_r.
  - apply dhp_rw_transfer_count.
Qed.

Lemma dhp_rw_loop_ends fuel : forall u s rval,
  16 - GET_COUNT (dhp_ussc s) <= Z.of_nat fuel ->
  exists r, dhp_rw_loop fuel u s rval = Some r.
Proof.
  induction fuel as [|fuel IH]; intros u s rval Hf.
  - pose proof (GET_COUNT_range (dhp_ussc s)). lia.
  - cbn [dhp_rw_loop].
    destruct (dhp_rw_body u s rval) as [[s' rval'] [|]] eqn:Hb.
    + apply dhp_rw_body_count in Hb.
      destruct (Z.eqb_spec (GET_COUNT (dhp_ussc s')) 0) as [E|E].
      * eexists. reflexivity.
      * apply IH.
        pose proof (GET_COUNT_range (dhp_ussc s)).
        assert (GET_COUNT (dhp_ussc s) + 1 < 16).
        { destruct (Z.eq_dec (GET_COUNT (dhp_ussc s)) 15) as [E15|]; [|lia].
          rewrite E15 in Hb. simpl in Hb. contradiction. }
        rewrite Hb, Z.mod_small by lia. lia.
    + eexists. reflexivity.
Qed.

Lemma dhp_svc_total u s : exists r, dhp_svc u s = Some r.
Proof.
  unfold dhp_svc.
  split_ifs; try (eexists; reflexivity).
  destruct (dhp_rw_loop_ends dhp_rw_fuel u s SCPE_OK) as [[s' r] E].
  - pose proof (GET_COUNT_range (dhp_ussc s)). unfold dhp_rw_fuel. lia.
  - rewrite E. eexists. reflexivity.
Qed.

(** *** The surface stays valid from pass to pass

    [dhp_svc] enters the loop with surface and sector below their counts;
    every later pass then starts with a valid surface, which is what the
    overflow property above assumes. *)

(** What a pass that goes on to the next sector leaves in the register. *)
Lemma dhp_rw_transfer_next u t s rval s' rval' :
  dhp_rw_transfer u t s rval = (s', rval', Next) ->
  dhp_ussc s' = ussc_old (dhp_ussc s) 1 (GET_SURF (dhp_ussc s) t)
                         (GET_SECT (dhp_ussc s) t + 1) /\
  DTYPE (uptr s' u) = DTYPE (uptr s u).
Proof.
  unfold dhp_rw_transfer.
  destruct (fseek _ _) as [err f].
  destruct (FUNC (uptr s u) =? FCCY_READ).
  - destruct (fxread _ _) as [ws f'].
    destruct (ferror f'); [discriminate|].
    intros H. injection H as <- _.
    rewrite UPDATE_USSC_old, dhp_dma_in_ussc. split; [reflexivity|].
    unfold dhp_dma_in. destruct (dma_in _ _ _ _ _).
    unfold uptr, unit_at. simpl. unfold upd_unit. now rewrite Z.eqb_refl.
  - destruct (FUNC (uptr s u) =? FCCY_WRITE).
    + unfold dhp_dma_out. destruct (dma_out _ _ _ _ _) as [tbuf ma].
      destruct (ferror _); [discriminate|].
      intros H. injection H as <- _.
      rewrite UPDATE_USSC_old. split; [reflexivity|].
      unfold uptr, unit_at. simpl. unfold upd_unit. now rewrite Z.eqb_refl.
    + destruct (err =? 0); [|discriminate].
      intros H. injection H as <- _.
      rewrite UPDATE_USSC_old. split; [reflexivity|].
      unfold uptr, unit_at. simpl. unfold upd_unit. now rewrite Z.eqb_refl.
Qed.

Lemma dhp_rw_body_inv u s rval s' rval' :
  dhp_rw_inv u s ->
  dhp_rw_body u s rval = (s', rval', Next) ->
  dhp_rw_inv u s'.
Proof.
  unfold dhp_rw_inv, GET_DTYPE. intros [Hsf Hsc].
  set (t := Z.land (DTYPE (uptr s u)) 15) in *.
  assert (HG : drv_tab t = mkDRV SECT_6095 SURF_6095 CYL_6095 SIZE_6095 NFMT_6095).
  { apply drv_tab_6095. pose proof (GET_SURF_range (dhp_ussc s) t). lia. }
  rewrite HG in Hsf, Hsc. simpl in Hsf, Hsc. unfold SURF_6095, SECT_6095 in *.
  pose proof (GET_SURF_range (dhp_ussc s) t) as Rsf.
  pose proof (GET_SECT_range (dhp_ussc s) t) as Rsc.
  unfold dhp_rw_body, GET_DTYPE. fold t. rewrite HG. simpl sect. simpl surf.
  simpl newf. unfold SECT_6095, SURF_6095.
  destruct (Z.geb_spec (GET_SECT (dhp_ussc s) t) 12) as [Hov|Hov].
  - change (if NFMT_6095 then USSC_M_NSURFACE else USSC_M_OSURFACE)
      with USSC_M_OSURFACE.
    assert (E : Z.land (GET_SURF (dhp_ussc s) t + 1) USSC_M_OSURFACE
                = GET_SURF (dhp_ussc s) t + 1).
    { unfold USSC_M_OSURFACE. change 63 with (Z.ones 6).
      rewrite Z.land_ones by lia. apply Z.mod_small. lia. }
    rewrite E. set (s1 := DHP_UPDATE_USSC t 0 _ 0 s).
    assert (F1 : GET_SECT (dhp_ussc s1) t = 0)
      by (apply GET_SECT_update; lia).
    assert (F2 : GET_SURF (dhp_ussc s1) t = GET_SURF (dhp_ussc s) t + 1)
      by (subst s1; rewrite GET_SURF_update; lia).
    destruct (Z.geb_spec (GET_SURF (dhp_ussc s1) t) 4) as [Hs|Hs];
      [discriminate|].
    intros H. apply dhp_rw_transfer_next in H. destruct H as [Hu Hd].
    change (DTYPE (uptr s1 u)) with (DTYPE (uptr s u)) in Hd.
    rewrite Hd. fold t. rewrite HG. simpl. unfold SURF_6095, SECT_6095.
    unfold GET_SURF, GET_SECT. rewrite drv_tab_newf, Hu.
    rewrite ussc_old_surf, ussc_old_sect; rewrite ?F1, ?F2 in *; lia.
  - intros H. apply dhp_rw_transfer_next in H. destruct H as [Hu Hd].
    rewrite Hd. fold t. rewrite HG. simpl. unfold SURF_6095, SECT_6095.
    unfold GET_SURF at 1. unfold GET_SECT at 1. rewrite drv_tab_newf, Hu.
    rewrite ussc_old_surf, ussc_old_sect; lia.
Qed.

Lemma dhp_rw_pass_inv u s0 s :
  dhp_rw_inv u s0 -> dhp_rw_pass u s0 s -> dhp_rw_inv u s.
Proof.
  intros H0 Hp. induction Hp as [|s1 s' rval rval' Hp IH Hb Hc].
  - exact H0.
  - eapply dhp_rw_body_inv; eauto.
Qed.

(** ** Write protection (claim C2) *)

(** Claim C2, as amended.  On a hard-disk unit whose write-protect flag is
    set a write command is refused with the error and done bits, at dispatch
    (outside diagnostic mode) and again at service time: no event is queued
    and no file changes.  The hard-disk status register has no write-fault
    bit.  A floppy format command for a write-protected unit is refused at
    dispatch: no event is queued and no file changes. *)
Theorem write_protect_refusals :
  (forall pulse s,
     let u := GET_UNIT (dhp_ussc s) in
     UNIT_ATT (uptr s u) = true -> sim_is_active u s = false ->
     dhp_diagmode s = false -> UNIT_WPRT (uptr s u) = true ->
     GET_CMD (dhp_fccy s) (GET_DTYPE (uptr s u)) = FCCY_WRITE ->
     let r := dhp_go pulse s in
     fst r = false /\
     tst (dhp_sta (snd r)) STA_ERR = true /\
     tst (dhp_sta (snd r)) STA_DONE = true /\
     sim_clock_queue (snd r) = sim_clock_queue s /\
     (forall v, fileref (uptr (snd r) v) = fileref (uptr s v))) /\
  (forall u s,
     UNIT_WPRT (uptr s u) = true -> FUNC (uptr s u) = FCCY_WRITE ->
     exists s',
       dhp_svc u s = Some (SCPE_OK, s') /\
       tst (dhp_sta s') STA_ERR = true /\ tst (dhp_sta s') STA_DONE = true /\
       dev_busy s' = false /\ dev_done s' = true /\
       sim_clock_queue s' = sim_clock_queue s /\
       dhp_unit s' = dhp_unit s) /\
  (forall pulse s,
     let u := DKT.SC_6038_GET_UNIT (DKT.dkt_6038_sc s) in
     let cmd := DKT.SC_6038_GET_CMD (DKT.dkt_6038_sc s) in
     UNIT_ATT (DKT.uptr s u) = true -> DKT.sim_is_active u s = false ->
     UNIT_WPRT (DKT.uptr s u) = true ->
     cmd = DKT.SC_6038_FORMAT0 \/ cmd = DKT.SC_6038_FORMATNEXT ->
     let r := DKT.dkt_go pulse s in
     fst r = false /\
     DKT.sim_clock_queue (snd r) = DKT.sim_clock_queue s /\
     (forall v, fileref (DKT.uptr (snd r) v) = fileref (DKT.uptr s v))).
Proof.
  split; [|split].
  - intros pulse s u Ha Hi Hd Hw Hc r. subst r. unfold dhp_go.
    change (uptr (clr_sta STA_EFLGS s) ?x) with (uptr s x).
    change (dhp_ussc (clr_sta STA_EFLGS s)) with (dhp_ussc s).
    change (sim_is_active ?x (clr_sta STA_EFLGS s)) with (sim_is_active x s).
    change (dhp_diagmode (clr_sta STA_EFLGS s)) with (dhp_diagmode s).
    change (dhp_fccy (clr_sta STA_EFLGS s)) with (dhp_fccy s).
    fold u. rewrite Ha, Hi, Hd. cbn [negb orb].
    change (dhp_fccy (with_unit u _ _)) with (dhp_fccy s).
    rewrite !uptr_with_unit, !Z.eqb_refl.
    change (FUNC (set_CYL _ (set_FUNC ?c _))) with c.
    rewrite Hc. cbn [Z.eqb FCCY_WRITE FCCY_READ Pos.eqb orb].
    unfold dhp_go_rw.
    rewrite !uptr_with_unit, !Z.eqb_refl.
    change (UNIT_WPRT (set_CYL _ (set_FUNC _ ?x))) with (UNIT_WPRT x).
    change (UNIT_ATT (set_CYL _ (set_FUNC _ ?x))) with (UNIT_ATT x).
    change (FUNC (set_CYL _ (set_FUNC ?c _))) with c.
    change (uptr (clr_sta STA_EFLGS s) u) with (uptr s u).
    rewrite Ha, Hw. cbn [negb orb andb Z.eqb FCCY_WRITE Pos.eqb].
    set (s1 := or_sta _ _).
    assert (He : tst (dhp_sta s1) STA_ERR = true /\ tst (dhp_sta s1) STA_DONE = true).
    { subst s1. cbn -[Z.lor Z.land Z.lnot tst Z.testbit].
      tst_bit STA_ERR 0. tst_bit STA_DONE 15.
      split; dhp_consts; eval_bits; reflexivity. }
    destruct He as [He Hdn]. rewrite He, orb_true_r. cbn [fst snd].
    repeat split; auto.
    intros v. subst s1. unfold uptr, unit_at. simpl. unfold upd_unit.
    destruct (v =? u); reflexivity.
  - intros u s Hw Hf. unfold dhp_svc. rewrite Hf, Hw.
    cbn [Z.eqb FCCY_WRITE FCCY_SEEK Pos.eqb andb]. rewrite orb_true_r.
    eexists. split; [reflexivity|].
    cbn -[Z.lor Z.land Z.lnot tst Z.testbit].
    tst_bit STA_ERR 0. tst_bit STA_DONE 15.
    repeat split; dhp_consts; eval_bits; reflexivity.
  - intros pulse s u cmd Ha Hi Hw Hc r. subst r. unfold DKT.dkt_go.
    change (DKT.uptr (DKT.clr_sta DKT.STA_EFLGS s) ?x) with (DKT.uptr s x).
    change (DKT.dkt_6038_sc (DKT.clr_sta DKT.STA_EFLGS s)) with (DKT.dkt_6038_sc s).
    change (DKT.sim_is_active ?x (DKT.clr_sta DKT.STA_EFLGS s))
      with (DKT.sim_is_active x s).
    fold u. rewrite Ha, Hi. cbn [negb orb].
    change (DKT.uptr (DKT.with_unit u ?f ?s0) u)
      with (if u =? u then f (DKT.uptr s0 u) else DKT.uptr s0 u).
    rewrite Z.eqb_refl.
    change (FUNC (set_FUNC ?c _)) with c.
    change (UNIT_WPRT (set_FUNC _ ?x)) with (UNIT_WPRT x).
    change (DKT.uptr (DKT.clr_sta DKT.STA_EFLGS s) u) with (DKT.uptr s u).
    fold cmd. rewrite Hw.
    destruct Hc as [Hc | Hc]; rewrite Hc;
      cbn [Z.eqb Pos.eqb orb DKT.SC_6038_SETTLE DKT.SC_6038_STEPIN
           DKT.SC_6038_STEPOUT DKT.SC_6038_FORMAT0 DKT.SC_6038_FORMATNEXT fst snd];
      (repeat split; intros v;
       unfold DKT.uptr, unit_at; simpl; unfold upd_unit;
       destruct (v =? u); reflexivity).
Qed.

Lemma write_protect_refusals_witness :
  (fst (dhp_go iopS (snd (dhp_code ioDOA 256 (dhp_attached true (image 0)))))
   = false) /\
  (exists s', dhp_svc 0 (with_unit 0 (set_FUNC FCCY_WRITE)
                           (dhp_attached true (image 0)))
              = Some (SCPE_OK, s') /\ tst (dhp_sta s') STA_ERR = true) /\
  (fst (DKT.dkt_go iopS (DKT.set_sc 240 (dkt_ready true))) = false).
Proof.
  destruct write_protect_refusals as (H1 & H2 & H3).
  split; [|split].
  - apply (H1 iopS (snd (dhp_code ioDOA 256 (dhp_attached true (image 0)))));
      reflexivity.
  - destruct (H2 0 (with_unit 0 (set_FUNC FCCY_WRITE)
                      (dhp_attached true (image 0))))
      as (s' & E & He & _); [reflexivity | reflexivity |].
    exists s'. split; assumption.
  - apply (H3 iopS (DKT.set_sc 240 (dkt_ready true)));
      [reflexivity | reflexivity | reflexivity | left; reflexivity].
Defined.

(** Claim C2 as stated fails.  A refused hard-disk write leaves exactly error
    and done in the status.  On the floppy, write next on a write-protected
    diskette is not refused: the event fires on the next tick and overwrites
    sector 1 from memory, with neither write fault nor error in the status.
    A refused format leaves no error bit either. *)
Lemma write_protect_gaps :
  dhp_sta (snd (dhp iopS ioDOA 256 (dhp_attached true (image 0))))
  = Z.lor STA_DONE STA_ERR /\
  (UNIT_WPRT (DKT.uptr dkt_write1_protected 0) = true /\
   fst (dkt_run 2 dkt_write1_protected) = [(DKT.DKT_TIMER, 500); (0, 495)] /\
   nth 256 (fdata (fileref (DKT.uptr dkt_write1_protected 0))) 0 = 256 /\
   nth 256 (fdata (fileref (DKT.uptr (snd (dkt_run 2 dkt_write1_protected)) 0))) 0
   = 0 /\
   tst (DKT.dkt_sta (snd (dkt_run 2 dkt_write1_protected))) DKT.STA_6038_WRITEFAULT
   = false /\
   tst (DKT.dkt_sta (snd (dkt_run 2 dkt_write1_protected))) DKT.STA_6038_ERROR
   = false) /\
  (tst (DKT.dkt_sta (snd (DKT.dkt iopS ioDOA 240 (dkt_ready true))))
       DKT.STA_6038_ERROR = false /\
   tst (DKT.dkt_sta (snd (DKT.dkt iopS ioDOA 240 (dkt_ready true))))
       DKT.STA_6038_WRITEFAULT = false).
Proof. vm_compute. repeat split. Qed.

(** ** Hard disk: the spare entries of the unit array

    [dhp_unit] has four entries and the unit field of the register can name
    each of them, but the device has [DHP_NUMDR] units and reset runs over
    those.  Nothing can be attached to the other entries, and what follows
    shows that they then stay as they were at power on, so that after reset
    the whole array is idle. *)

Lemma active_activate_keeps v u t q :
  u <> v -> Sim.sim_is_active v q = false ->
  Sim.sim_is_active v (Sim.sim_activate u t q) = false.
Proof. intros Hne H. now rewrite active_activate_other. Qed.

Lemma active_cancel_keeps v u q :
  Sim.sim_is_active v q = false -> Sim.sim_is_active v (Sim.sim_cancel u q) = false.
Proof.
  intros H. destruct (Z.eq_dec u v) as [->|Hne].
  - apply active_cancel.
  - now rewrite active_cancel_other.
Qed.

(** A unit that is not attached is out of reach of the dispatcher. *)
Lemma dhp_go_unattached pulse s v :
  UNIT_ATT (uptr s v) = false ->
  uptr (snd (dhp_go pulse s)) v = uptr s v /\
  (sim_is_active v s = false -> sim_is_active v (snd (dhp_go pulse s)) = false).
Proof.
  intros Ha. unfold dhp_go.
  change (uptr (clr_sta STA_EFLGS s) ?x) with (uptr s x).
  change (dhp_ussc (clr_sta STA_EFLGS s)) with (dhp_ussc s).
  change (sim_is_active ?x (clr_sta STA_EFLGS s)) with (sim_is_active x s).
  set (u := GET_UNIT (dhp_ussc s)).
  destruct (negb (UNIT_ATT (uptr s u)) || sim_is_active u s) eqn:E.
  - split; [reflexivity | auto].
  - apply orb_false_iff in E. destruct E as [E _].
    apply negb_false_iff in E.
    assert (Hne : u <> v) by (intros ->; congruence).
    assert (Hvu : (v =? u) = false) by (apply Z.eqb_neq; congruence).
    unfold dhp_go_rw, dhp_go_seek, sim_is_active, sim_activate.
    split_ifs;
      unfold uptr, unit_at; simpl; unfold upd_unit; rewrite ?Hvu;
      (split; [reflexivity | auto using active_activate_keeps]).
Qed.

Lemma dhp_unattached pulse code AC s v :
  UNIT_ATT (uptr s v) = false ->
  uptr (snd (dhp pulse code AC s)) v = uptr s v /\
  (sim_is_active v s = false ->
   sim_is_active v (snd (dhp pulse code AC s)) = false).
Proof.
  intros Ha. rewrite dhp_snd.
  pose proof (dhp_code_units code AC s) as HU.
  pose proof (dhp_code_queue code AC s) as HQ.
  set (s1 := snd (dhp_code code AC s)) in *.
  unfold uptr at 2. unfold sim_is_active at 1. rewrite <- HU, <- HQ.
  fold (uptr s1 v). fold (sim_is_active v s1).
  assert (Ha1 : UNIT_ATT (uptr s1 v) = false) by (unfold uptr; now rewrite HU).
  clearbody s1. clear HU HQ Ha s.
  destruct pulse; unfold dhp_pulse.
  - split; [reflexivity | auto].
  - set (s2 := DEV_UPDATE_INTR _).
    destruct (dhp_go_unattached iopS s2 v Ha1) as [G1 G2].
    destruct (dhp_go iopS s2) as [ok s3]. simpl in G1, G2.
    destruct ok; split; auto.
  - destruct (negb _); split; try reflexivity;
      unfold sim_is_active; simpl; auto using active_cancel_keeps.
  - destruct (dhp_diagmode s1); [split; [reflexivity | auto]|].
    set (s2 := DEV_UPDATE_INTR _).
    destruct (dhp_go_unattached iopP s2 v Ha1) as [G1 G2].
    destruct (dhp_go iopP s2) as [ok s3]. simpl in G1, G2.
    destruct ok; split; auto.
Qed.

Lemma dhp_frame_refl u s : dhp_frame u s s.
Proof. split; auto. Qed.

Lemma dhp_frame_trans u s1 s2 s3 :
  dhp_frame u s1 s2 -> dhp_frame u s2 s3 -> dhp_frame u s1 s3.
Proof.
  intros [A1 B1] [A2 B2]. split.
  - intros v Hv. now rewrite A2, A1.
  - now rewrite B2.
Qed.

Lemma dhp_frame_with_unit u f s : dhp_frame u s (with_unit u f s).
Proof.
  split; [|reflexivity]. intros v Hv.
  unfold uptr, unit_at. simpl. unfold upd_unit.
  destruct (Z.eqb_spec v u); [contradiction | reflexivity].
Qed.

Lemma dhp_frame_regs u s s' :
  dhp_unit s' = dhp_unit s -> sim_clock_queue s' = sim_clock_queue s ->
  dhp_frame u s s'.
Proof. intros Hu Hq. split; [|exact Hq]. intros v _. unfold uptr. now rewrite Hu. Qed.

Lemma dhp_frame_dma_in u tbuf s : dhp_frame u s (dhp_dma_in tbuf s).
Proof.
  unfold dhp_dma_in. destruct (dma_in _ _ _ _ _). now apply dhp_frame_regs.
Qed.

Lemma dhp_frame_dma_out u n s : dhp_frame u s (snd (dhp_dma_out n s)).
Proof.
  unfold dhp_dma_out. destruct (dma_out _ _ _ _ _). now apply dhp_frame_regs.
Qed.

Lemma dhp_frame_update u t c sf sc s : dhp_frame u s (DHP_UPDATE_USSC t c sf sc s).
Proof. now apply dhp_frame_regs. Qed.

Lemma dhp_rw_transfer_frame u t s rval :
  dhp_frame u s (fst (fst (dhp_rw_transfer u t s rval))).
Proof.
  unfold dhp_rw_transfer.
  destruct (fseek _ _) as [err f].
  destruct (FUNC (uptr s u) =? FCCY_READ).
  - destruct (fxread _ _) as [ws f'].
    destruct (ferror f'); simpl.
    + apply dhp_frame_with_unit.
    + eapply dhp_frame_trans; [apply dhp_frame_with_unit|].
      eapply dhp_frame_trans; [apply dhp_frame_dma_in|].
      apply dhp_frame_update.
  - destruct (FUNC (uptr s u) =? FCCY_WRITE).
    + pose proof (dhp_frame_dma_out u (Z.to_nat DHP_NUMWD) s) as F.
      destruct (dhp_dma_out _ _) as [tbuf s0]. simpl in F.
      destruct (ferror _); simpl.
      * eapply dhp_frame_trans; [exact F | apply dhp_frame_with_unit].
      * eapply dhp_frame_trans; [exact F|].
        eapply dhp_frame_trans; [apply dhp_frame_with_unit|].
        apply dhp_frame_update.
    + destruct (err =? 0); simpl.
      * eapply dhp_frame_trans; [apply dhp_frame_with_unit|].
        apply dhp_frame_update.
      * eapply dhp_frame_trans; apply dhp_frame_with_unit.
Qed.

Lemma dhp_rw_body_frame u s rval :
  dhp_frame u s (fst (fst (dhp_rw_body u s rval))).
Proof.
  unfold dhp_rw_body.
  destruct (_ >=? _).
  - destruct (_ >=? _); simpl.
    + now apply dhp_frame_regs.
    + eapply dhp_frame_trans; [apply dhp_frame_update|].
      apply dhp_rw_transfer_frame.
  - apply dhp_rw_transfer_frame.
Qed.

Lemma dhp_rw_loop_frame fuel : forall u s rval s' rval',
  dhp_rw_loop fuel u s rval = Some (s', rval') -> dhp_frame u s s'.
Proof.
  induction fuel as [|fuel IH]; intros u s rval s' rval'; [discriminate|].
  cbn [dhp_rw_loop].
  pose proof (dhp_rw_body_frame u s rval) as F.
  destruct (dhp_rw_body u s rval) as [[s1 rval1] [|]]; simpl in F.
  - destruct (GET_COUNT (dhp_ussc s1) =? 0).
    + intros H. injection H as <- _. exact F.
    + intros H. apply IH in H. eapply dhp_frame_trans; eauto.
  - intros H. injection H as <- _. exact F.
Qed.

Lemma dhp_svc_frame u s r s' :
  dhp_svc u s = Some (r, s') -> dhp_frame u s s'.
Proof.
  unfold dhp_svc.
  split_ifs;
    try (intros H; injection H as _ <-; now apply dhp_frame_regs).
  destruct (dhp_rw_loop dhp_rw_fuel u s SCPE_OK) as [[s1 r1]|] eqn:E;
    [|discriminate].
  apply dhp_rw_loop_frame in E.
  intros H. injection H as _ <-.
  eapply dhp_frame_trans; [exact E|]. now apply dhp_frame_regs.
Qed.

Lemma dhp_reset_spare v s :
  DHP_NUMDR <= v ->
  uptr (snd (dhp_reset s)) v = uptr s v /\
  (sim_is_active v s = false -> sim_is_active v (snd (dhp_reset s)) = false).
Proof.
  unfold DHP_NUMDR. intros Hv. unfold dhp_reset.
  change (Z.to_nat 1) with 1%nat.
  unfold uptr, unit_at, sim_is_active. simpl. unfold upd_unit.
  destruct (Z.eqb_spec v 0); [lia|].
  split; [reflexivity | apply active_cancel_keeps].
Qed.

Lemma dhp_power_on_spare_idle : dhp_spare_idle dhp_power_on.
Proof. intros v _. repeat split. Qed.

Lemma dhp_spare_idle_dhp pulse code AC s :
  dhp_spare_idle s -> dhp_spare_idle (snd (dhp pulse code AC s)).
Proof.
  intros H v Hv. destruct (H v Hv) as (Ha & Hf & Hc & Hi).
  destruct (dhp_unattached pulse code AC s v Ha) as [E A].
  rewrite E. auto.
Qed.

Lemma dhp_spare_idle_svc u s r s' :
  0 <= u < DHP_NUMDR -> dhp_spare_idle s -> dhp_svc u s = Some (r, s') ->
  dhp_spare_idle s'.
Proof.
  intros Hu H Hs v Hv. destruct (H v Hv) as (Ha & Hf & Hc & Hi).
  apply dhp_svc_frame in Hs. destruct Hs as [Fu Fq].
  rewrite Fu by lia. unfold sim_is_active in *. rewrite Fq. auto.
Qed.

Lemma dhp_spare_idle_reset s :
  dhp_spare_idle s -> dhp_spare_idle (snd (dhp_reset s)).
Proof.
  intros H v Hv. destruct (H v Hv) as (Ha & Hf & Hc & Hi).
  destruct (dhp_reset_spare v s Hv) as [E A]. rewrite E. auto.
Qed.

(** With the spare entries of the unit array idle, as they are from power
    on, reset leaves every entry of the array idle at cylinder 0. *)
Lemma dhp_reset_whole_array s v :
  dhp_spare_idle s -> 0 <= v ->
  sim_is_active v (snd (dhp_reset s)) = false /\
  CYL (uptr (snd (dhp_reset s)) v) = 0 /\ FUNC (uptr (snd (dhp_reset s)) v) = 0.
Proof.
  intros H Hv. destruct (Z.lt_ge_cases v DHP_NUMDR) as [L|L].
  - apply dhp_reset_units. lia.
  - destruct (dhp_spare_idle_reset s H v L) as (_ & Hf & Hc & Hi). auto.
Qed.

(** * Further properties

    What follows covers the parts of the two controllers that the claims
    leave out: the register instructions, the rest of the dispatchers, the
    service routines as a whole, the data channel loops, and for the floppy
    the clear pulse, the program-load ROM, the sector timer and the
    invariants of the event queue. *)

(** Case analysis on every condition and every pair a state is taken from,
    innermost first; the second form keeps the equations. *)

Ltac svc_cases :=
  repeat (first
    [ match goal with
      | |- context [if ?b then _ else _] => destruct b
      end
    | match goal with
      | |- context [match ?x with pair _ _ => _ end] =>
          lazymatch x with
          | context [match _ with pair _ _ => _ end] => fail
          | _ => destruct x
          end
      end ]; cbv beta iota).

Ltac svc_cases_eqn :=
  repeat (first
    [ match goal with
      | |- context [if ?b then _ else _] => destruct b eqn:?
      end
    | match goal with
      | |- context [match ?x with pair _ _ => _ end] =>
          lazymatch x with
          | context [match _ with pair _ _ => _ end] => fail
          | _ => destruct x eqn:?
          end
      end ]; cbv beta iota).

(** ** Hard disk: the unit/sector register and the register instructions *)

Import DHP.

Lemma ussc_old_unit ussc count sf sc :
  0 <= sf < 64 -> 0 <= sc < 16 ->
  Z.land (Z.shiftr (ussc_old ussc count sf sc) 14) 3
  = Z.land (Z.shiftr ussc 14) 3.
Proof.
  intros Hsf Hsc.
  unfold ussc_old, USSC_UNIT, USSC_M_UNIT, USSC_V_UNIT, USSC_M_COUNT,
    USSC_V_OSURFACE, USSC_V_OSECTOR.
  apply Z.bits_inj'. intros n Hn.
  rewrite !Z.land_spec, !Z.shiftr_spec, !Z.lor_spec, !Z.land_spec,
          !Z.shiftl_spec by lia.
  change 3 with (Z.ones 2). change 15 with (Z.ones 4).
  destruct (Z.lt_ge_cases n 2) as [L|L].
  - rewrite (Z.ones_spec_low 2 n) by lia.
    rewrite (Z.ones_spec_high 4 (n + 14)) by lia.
    replace (n + 14 - 14) with n by lia.
    rewrite (Z.ones_spec_low 2 n) by lia.
    rewrite (testbit_below sf 6 (n + 14 - 8)) by lia.
    rewrite (testbit_below sc 4 (n + 14 - 4)) by lia.
    now rewrite !andb_true_r, !andb_false_r, !orb_false_r.
  - rewrite (Z.ones_spec_high 2 n) by lia. now rewrite !andb_false_r.
Qed.

Lemma land15_add x c : Z.land (x + c) 15 = (Z.land x 15 + c) mod 16.
Proof.
  change 15 with (Z.ones 4). rewrite !Z.land_ones by lia.
  change (2 ^ 4) with 16. now rewrite Z.add_mod_idemp_l by lia.
Qed.

(** Property X1.  [DHP_UPDATE_USSC] rebuilds the unit, surface, sector and
    count register so that, for a surface below 64 and a sector below 16, the
    surface and sector fields read back as given, the count field is the old
    count plus the increment modulo 16, and the unit field is kept. *)
Theorem DHP_UPDATE_USSC_fields dtype count sf sc s :
  0 <= sf < 64 -> 0 <= sc < 16 ->
  let x := dhp_ussc (DHP_UPDATE_USSC dtype count sf sc s) in
  GET_SURF x dtype = sf /\ GET_SECT x dtype = sc /\
  GET_COUNT x = (GET_COUNT (dhp_ussc s) + count) mod 16 /\
  GET_UNIT x = GET_UNIT (dhp_ussc s).
Proof.
  intros Hsf Hsc x. subst x. repeat split.
  - now apply GET_SURF_update.
  - now apply GET_SECT_update.
  - rewrite GET_COUNT_update. unfold GET_COUNT, USSC_V_COUNT, USSC_M_COUNT.
    rewrite Z.shiftr_0_r. apply land15_add.
  - rewrite UPDATE_USSC_old. unfold GET_UNIT, USSC_V_UNIT, USSC_M_UNIT.
    now apply ussc_old_unit.
Qed.

Lemma DHP_UPDATE_USSC_fields_witness :
  let x := dhp_ussc (DHP_UPDATE_USSC 0 1 3 11 (set_ussc 49167 dhp_power_on)) in
  GET_SURF x 0 = 3 /\ GET_SECT x 0 = 11 /\ GET_COUNT x = 0 /\ GET_UNIT x = 3.
Proof.
  apply (DHP_UPDATE_USSC_fields 0 1 3 11 (set_ussc 49167 dhp_power_on)); lia.
Defined.

(** Property X2.  While the controller is busy the decode switch of [dhp]
    stores nothing: whatever the instruction code and accumulator, the
    command/cylinder register, the unit/sector register, the memory address
    and the map stay as they are. *)
Theorem dhp_registers_locked_while_busy code AC s :
  dev_busy s = true ->
  let s' := snd (dhp_code code AC s) in
  dhp_fccy s' = dhp_fccy s /\ dhp_ussc s' = dhp_ussc s /\
  dhp_ma s' = dhp_ma s /\ dhp_map s' = dhp_map s.
Proof.
  intros Hb s'. subst s'. unfold dhp_code.
  destruct code;
    repeat match goal with
      | |- context [if ?b then _ else _] => destruct b eqn:?
      end;
    simpl in *; rewrite ?Hb in *; try discriminate; repeat split.
Qed.

Lemma dhp_registers_locked_while_busy_witness :
  dhp_ussc (snd (dhp_code ioDOC 49167 dhp_reading)) = dhp_ussc dhp_reading /\
  dhp_ma (snd (dhp_code ioDOB 512 dhp_reading)) = dhp_ma dhp_reading.
Proof.
  split.
  - apply (dhp_registers_locked_while_busy ioDOC 49167 dhp_reading). reflexivity.
  - apply (dhp_registers_locked_while_busy ioDOB 512 dhp_reading). reflexivity.
Defined.


(** Property X3.  With the controller not busy the registers read back what
    was written: [DOC] then [DIC] returns the accumulator, [DOB] then [DIB]
    returns it masked by the address mask and by 077777, [DOA] stores it as
    the command, and [DOB] sets the map to 3 or 0 by bit 15. *)
Theorem dhp_register_readback AC s :
  dev_busy s = false ->
  fst (dhp iopN ioDIC 0 (snd (dhp iopN ioDOC AC s))) = AC /\
  fst (dhp iopN ioDIB 0 (snd (dhp iopN ioDOB AC s)))
    = Z.land (Z.land AC (AMASK (cpu s))) 32767 /\
  dhp_fccy (snd (dhp iopN ioDOA AC s)) = AC /\
  dhp_map (snd (dhp iopN ioDOB AC s)) = (if Z.testbit AC 15 then 3 else 0).
Proof.
  intros Hb. unfold dhp, dhp_code.
  rewrite drv_tab_newf. tst_bit 32768 15.
  repeat match goal with
    | |- context [if ?b then _ else _] => destruct b eqn:?
    end;
    simpl in *; rewrite ?Hb in *; try discriminate; repeat split.
Qed.

Lemma dhp_register_readback_witness :
  fst (dhp iopN ioDIC 0 (snd (dhp iopN ioDOC 49167 dhp_power_on))) = 49167 /\
  dhp_map (snd (dhp iopN ioDOB 49167 dhp_power_on)) = 3.
Proof.
  destruct (dhp_register_readback 49167 dhp_power_on eq_refl) as (H1 & _ & _ & H4).
  split; [exact H1 | exact H4].
Defined.

(** ** Hard disk: the dispatcher on a ready unit *)

Lemma land_lor_same x m : Z.land (Z.lor x m) m = m.
Proof.
  apply Z.bits_inj'. intros n Hn. rewrite Z.land_spec, Z.lor_spec.
  destruct (Z.testbit x n), (Z.testbit m n); reflexivity.
Qed.

Lemma tst_lor_same x m : m <> 0 -> tst (Z.lor x m) m = true.
Proof.
  intros Hm. unfold tst. rewrite land_lor_same.
  destruct (Z.eqb_spec m 0); [contradiction | reflexivity].
Qed.

Lemma GET_UNIT_range x : 0 <= GET_UNIT x < 4.
Proof.
  unfold GET_UNIT, USSC_M_UNIT. change 3 with (Z.ones 2).
  rewrite Z.land_ones by lia. apply Z.mod_pos_bound. lia.
Qed.

Lemma GET_CYL_range x t : 0 <= GET_CYL x t < 512.
Proof.
  unfold GET_CYL. rewrite drv_tab_newf.
  unfold FCCY_V_OCYL, FCCY_M_OCYL, FCCY_OCEX, FCCY_V_OCEX, FCCY_V_OCMD.
  rewrite Z.shiftr_0_r.
  assert (H1 : 0 <= Z.land x 255 < 256).
  { change 255 with (Z.ones 8). rewrite Z.land_ones by lia.
    apply Z.mod_pos_bound. lia. }
  assert (H2 : Z.shiftr (Z.land x (Z.shiftl 1 10)) (10 - 8)
               = if Z.testbit x 10 then 256 else 0).
  { change (Z.shiftl 1 10) with (2 ^ 10). rewrite land_pow2 by lia.
    destruct (Z.testbit x 10); reflexivity. }
  rewrite H2.
  assert (H3 : forall a, 0 <= a < 256 -> Z.lor a 256 = a + 256).
  { intros a Ha.
    assert (H0 : Z.land a 256 = 0).
    { apply Z.bits_inj'. intros n Hn. rewrite Z.land_spec, Z.bits_0.
      destruct (Z.lt_ge_cases n 8).
      + change 256 with (2 ^ 8). rewrite Z.pow2_bits_false by lia.
        apply andb_false_r.
      + rewrite (testbit_below a 8 n) by lia. reflexivity. }
    rewrite Z.add_nocarry_lxor by exact H0. symmetry. now apply Z.lxor_lor. }
  destruct (Z.testbit x 10).
  - rewrite H3 by lia. lia.
  - rewrite Z.lor_0_r. lia.
Qed.

Lemma clr_EFLGS_clear x : Z.land (Z.land x (Z.lnot STA_EFLGS)) STA_EFLGS = 0.
Proof. apply land_lnot_same. Qed.

(** The dispatcher on a ready unit, outside diagnostic mode. *)
Lemma dhp_go_ready pulse s :
  let u := GET_UNIT (dhp_ussc s) in
  let dtype := GET_DTYPE (uptr s u) in
  let cmd := GET_CMD (dhp_fccy s) dtype in
  let s2 := with_unit u (set_CYL (GET_CYL (dhp_fccy s) dtype))
              (with_unit u (set_FUNC cmd) (clr_sta STA_EFLGS s)) in
  UNIT_ATT (uptr s u) = true -> sim_is_active u s = false ->
  dhp_diagmode s = false ->
  dhp_go pulse s =
    if (cmd =? FCCY_READ) || (cmd =? FCCY_WRITE) then dhp_go_rw pulse u dtype s2
    else if cmd =? FCCY_RECAL then
      dhp_go_seek pulse u dtype (CYL (uptr s u))
        (with_unit u (set_CYL 0) (with_unit u (set_FUNC FCCY_SEEK) s2))
    else if cmd =? FCCY_SEEK then dhp_go_seek pulse u dtype (CYL (uptr s u)) s2
    else (true, s2).
Proof.
  intros u dtype cmd s2 Ha Hi Hd. unfold dhp_go.
  change (uptr (clr_sta STA_EFLGS s) ?x) with (uptr s x).
  change (dhp_ussc (clr_sta STA_EFLGS s)) with (dhp_ussc s).
  change (sim_is_active ?x (clr_sta STA_EFLGS s)) with (sim_is_active x s).
  change (dhp_diagmode (clr_sta STA_EFLGS s)) with (dhp_diagmode s).
  change (dhp_fccy (clr_sta STA_EFLGS s)) with (dhp_fccy s).
  fold u. fold dtype. rewrite Ha, Hi, Hd. cbn [negb orb].
  change (dhp_fccy (with_unit u _ _)) with (dhp_fccy s).
  fold cmd. fold s2.
  assert (E : FUNC (uptr s2 u) = cmd).
  { subst s2. rewrite !uptr_with_unit, !Z.eqb_refl. reflexivity. }
  rewrite E. reflexivity.
Qed.

Lemma uptr_s2 u c f s :
  uptr (with_unit u (set_CYL c) (with_unit u (set_FUNC f) s)) u
  = set_CYL c (set_FUNC f (uptr s u)).
Proof. rewrite !uptr_with_unit, !Z.eqb_refl. reflexivity. Qed.

Ltac rw_setup Ha Hi Hd :=
  rewrite (dhp_go_ready _ _ Ha Hi Hd);
  unfold dhp_go_rw, dhp_go_seek;
  rewrite ?uptr_with_unit, ?Z.eqb_refl;
  change (uptr (clr_sta STA_EFLGS ?s) ?x) with (uptr s x);
  cbn [UNIT_ATT UNIT_WPRT FUNC CYL set_CYL set_FUNC];
  change (dhp_ussc (with_unit _ _ (with_unit _ _ (clr_sta STA_EFLGS ?s))))
    with (dhp_ussc s).

(** Property X4.  A read, or a write to a unit that is not write protected,
    started with the start pulse on an attached idle unit outside diagnostic
    mode with cylinder, surface and sector inside the geometry, is accepted:
    the unit is queued after the rotational delay, no error flag is left, and
    the unit records the command and the cylinder. *)
Theorem dhp_go_transfer_accepted s :
  let u := GET_UNIT (dhp_ussc s) in
  let dtype := GET_DTYPE (uptr s u) in
  let cmd := GET_CMD (dhp_fccy s) dtype in
  let G := drv_tab dtype in
  let r := dhp_go iopS s in
  UNIT_ATT (uptr s u) = true -> sim_is_active u s = false ->
  dhp_diagmode s = false ->
  cmd = FCCY_READ \/ (cmd = FCCY_WRITE /\ UNIT_WPRT (uptr s u) = false) ->
  GET_CYL (dhp_fccy s) dtype < cyl G ->
  GET_SURF (dhp_ussc s) dtype < surf G ->
  GET_SECT (dhp_ussc s) dtype < sect G ->
  fst r = true /\
  sim_activate_time u (sim_clock_queue (snd r)) = Some (dhp_rwait s) /\
  Z.land (dhp_sta (snd r)) STA_EFLGS = 0 /\
  FUNC (uptr (snd r) u) = cmd /\
  CYL (uptr (snd r) u) = GET_CYL (dhp_fccy s) dtype.
Proof.
  intros u dtype cmd G r Ha Hi Hd Hc Hcy Hsf Hsc. subst r.
  rw_setup Ha Hi Hd. fold u dtype cmd G.
  assert (E1 : (cmd =? FCCY_READ) || (cmd =? FCCY_WRITE) = true)
    by (destruct Hc as [-> | [-> _]]; reflexivity).
  assert (E2 : UNIT_WPRT (uptr s u) && (cmd =? FCCY_WRITE) = false)
    by (destruct Hc as [-> | [-> ->]]; [apply andb_false_r | reflexivity]).
  rewrite E1, Ha, E2. cbn [negb orb].
  destruct (Z.geb_spec (GET_CYL (dhp_fccy s) dtype) (cyl G)); [lia|].
  destruct (Z.geb_spec (GET_SURF (dhp_ussc s) dtype) (surf G)); [lia|].
  destruct (Z.geb_spec (GET_SECT (dhp_ussc s) dtype) (sect G)); [lia|].
  set (s2 := with_unit u _ _).
  assert (Es : dhp_sta s2 = Z.land (dhp_sta s) (Z.lnot STA_EFLGS)) by reflexivity.
  assert (Ee : tst (dhp_sta s2) STA_ERR = false).
  { rewrite Es. tst_bit STA_ERR 0. dhp_consts. eval_bits. reflexivity. }
  rewrite Ee. cbn [orb fst snd].
  repeat split.
  - unfold sim_activate. cbn [sim_clock_queue set_queue].
    apply time_activate. exact Hi.
  - change (dhp_sta (sim_activate _ _ s2)) with (dhp_sta s2). rewrite Es.
    apply land_lnot_same.
  - change (uptr (sim_activate _ _ s2) u) with (uptr s2 u). subst s2.
    now rewrite uptr_s2.
  - change (uptr (sim_activate _ _ s2) u) with (uptr s2 u). subst s2.
    now rewrite uptr_s2.
Qed.

Lemma dhp_go_transfer_accepted_witness :
  fst (dhp_go iopS (dhp_attached false (image 0))) = true /\
  sim_activate_time 0
    (sim_clock_queue (snd (dhp_go iopS (dhp_attached false (image 0)))))
  = Some 100.
Proof.
  destruct (dhp_go_transfer_accepted (dhp_attached false (image 0)))
    as (H1 & H2 & _).
  - reflexivity.
  - reflexivity.
  - reflexivity.
  - left. reflexivity.
  - vm_compute. reflexivity.
  - vm_compute. reflexivity.
  - vm_compute. reflexivity.
  - split; [exact H1 | exact H2].
Defined.


(** Status bits of a word [Z.lor (Z.land x (Z.lnot STA_EFLGS)) m]. *)
Lemma sta_after_clear x m k :
  0 <= k < 6 ->
  Z.testbit (Z.lor (Z.land x (Z.lnot STA_EFLGS)) m) k = Z.testbit m k.
Proof.
  intros Hk. rewrite Z.lor_spec, Z.land_spec, Z.lnot_spec by lia.
  assert (E : Z.testbit STA_EFLGS k = true).
  { change STA_EFLGS with (Z.ones 6). apply Z.ones_spec_low. lia. }
  rewrite E. simpl. now rewrite andb_false_r.
Qed.

(** Property X5.  The same command with the cylinder, the surface or the
    sector outside the geometry is refused whatever the pulse: nothing is
    queued, error and done are set, and exactly the first failing check of
    cylinder, surface, sector sets its bit (bad cylinder, unsafe,
    cross-cylinder). *)
Theorem dhp_go_transfer_errors pulse s :
  let u := GET_UNIT (dhp_ussc s) in
  let dtype := GET_DTYPE (uptr s u) in
  let cmd := GET_CMD (dhp_fccy s) dtype in
  let G := drv_tab dtype in
  let r := dhp_go pulse s in
  let sta' := dhp_sta (snd r) in
  UNIT_ATT (uptr s u) = true -> sim_is_active u s = false ->
  dhp_diagmode s = false ->
  cmd = FCCY_READ \/ (cmd = FCCY_WRITE /\ UNIT_WPRT (uptr s u) = false) ->
  (GET_CYL (dhp_fccy s) dtype >= cyl G \/
   GET_SURF (dhp_ussc s) dtype >= surf G \/
   GET_SECT (dhp_ussc s) dtype >= sect G) ->
  fst r = false /\ sim_clock_queue (snd r) = sim_clock_queue s /\
  tst sta' STA_ERR = true /\ tst sta' STA_DONE = true /\
  tst sta' STA_CYL = (GET_CYL (dhp_fccy s) dtype >=? cyl G) /\
  tst sta' STA_UNS =
    negb (GET_CYL (dhp_fccy s) dtype >=? cyl G)
    && (GET_SURF (dhp_ussc s) dtype >=? surf G) /\
  tst sta' STA_XCY =
    negb (GET_CYL (dhp_fccy s) dtype >=? cyl G)
    && negb (GET_SURF (dhp_ussc s) dtype >=? surf G)
    && (GET_SECT (dhp_ussc s) dtype >=? sect G).
Proof.
  intros u dtype cmd G r sta' Ha Hi Hd Hc Hbad. subst sta' r.
  rw_setup Ha Hi Hd. fold u dtype cmd G.
  assert (E1 : (cmd =? FCCY_READ) || (cmd =? FCCY_WRITE) = true)
    by (destruct Hc as [-> | [-> _]]; reflexivity).
  assert (E2 : UNIT_WPRT (uptr s u) && (cmd =? FCCY_WRITE) = false)
    by (destruct Hc as [-> | [-> ->]]; [apply andb_false_r | reflexivity]).
  rewrite E1, Ha, E2. cbn [negb orb].
  set (s2 := with_unit u _ _).
  assert (Es : dhp_sta s2 = Z.land (dhp_sta s) (Z.lnot STA_EFLGS)) by reflexivity.
  tst_bit STA_ERR 0. tst_bit STA_DONE 15. tst_bit STA_CYL 5.
  tst_bit STA_UNS 3. tst_bit STA_XCY 4.
  destruct (Z.geb_spec (GET_CYL (dhp_fccy s) dtype) (cyl G));
    [|destruct (Z.geb_spec (GET_SURF (dhp_ussc s) dtype) (surf G));
      [|destruct (Z.geb_spec (GET_SECT (dhp_ussc s) dtype) (sect G)); [|lia]]];
    cbn [or_sta set_sta dhp_sta]; rewrite Es;
    rewrite (sta_after_clear _ _ 0) by lia; 
    (replace (Z.testbit _ 0) with true by reflexivity);
    rewrite orb_true_r; cbn [fst snd or_sta set_sta dhp_sta sim_clock_queue];
    rewrite Es, ?sta_after_clear by lia;
    (repeat split; try reflexivity;
     rewrite Z.lor_spec; dhp_consts; eval_bits; reflexivity).
Qed.

Lemma dhp_go_transfer_errors_witness :
  fst (dhp_go iopS dhp_sector_overflow) = false /\
  tst (dhp_sta (snd (dhp_go iopS dhp_sector_overflow))) STA_XCY = true.
Proof.
  destruct (dhp_go_transfer_errors iopS dhp_sector_overflow)
    as (H1 & _ & _ & _ & _ & _ & H7).
  - reflexivity.
  - reflexivity.
  - reflexivity.
  - left. reflexivity.
  - right. right. vm_compute. discriminate.
  - split; [exact H1 | exact H7].
Defined.


(** The status after a refused command that raised nothing. *)
Lemma tst_ERR_clear x : tst (Z.land x (Z.lnot STA_EFLGS)) STA_ERR = false.
Proof. tst_bit STA_ERR 0. dhp_consts. eval_bits. reflexivity. Qed.

(** Property X6.  A valid transfer that comes with another pulse than start,
    or a seek that comes with another pulse than pulse, is refused without
    any error flag and without a queue entry, yet the unit's function and
    cylinder have already been overwritten. *)
Theorem dhp_go_wrong_pulse pulse s :
  let u := GET_UNIT (dhp_ussc s) in
  let dtype := GET_DTYPE (uptr s u) in
  let cmd := GET_CMD (dhp_fccy s) dtype in
  let G := drv_tab dtype in
  let r := dhp_go pulse s in
  UNIT_ATT (uptr s u) = true -> sim_is_active u s = false ->
  dhp_diagmode s = false ->
  GET_CYL (dhp_fccy s) dtype < cyl G ->
  (((cmd = FCCY_READ \/ (cmd = FCCY_WRITE /\ UNIT_WPRT (uptr s u) = false)) /\
    GET_SURF (dhp_ussc s) dtype < surf G /\
    GET_SECT (dhp_ussc s) dtype < sect G /\ pulse <> iopS)
   \/ (cmd = FCCY_SEEK /\ pulse <> iopP)) ->
  fst r = false /\ sim_clock_queue (snd r) = sim_clock_queue s /\
  Z.land (dhp_sta (snd r)) STA_EFLGS = 0 /\
  FUNC (uptr (snd r) u) = cmd /\
  CYL (uptr (snd r) u) = GET_CYL (dhp_fccy s) dtype.
Proof.
  intros u dtype cmd G r Ha Hi Hd Hcy Hcase. subst r.
  rw_setup Ha Hi Hd. fold u dtype cmd G.
  destruct (Z.geb_spec (GET_CYL (dhp_fccy s) dtype) (cyl G)); [lia|].
  destruct Hcase as [(Hc & Hsf & Hsc & Hp) | (Hc & Hp)].
  - assert (E1 : (cmd =? FCCY_READ) || (cmd =? FCCY_WRITE) = true)
      by (destruct Hc as [-> | [-> _]]; reflexivity).
    assert (E2 : UNIT_WPRT (uptr s u) && (cmd =? FCCY_WRITE) = false)
      by (destruct Hc as [-> | [-> ->]]; [apply andb_false_r | reflexivity]).
    rewrite E1, Ha, E2. cbn [negb orb].
    destruct (Z.geb_spec (GET_SURF (dhp_ussc s) dtype) (surf G)); [lia|].
    destruct (Z.geb_spec (GET_SECT (dhp_ussc s) dtype) (sect G)); [lia|].
    set (s2 := with_unit u _ _).
    assert (Ep : match pulse with iopS => false | _ => true end = true)
      by (destruct pulse; auto; contradiction).
    rewrite Ep. cbn [orb fst snd].
    repeat split; try apply land_lnot_same; subst s2; now rewrite uptr_s2.
  - rewrite Hc. cbn [Z.eqb Pos.eqb FCCY_SEEK FCCY_READ FCCY_WRITE FCCY_RECAL orb].
    rewrite Ha. cbn [negb].
    set (s2 := with_unit u _ _).
    assert (Ep : match pulse with iopP => false | _ => true end = true)
      by (destruct pulse; auto; contradiction).
    rewrite Ep. cbn [orb fst snd].
    repeat split; try apply land_lnot_same; subst s2; now rewrite uptr_s2.
Qed.

Lemma dhp_go_wrong_pulse_witness :
  fst (dhp_go iopN (dhp_attached false (image 0))) = false /\
  sim_clock_queue (snd (dhp_go iopN (dhp_attached false (image 0)))) = [].
Proof.
  destruct (dhp_go_wrong_pulse iopN (dhp_attached false (image 0)))
    as (H1 & H2 & _).
  - reflexivity.
  - reflexivity.
  - reflexivity.
  - vm_compute. reflexivity.
  - left. split; [left; reflexivity|].
    split; [vm_compute; reflexivity|]. split; [vm_compute; reflexivity|].
    discriminate.
  - split; [exact H1 | exact H2].
Defined.


Lemma shiftr_bit k u : 0 <= u <= k -> Z.shiftr (2 ^ k) u = 2 ^ (k - u).
Proof.
  intros H. rewrite Z.shiftr_div_pow2 by lia.
  rewrite <- Z.pow_sub_r by lia. reflexivity.
Qed.

(** Property X7.  An accepted seek or recalibrate came with the pulse pulse;
    the unit is then at the target cylinder (0 for recalibrate), which lies
    inside the geometry, its function is seek, its seeking bit is set and the
    error bit is clear. *)
Theorem dhp_go_seek_lands_on_cylinder pulse s :
  let u := GET_UNIT (dhp_ussc s) in
  let dtype := GET_DTYPE (uptr s u) in
  let cmd := GET_CMD (dhp_fccy s) dtype in
  let target := if cmd =? FCCY_RECAL then 0 else GET_CYL (dhp_fccy s) dtype in
  let r := dhp_go pulse s in
  dhp_diagmode s = false ->
  cmd = FCCY_SEEK \/ cmd = FCCY_RECAL ->
  fst r = true ->
  pulse = iopP /\
  CYL (uptr (snd r) u) = target /\
  0 <= target < cyl (drv_tab dtype) /\
  FUNC (uptr (snd r) u) = FCCY_SEEK /\
  tst (dhp_sta (snd r)) (Z.shiftr STA_SEEK0 u) = true /\
  tst (dhp_sta (snd r)) STA_ERR = false.
Proof.
  intros u dtype cmd target r Hd Hc Hacc. subst r.
  destruct (UNIT_ATT (uptr s u)) eqn:Ha.
  2:{ exfalso. revert Hacc. unfold dhp_go.
      change (uptr (clr_sta STA_EFLGS s) ?x) with (uptr s x).
      change (dhp_ussc (clr_sta STA_EFLGS s)) with (dhp_ussc s).
      fold u. rewrite Ha. discriminate. }
  destruct (sim_is_active u s) eqn:Hi.
  { exfalso. revert Hacc. unfold dhp_go.
    change (uptr (clr_sta STA_EFLGS s) ?x) with (uptr s x).
    change (dhp_ussc (clr_sta STA_EFLGS s)) with (dhp_ussc s).
    change (sim_is_active ?x (clr_sta STA_EFLGS s)) with (sim_is_active x s).
    fold u. rewrite Ha, Hi. discriminate. }
  revert Hacc. rw_setup Ha Hi Hd. fold u dtype cmd.
  assert (Hu : 0 <= u < 4) by apply GET_UNIT_range.
  assert (Hbit : Z.shiftr STA_SEEK0 u <> 0).
  { change STA_SEEK0 with (2 ^ 10). rewrite shiftr_bit by lia.
    apply Z.pow_nonzero; lia. }
  pose proof (GET_CYL_range (dhp_fccy s) dtype) as Hr.
  assert (Herr : forall x m, Z.testbit m 0 = false ->
            tst (Z.lor (Z.land x (Z.lnot STA_EFLGS)) m) STA_ERR = false).
  { intros x m Hm. tst_bit STA_ERR 0. rewrite sta_after_clear by lia. exact Hm. }
  assert (Hb0 : Z.testbit (Z.shiftr STA_SEEK0 u) 0 = false).
  { change STA_SEEK0 with (2 ^ 10). rewrite shiftr_bit by lia.
    apply Z.pow2_bits_false. lia. }
  subst target.
  destruct Hc as [Hc | Hc]; rewrite Hc;
    cbn [Z.eqb Pos.eqb FCCY_SEEK FCCY_READ FCCY_WRITE FCCY_RECAL orb];
    rewrite ?uptr_with_unit, ?Z.eqb_refl;
    change (uptr (clr_sta STA_EFLGS s) u) with (uptr s u);
    cbn [UNIT_ATT UNIT_WPRT FUNC CYL set_CYL set_FUNC];
    rewrite Ha; cbn [negb].
  - destruct (Z.geb_spec (GET_CYL (dhp_fccy s) dtype) (cyl (drv_tab dtype))).
    + cbn [or_sta set_sta dhp_sta with_unit set_units clr_sta].
      replace (tst _ STA_ERR) with true
        by (symmetry; tst_bit STA_ERR 0; dhp_consts; eval_bits; reflexivity).
      rewrite orb_true_r. discriminate.
    + cbn [dhp_sta with_unit set_units clr_sta set_sta].
      rewrite tst_ERR_clear, orb_false_r.
      destruct pulse; try discriminate. intros _.
      cbn [fst snd]. unfold sim_activate, or_sta.
      cbn [dhp_sta set_queue set_sta with_unit set_units clr_sta].
      unfold uptr, unit_at. cbn [dhp_unit set_queue set_sta with_unit set_units].
      unfold upd_unit. rewrite !Z.eqb_refl.
      cbn [FUNC CYL set_CYL set_FUNC].
      repeat split; try lia.
      * now apply tst_lor_same.
      * now apply Herr.
  - destruct (Z.geb_spec 0 (cyl (drv_tab dtype))).
    + cbn [or_sta set_sta dhp_sta with_unit set_units clr_sta].
      replace (tst _ STA_ERR) with true
        by (symmetry; tst_bit STA_ERR 0; dhp_consts; eval_bits; reflexivity).
      rewrite orb_true_r. discriminate.
    + cbn [dhp_sta with_unit set_units clr_sta set_sta].
      rewrite tst_ERR_clear, orb_false_r.
      destruct pulse; try discriminate. intros _.
      cbn [fst snd]. unfold sim_activate, or_sta.
      cbn [dhp_sta set_queue set_sta with_unit set_units clr_sta].
      unfold uptr, unit_at. cbn [dhp_unit set_queue set_sta with_unit set_units].
      unfold upd_unit. rewrite !Z.eqb_refl.
      cbn [FUNC CYL set_CYL set_FUNC].
      repeat split; try lia.
      * now apply tst_lor_same.
      * now apply Herr.
Qed.

Lemma dhp_go_seek_lands_on_cylinder_witness :
  CYL (uptr (snd (dhp_go iopP (set_fccy 517 (dhp_attached false (image 0))))) 0) = 5.
Proof.
  destruct (dhp_go_seek_lands_on_cylinder iopP
              (set_fccy 517 (dhp_attached false (image 0))))
    as (_ & H & _).
  - reflexivity.
  - left. reflexivity.
  - reflexivity.
  - exact H.
Defined.

(** ** Hard disk: the service routine *)

(** Property X8.  Every return of the two service routines leaves the device
    done flag set and the interrupt request equal to done and not disabled;
    the floppy routine also always clears busy. *)
Theorem svc_always_signals_done :
  (forall u s r s', dhp_svc u s = Some (r, s') ->
     dev_done s' = true /\ int_req s' = negb (dev_disable s')) /\
  (forall u s,
     DKT.dev_done (snd (DKT.dkt_svc u s)) = true /\
     DKT.dev_busy (snd (DKT.dkt_svc u s)) = false /\
     DKT.int_req (snd (DKT.dkt_svc u s))
       = negb (DKT.dev_disable (snd (DKT.dkt_svc u s)))).
Proof.
  split.
  - intros u s r s'. unfold dhp_svc.
    split_ifs;
      try (intros H; injection H as _ <-; split; reflexivity).
    destruct (dhp_rw_loop dhp_rw_fuel u s SCPE_OK) as [[s1 r1]|];
      [|discriminate].
    intros H; injection H as _ <-; split; reflexivity.
  - intros u s. unfold DKT.dkt_svc.
    destruct (if FUNC (DKT.uptr s u) =? DKT.SC_6038_SETTLE then _ else _)
      as [rval s1].
    cbn [snd]. repeat split.
Qed.

Lemma svc_always_signals_done_witness :
  DKT.dev_done (snd (DKT.dkt_svc 0 dkt_read5)) = true /\
  (exists r s', dhp_svc 0 dhp_reading = Some (r, s') /\ dev_done s' = true).
Proof.
  destruct svc_always_signals_done as [Hh Hf]. split.
  - apply (Hf 0 dkt_read5).
  - destruct (dhp_svc_total 0 dhp_reading) as [[r s'] E].
    exists r, s'. split; [exact E|]. apply (Hh 0 dhp_reading r s' E).
Defined.


Lemma dhp_rw_transfer_func u t s rval :
  FUNC (uptr (fst (fst (dhp_rw_transfer u t s rval))) u) = FUNC (uptr s u).
Proof.
  unfold dhp_rw_transfer.
  destruct (fseek _ _) as [err f].
  destruct (FUNC (uptr s u) =? FCCY_READ).
  - destruct (fxread _ _) as [ws f'].
    unfold dhp_dma_in. destruct (dma_in _ _ _ _ _).
    destruct (ferror f'); simpl; unfold uptr, unit_at; simpl; unfold upd_unit;
      now rewrite Z.eqb_refl.
  - destruct (FUNC (uptr s u) =? FCCY_WRITE).
    + unfold dhp_dma_out. destruct (dma_out _ _ _ _ _) as [tbuf ma].
      destruct (ferror _); simpl; unfold uptr, unit_at; simpl; unfold upd_unit;
        now rewrite Z.eqb_refl.
    + destruct (err =? 0); simpl; unfold uptr, unit_at; simpl; unfold upd_unit;
        now rewrite Z.eqb_refl.
Qed.

Lemma dhp_rw_body_func u s rval :
  FUNC (uptr (fst (fst (dhp_rw_body u s rval))) u) = FUNC (uptr s u).
Proof.
  unfold dhp_rw_body.
  destruct (_ >=? _).
  - destruct (_ >=? _); [reflexivity|]. now rewrite dhp_rw_transfer_func.
  - apply dhp_rw_transfer_func.
Qed.

Lemma dhp_rw_transfer_rval u t s rval :
  FUNC (uptr s u) = FCCY_READ \/ FUNC (uptr s u) = FCCY_WRITE ->
  snd (fst (dhp_rw_transfer u t s rval)) = rval.
Proof.
  intros Hf. unfold dhp_rw_transfer.
  destruct (fseek _ _) as [err f].
  destruct Hf as [-> | ->]; cbn [Z.eqb Pos.eqb FCCY_READ FCCY_WRITE].
  - destruct (fxread _ _) as [ws f']. destruct (ferror f'); reflexivity.
  - destruct (dhp_dma_out _ _) as [tbuf s0]. destruct (ferror _); reflexivity.
Qed.

Lemma dhp_rw_body_rval u s rval :
  FUNC (uptr s u) = FCCY_READ \/ FUNC (uptr s u) = FCCY_WRITE ->
  snd (fst (dhp_rw_body u s rval)) = rval.
Proof.
  intros Hf. unfold dhp_rw_body.
  destruct (_ >=? _).
  - destruct (_ >=? _); [reflexivity|]. now apply dhp_rw_transfer_rval.
  - now apply dhp_rw_transfer_rval.
Qed.

Lemma dhp_rw_loop_rval fuel : forall u s rval s' rval',
  FUNC (uptr s u) = FCCY_READ \/ FUNC (uptr s u) = FCCY_WRITE ->
  dhp_rw_loop fuel u s rval = Some (s', rval') -> rval' = rval.
Proof.
  induction fuel as [|fuel IH]; intros u s rval s' rval' Hf; [discriminate|].
  cbn [dhp_rw_loop].
  pose proof (dhp_rw_body_rval u s rval Hf) as Hr.
  pose proof (dhp_rw_body_func u s rval) as Hk.
  destruct (dhp_rw_body u s rval) as [[s1 rval1] [|]]; simpl in Hr, Hk.
  - destruct (GET_COUNT (dhp_ussc s1) =? 0).
    + intros H. injection H as _ <-. exact Hr.
    + intros H. apply IH in H; [congruence | now rewrite Hk].
  - intros H. injection H as _ <-. exact Hr.
Qed.

(** Property X9.  For a unit whose function is seek, read or write the
    hard-disk service routine returns [SCPE_OK]: a failed read or write
    leaves the loop before the I/O error report is reached. *)
Theorem dhp_svc_never_reports_io_error u s r s' :
  FUNC (uptr s u) = FCCY_SEEK \/ FUNC (uptr s u) = FCCY_READ \/
  FUNC (uptr s u) = FCCY_WRITE ->
  dhp_svc u s = Some (r, s') -> r = SCPE_OK.
Proof.
  intros Hf. unfold dhp_svc.
  destruct (FUNC (uptr s u) =? FCCY_SEEK) eqn:Es.
  - intros H. now injection H as <- _.
  - assert (Hrw : FUNC (uptr s u) = FCCY_READ \/ FUNC (uptr s u) = FCCY_WRITE).
    { destruct Hf as [Hf | Hf]; [|exact Hf].
      rewrite Hf in Es. discriminate. }
    split_ifs; try (intros H; now injection H as <- _).
    destruct (dhp_rw_loop dhp_rw_fuel u s SCPE_OK) as [[s1 r1]|] eqn:El;
      [|discriminate].
    apply dhp_rw_loop_rval in El; [|exact Hrw].
    intros H. injection H as <- _. exact El.
Qed.

Lemma dhp_svc_never_reports_io_error_witness :
  option_map fst (dhp_svc 0 dhp_reading) = Some SCPE_OK.
Proof.
  destruct (dhp_svc_total 0 dhp_reading) as [[r s'] E]. rewrite E.
  cbn [option_map fst]. f_equal.
  apply (dhp_svc_never_reports_io_error 0 dhp_reading r s');
    [right; left; reflexivity | exact E].
Defined.

Lemma GET_CMD_cases x t :
  GET_CMD x t = FCCY_READ \/ GET_CMD x t = FCCY_WRITE \/
  GET_CMD x t = FCCY_SEEK \/ GET_CMD x t = FCCY_RECAL.
Proof.
  unfold GET_CMD. rewrite drv_tab_newf. unfold FCCY_M_OCMD.
  change 3 with (Z.ones 2). rewrite Z.land_ones by lia.
  pose proof (Z.mod_pos_bound (Z.shiftr x FCCY_V_OCMD) (2 ^ 2) ltac:(lia)) as H.
  change (2 ^ 2) with 4 in *.
  unfold FCCY_READ, FCCY_WRITE, FCCY_SEEK, FCCY_RECAL. lia.
Qed.

Lemma dhp_go_rw_units pulse u t s :
  dhp_unit (snd (dhp_go_rw pulse u t s)) = dhp_unit s.
Proof. unfold dhp_go_rw. split_ifs; reflexivity. Qed.

Lemma dhp_go_seek_units pulse u t c s :
  dhp_unit (snd (dhp_go_seek pulse u t c s)) = dhp_unit s.
Proof. unfold dhp_go_seek. split_ifs; reflexivity. Qed.

Lemma dhp_go_func_ok pulse s : dhp_func_ok s -> dhp_func_ok (snd (dhp_go pulse s)).
Proof.
  intros H. unfold dhp_go.
  change (uptr (clr_sta STA_EFLGS s) ?x) with (uptr s x).
  change (dhp_ussc (clr_sta STA_EFLGS s)) with (dhp_ussc s).
  change (sim_is_active ?x (clr_sta STA_EFLGS s)) with (sim_is_active x s).
  change (dhp_diagmode (clr_sta STA_EFLGS s)) with (dhp_diagmode s).
  change (dhp_fccy (clr_sta STA_EFLGS s)) with (dhp_fccy s).
  set (u := GET_UNIT (dhp_ussc s)). set (t := GET_DTYPE (uptr s u)).
  destruct (_ || _); [exact H|].
  destruct (dhp_diagmode s); [exact H|].
  change (dhp_fccy (with_unit u _ _)) with (dhp_fccy s).
  rewrite uptr_s2. cbn [FUNC set_CYL set_FUNC].
  set (cmd := GET_CMD (dhp_fccy s) t).
  assert (Hv : forall f c v, func_ok f ->
            func_ok (FUNC (unit_at (upd_unit u (set_CYL c)
                       (upd_unit u (set_FUNC f) (dhp_unit s))) v))).
  { intros f c v Hf. unfold unit_at, upd_unit.
    destruct (v =? u); [exact Hf | apply H]. }
  destruct (GET_CMD_cases (dhp_fccy s) t) as [E | [E | [E | E]]];
    fold cmd in E; rewrite E;
    cbn [Z.eqb Pos.eqb FCCY_SEEK FCCY_READ FCCY_WRITE FCCY_RECAL orb];
    intros v; unfold uptr;
    rewrite ?dhp_go_rw_units, ?dhp_go_seek_units.
  - apply Hv. left. reflexivity.
  - apply Hv. right; left. reflexivity.
  - apply Hv. right; right. reflexivity.
  - cbn [dhp_unit with_unit set_units clr_sta set_sta].
    unfold unit_at, upd_unit. destruct (v =? u).
    + right; right. reflexivity.
    + apply H.
Qed.

Lemma dhp_func_ok_regs s s' :
  dhp_unit s' = dhp_unit s -> dhp_func_ok s -> dhp_func_ok s'.
Proof. intros E H v. unfold uptr. rewrite E. apply H. Qed.

Lemma dhp_pulse_func_ok pulse s :
  dhp_func_ok s -> dhp_func_ok (dhp_pulse pulse s).
Proof.
  intros H. destruct pulse; unfold dhp_pulse.
  - exact H.
  - set (s2 := DEV_UPDATE_INTR _).
    assert (H2 : dhp_func_ok s2) by (eapply dhp_func_ok_regs; [|exact H]; reflexivity).
    apply (dhp_go_func_ok iopS) in H2.
    destruct (dhp_go iopS s2) as [ok s3]. simpl in H2.
    destruct ok; [exact H2|]. eapply dhp_func_ok_regs; [|exact H2]. reflexivity.
  - destruct (negb _); (eapply dhp_func_ok_regs; [|exact H]; reflexivity).
  - destruct (dhp_diagmode s).
    + eapply dhp_func_ok_regs; [|exact H]. reflexivity.
    + set (s2 := DEV_UPDATE_INTR _).
      assert (H2 : dhp_func_ok s2) by (eapply dhp_func_ok_regs; [|exact H]; reflexivity).
      apply (dhp_go_func_ok iopP) in H2.
      destruct (dhp_go iopP s2) as [ok s3]. simpl in H2.
      destruct ok; [exact H2|]. eapply dhp_func_ok_regs; [|exact H2]. reflexivity.
Qed.

Lemma dhp_rw_loop_func fuel : forall u s rval s' rval',
  dhp_rw_loop fuel u s rval = Some (s', rval') ->
  FUNC (uptr s' u) = FUNC (uptr s u).
Proof.
  induction fuel as [|fuel IH]; intros u s rval s' rval'; [discriminate|].
  cbn [dhp_rw_loop].
  pose proof (dhp_rw_body_func u s rval) as Hk.
  destruct (dhp_rw_body u s rval) as [[s1 rval1] [|]]; simpl in Hk.
  - destruct (GET_COUNT (dhp_ussc s1) =? 0).
    + intros H. injection H as <- _. exact Hk.
    + intros H. apply IH in H. congruence.
  - intros H. injection H as <- _. exact Hk.
Qed.

Lemma dhp_svc_func u s r s' :
  dhp_svc u s = Some (r, s') -> FUNC (uptr s' u) = FUNC (uptr s u).
Proof.
  unfold dhp_svc.
  split_ifs; try (intros H; injection H as _ <-; reflexivity).
  destruct (dhp_rw_loop dhp_rw_fuel u s SCPE_OK) as [[s1 r1]|] eqn:E;
    [|discriminate].
  apply dhp_rw_loop_func in E.
  intros H. injection H as _ <-. exact E.
Qed.

(** Property X10.  The function of every hard-disk unit is read, write or
    seek: so it is at power on, and [dhp], [dhp_svc] and [dhp_reset] keep it
    so.  The service routine therefore never meets a function without an arm
    of its own. *)
Theorem dhp_pending_function_invariant :
  dhp_func_ok dhp_power_on /\
  (forall pulse code AC s,
     dhp_func_ok s -> dhp_func_ok (snd (dhp pulse code AC s))) /\
  (forall u s r s',
     dhp_func_ok s -> dhp_svc u s = Some (r, s') -> dhp_func_ok s') /\
  (forall s, dhp_func_ok s -> dhp_func_ok (snd (dhp_reset s))).
Proof.
  split; [|split; [|split]].
  - intros v. left. reflexivity.
  - intros pulse code AC s H. rewrite dhp_snd. apply dhp_pulse_func_ok.
    eapply dhp_func_ok_regs; [|exact H]. apply dhp_code_units.
  - intros u s r s' H Hs v.
    destruct (Z.eq_dec v u) as [->|Hne].
    + rewrite (dhp_svc_func _ _ _ _ Hs). apply H.
    + apply dhp_svc_frame in Hs. destruct Hs as [Fu _].
      rewrite Fu by exact Hne. apply H.
  - intros s H v. unfold dhp_reset. change (Z.to_nat DHP_NUMDR) with 1%nat.
    unfold uptr, unit_at. simpl. unfold upd_unit.
    destruct (v =? 0).
    + left. reflexivity.
    + apply H.
Qed.

Lemma dhp_pending_function_invariant_witness :
  dhp_func_ok (snd (dhp iopS ioDOA 0 (snd (dhp_reset dhp_power_on)))).
Proof.
  destruct dhp_pending_function_invariant as (H0 & H1 & _ & H3).
  apply H1, H3, H0.
Defined.

Lemma unit_bit_cases u : 0 <= u < 4 -> u = 0 \/ u = 1 \/ u = 2 \/ u = 3.
Proof. lia. Qed.

(** Property X11.  Service of a seek returns [SCPE_OK], sets the unit's seek
    done bit, clears its seeking bit and sets the done flag, leaves busy, the
    units, memory and the queue alone, and raises the error bit exactly when
    the unit is no longer attached or its cylinder is outside the geometry,
    the bad cylinder bit only in the second case. *)
Theorem dhp_svc_seek_done u s :
  0 <= u < 4 -> FUNC (uptr s u) = FCCY_SEEK ->
  exists s',
    dhp_svc u s = Some (SCPE_OK, s') /\
    tst (dhp_sta s') (Z.shiftr STA_SKDN0 u) = true /\
    tst (dhp_sta s') (Z.shiftr STA_SEEK0 u) = false /\
    dev_done s' = true /\ dev_busy s' = dev_busy s /\
    dhp_unit s' = dhp_unit s /\ M s' = M s /\
    sim_clock_queue s' = sim_clock_queue s /\
    tst (dhp_sta s') STA_ERR =
      tst (dhp_sta s) STA_ERR || negb (UNIT_ATT (uptr s u))
      || (CYL (uptr s u) >=? cyl (drv_tab (GET_DTYPE (uptr s u)))) /\
    tst (dhp_sta s') STA_CYL =
      tst (dhp_sta s) STA_CYL
      || (UNIT_ATT (uptr s u)
          && (CYL (uptr s u) >=? cyl (drv_tab (GET_DTYPE (uptr s u))))).
Proof.
  intros Hu Hf. unfold dhp_svc. rewrite Hf.
  cbn [Z.eqb Pos.eqb FCCY_SEEK]. eexists. split; [reflexivity|].
  tst_bit STA_ERR 0. tst_bit STA_CYL 5.
  destruct (unit_bit_cases u Hu) as [E | [E | [E | E]]]; subst u;
    repeat match goal with
      | |- context [Z.shiftr ?c ?k] =>
          let v := eval vm_compute in (Z.shiftr c k) in
          change (Z.shiftr c k) with v
      end;
    match goal with
    | |- tst _ ?a = _ /\ tst _ ?b = _ /\ _ =>
        let ka := eval vm_compute in (Z.log2 a) in
        let kb := eval vm_compute in (Z.log2 b) in
        rewrite (tst_pow2 _ a ka), (tst_pow2 _ b kb) by (reflexivity || lia)
    end;
    destruct (UNIT_ATT (uptr s _));
    destruct (CYL (uptr s _) >=? cyl (drv_tab (GET_DTYPE (uptr s _))));
    cbn -[Z.lor Z.land Z.lnot Z.testbit];
    (repeat split; dhp_consts; eval_bits;
     try reflexivity; try (destruct (Z.testbit (dhp_sta s) _); reflexivity)).
Qed.

Lemma dhp_svc_seek_done_witness :
  exists s', dhp_svc 0 dhp_seeking = Some (SCPE_OK, s') /\
             tst (dhp_sta s') (Z.shiftr STA_SKDN0 0) = true.
Proof.
  destruct (dhp_svc_seek_done 0 dhp_seeking) as (s' & E & H & _);
    [lia | reflexivity |].
  exists s'. split; [exact E | exact H].
Defined.


(** Property X12.  The service routine validates a read or write again.  If
    the unit is not attached, is write protected for a write, or cylinder,
    surface or sector is outside the geometry, it returns [SCPE_OK] with error
    and done set and transfers nothing: units, memory, memory address, the
    unit/sector register and the queue are unchanged.  Busy is cleared, except
    on the bad cylinder exit, which returns before busy is touched. *)
Theorem dhp_svc_late_errors u s :
  let G := drv_tab (GET_DTYPE (uptr s u)) in
  let dtype := GET_DTYPE (uptr s u) in
  let ok := UNIT_ATT (uptr s u)
            && negb (UNIT_WPRT (uptr s u) && (FUNC (uptr s u) =? FCCY_WRITE)) in
  let badcyl := CYL (uptr s u) >=? cyl G in
  let badsurf := GET_SURF (dhp_ussc s) dtype >=? surf G in
  let badsect := GET_SECT (dhp_ussc s) dtype >=? sect G in
  FUNC (uptr s u) = FCCY_READ \/ FUNC (uptr s u) = FCCY_WRITE ->
  negb ok || badcyl || badsurf || badsect = true ->
  exists s',
    dhp_svc u s = Some (SCPE_OK, s') /\
    tst (dhp_sta s') STA_ERR = true /\ tst (dhp_sta s') STA_DONE = true /\
    dev_done s' = true /\
    dev_busy s' = (if ok && badcyl then dev_busy s else false) /\
    (ok = true ->
       tst (dhp_sta s') STA_CYL = tst (dhp_sta s) STA_CYL || badcyl /\
       tst (dhp_sta s') STA_UNS
         = tst (dhp_sta s) STA_UNS || (negb badcyl && badsurf) /\
       tst (dhp_sta s') STA_XCY
         = tst (dhp_sta s) STA_XCY || (negb badcyl && negb badsurf && badsect)) /\
    dhp_unit s' = dhp_unit s /\ M s' = M s /\ dhp_ma s' = dhp_ma s /\
    dhp_ussc s' = dhp_ussc s /\ sim_clock_queue s' = sim_clock_queue s.
Proof.
  intros G dtype ok badcyl badsurf badsect Hf Hbad.
  unfold dhp_svc. fold dtype G.
  assert (Es : (FUNC (uptr s u) =? FCCY_SEEK) = false)
    by (destruct Hf as [-> | ->]; reflexivity).
  rewrite Es.
  assert (Eo : negb (UNIT_ATT (uptr s u))
           || UNIT_WPRT (uptr s u) && (FUNC (uptr s u) =? FCCY_WRITE) = negb ok).
  { subst ok. destruct (UNIT_ATT (uptr s u)); simpl; [|reflexivity].
    now rewrite negb_involutive. }
  rewrite Eo.
  change (CYL (uptr s u) >=? cyl (drv_tab dtype)) with badcyl.
  change (GET_SURF (dhp_ussc s) dtype >=? surf (drv_tab dtype)) with badsurf.
  change (GET_SECT (dhp_ussc s) dtype >=? sect (drv_tab dtype)) with badsect.
  destruct ok; cbn [negb] in *;
    [destruct badcyl; [|destruct badsurf; [|destruct badsect;
       [|discriminate]]]|];
    (eexists; split; [reflexivity|]);
    cbn -[Z.lor Z.land Z.lnot Z.testbit tst];
    tst_bit STA_ERR 0; tst_bit STA_DONE 15; tst_bit STA_CYL 5;
    tst_bit STA_UNS 3; tst_bit STA_XCY 4;
    (repeat split; try discriminate; dhp_consts; eval_bits; reflexivity).
Qed.

Lemma dhp_svc_late_errors_witness :
  exists s', dhp_svc 0 dhp_power_on = Some (SCPE_OK, s') /\
             tst (dhp_sta s') STA_ERR = true /\ dev_busy s' = false.
Proof.
  destruct (dhp_svc_late_errors 0 dhp_power_on) as (s' & E & H & _ & _ & Hb & _);
    [left; reflexivity | reflexivity |].
  exists s'. repeat split; [exact E | exact H | exact Hb].
Defined.

(** ** The data channel loops and memory *)

Lemma dhp_rw_loop_more fuel : forall k u s rval r,
  dhp_rw_loop fuel u s rval = Some r ->
  dhp_rw_loop (fuel + k) u s rval = Some r.
Proof.
  induction fuel as [|fuel IH]; intros k u s rval r; [discriminate|].
  cbn [dhp_rw_loop Nat.add].
  destruct (dhp_rw_body u s rval) as [[s1 rval1] [|]]; [|auto].
  destruct (GET_COUNT (dhp_ussc s1) =? 0); [auto | apply IH].
Qed.

Lemma dma_in_bounds c map tbuf : forall m ma a,
  MEM_ADDR_OK c a = false -> fst (dma_in c map tbuf m ma) a = m a.
Proof.
  induction tbuf as [|w tbuf IH]; intros m ma a Ha; [reflexivity|].
  cbn [dma_in]. rewrite IH by exact Ha.
  destruct (MEM_ADDR_OK c (MapAddr c map (Z.land ma (AMASK c)))) eqn:E;
    [|reflexivity].
  unfold mem_store. destruct (Z.eqb_spec a (MapAddr c map (Z.land ma (AMASK c))));
    [congruence | reflexivity].
Qed.

Lemma land_ones_succ x k :
  0 <= k -> Z.land (Z.land x (Z.ones k) + 1) (Z.ones k) = Z.land (x + 1) (Z.ones k).
Proof.
  intros Hk. rewrite !Z.land_ones by assumption.
  assert (0 < 2 ^ k) by (apply Z.pow_pos_nonneg; lia).
  now rewrite Z.add_mod_idemp_l by lia.
Qed.

Lemma dma_in_ma c map k tbuf : forall m ma,
  AMASK c = Z.ones k -> 0 <= k -> tbuf <> [] ->
  snd (dma_in c map tbuf m ma)
  = Z.land (ma + Z.of_nat (length tbuf)) (AMASK c).
Proof.
  induction tbuf as [|w tbuf IH]; intros m ma HA Hk Hne; [contradiction|].
  cbn [dma_in]. destruct tbuf as [|w' tbuf].
  - reflexivity.
  - rewrite IH by (assumption || discriminate).
    rewrite HA. cbn [length]. rewrite !Nat2Z.inj_succ.
    rewrite !Z.land_ones by assumption.
    assert (0 < 2 ^ k) by (apply Z.pow_pos_nonneg; lia).
    rewrite Z.add_mod_idemp_l by lia. f_equal. lia.
Qed.

Lemma dma_out_fst c map m n ma :
  fst (dma_out c map (S n) m ma)
  = m (MapAddr c map (Z.land ma (AMASK c)))
    :: fst (dma_out c map n m (Z.land (ma + 1) (AMASK c))).
Proof.
  cbn [dma_out]. now destruct (dma_out c map n m (Z.land (ma + 1) (AMASK c))).
Qed.

Lemma dma_out_snd c map m n ma :
  snd (dma_out c map (S n) m ma)
  = snd (dma_out c map n m (Z.land (ma + 1) (AMASK c))).
Proof.
  cbn [dma_out]. now destruct (dma_out c map n m (Z.land (ma + 1) (AMASK c))).
Qed.

Lemma dma_out_length c map m n : forall ma,
  length (fst (dma_out c map n m ma)) = n.
Proof.
  induction n as [|n IH]; intros ma; [reflexivity|].
  rewrite dma_out_fst. cbn [length]. now rewrite IH.
Qed.

Lemma dma_out_nth c map m k n : forall ma i,
  AMASK c = Z.ones k -> 0 <= k -> (i < n)%nat ->
  nth i (fst (dma_out c map n m ma)) 0
  = m (MapAddr c map (Z.land (ma + Z.of_nat i) (AMASK c))).
Proof.
  induction n as [|n IH]; intros ma i HA Hk Hi; [lia|].
  rewrite dma_out_fst. destruct i as [|i]; cbn [nth].
  - now rewrite Z.add_0_r.
  - rewrite IH by (assumption || lia). f_equal. f_equal.
    rewrite HA, Nat2Z.inj_succ. rewrite !Z.land_ones by assumption.
    assert (0 < 2 ^ k) by (apply Z.pow_pos_nonneg; lia).
    rewrite Z.add_mod_idemp_l by lia. f_equal. lia.
Qed.

Lemma dma_out_ma c map m k n : forall ma,
  AMASK c = Z.ones k -> 0 <= k -> n <> 0%nat ->
  snd (dma_out c map n m ma) = Z.land (ma + Z.of_nat n) (AMASK c).
Proof.
  induction n as [|n IH]; intros ma HA Hk Hn; [contradiction|].
  rewrite dma_out_snd. destruct n as [|n]; [reflexivity|].
  rewrite IH by (assumption || discriminate).
  rewrite HA, !Nat2Z.inj_succ. rewrite !Z.land_ones by assumption.
  assert (0 < 2 ^ k) by (apply Z.pow_pos_nonneg; lia).
  rewrite Z.add_mod_idemp_l by lia. f_equal. lia.
Qed.

Lemma dhp_mem_rel_refl rd s : dhp_mem_rel rd s s.
Proof. repeat split. Qed.

Lemma dhp_mem_rel_trans rd s1 s2 s3 :
  dhp_mem_rel rd s1 s2 -> dhp_mem_rel rd s2 s3 -> dhp_mem_rel rd s1 s3.
Proof.
  intros (C1 & A1 & R1) (C2 & A2 & R2). split; [congruence|]. split.
  - intros a Ha. rewrite A2 by (rewrite C1; exact Ha). now apply A1.
  - intros H. rewrite R2, R1 by exact H. reflexivity.
Qed.

Lemma dhp_rw_transfer_mem u t s rval :
  dhp_mem_rel (FUNC (uptr s u) =? FCCY_READ) s
    (fst (fst (dhp_rw_transfer u t s rval))).
Proof.
  unfold dhp_rw_transfer, dhp_dma_in, dhp_dma_out, DHP_UPDATE_USSC. cbv zeta.
  destruct (Z.eqb_spec (FUNC (uptr s u)) FCCY_READ) as [E|E].
  - svc_cases_eqn; cbn -[Z.lor Z.land Z.lnot Z.shiftl Z.add];
      (split; [reflexivity|]); (split; [|discriminate]);
      intros a Ha; try reflexivity;
      match goal with
      | H : dma_in ?c ?mp ?tb ?m ?ma = (?m', _) |- ?m' a = _ =>
          let X := fresh in
          pose proof (dma_in_bounds c mp tb m ma a Ha) as X;
          rewrite H in X; exact X
      end.
  - svc_cases_eqn; cbn -[Z.lor Z.land Z.lnot Z.shiftl Z.add];
      repeat split.
Qed.

Lemma dhp_rw_body_mem u s rval :
  dhp_mem_rel (FUNC (uptr s u) =? FCCY_READ) s (fst (fst (dhp_rw_body u s rval))).
Proof.
  unfold dhp_rw_body. cbv zeta.
  destruct (_ >=? _); [|apply dhp_rw_transfer_mem].
  set (s1 := DHP_UPDATE_USSC _ _ _ _ s).
  assert (H1 : dhp_mem_rel (FUNC (uptr s u) =? FCCY_READ) s s1)
    by (unfold s1, DHP_UPDATE_USSC; destruct (newf _); repeat split).
  assert (Hu : uptr s1 u = uptr s u)
    by (unfold s1, DHP_UPDATE_USSC; destruct (newf _); reflexivity).
  destruct (_ >=? _).
  - cbn [fst]. eapply dhp_mem_rel_trans; [exact H1|]. repeat split.
  - eapply dhp_mem_rel_trans; [exact H1|]. rewrite <- Hu.
    apply dhp_rw_transfer_mem.
Qed.

Lemma dhp_rw_loop_mem fuel : forall u s rval s' rval',
  dhp_rw_loop fuel u s rval = Some (s', rval') ->
  dhp_mem_rel (FUNC (uptr s u) =? FCCY_READ) s s'.
Proof.
  induction fuel as [|fuel IH]; intros u s rval s' rval'; [discriminate|].
  cbn [dhp_rw_loop].
  pose proof (dhp_rw_body_mem u s rval) as Hm.
  pose proof (dhp_rw_body_func u s rval) as Hk.
  destruct (dhp_rw_body u s rval) as [[s1 rval1] [|]]; cbn [fst] in Hm, Hk.
  - destruct (GET_COUNT (dhp_ussc s1) =? 0).
    + intros H. injection H as <- _. exact Hm.
    + intros H. apply IH in H. rewrite Hk in H.
      eapply dhp_mem_rel_trans; eassumption.
  - intros H. injection H as <- _. exact Hm.
Qed.

Lemma dhp_svc_mem u s r s' :
  dhp_svc u s = Some (r, s') ->
  dhp_mem_rel (FUNC (uptr s u) =? FCCY_READ) s s'.
Proof.
  unfold dhp_svc. cbv zeta.
  split_ifs; try (intros H; injection H as _ <-; repeat split).
  destruct (dhp_rw_loop dhp_rw_fuel u s SCPE_OK) as [[s1 r1]|] eqn:El;
    [|discriminate].
  apply dhp_rw_loop_mem in El. intros H. injection H as _ <-.
  eapply dhp_mem_rel_trans; [exact El|]. repeat split.
Qed.

Lemma dkt_svc_mem u s :
  DKT.cpu (snd (DKT.dkt_svc u s)) = DKT.cpu s /\
  (forall a, MEM_ADDR_OK (DKT.cpu s) a = false ->
     DKT.M (snd (DKT.dkt_svc u s)) a = DKT.M s a) /\
  (FUNC (DKT.uptr s u) <> DKT.SC_6038_READNEXT ->
     DKT.M (snd (DKT.dkt_svc u s)) = DKT.M s).
Proof.
  unfold DKT.dkt_svc, DKT.general_error, DKT.dkt_dma_in, DKT.dkt_dma_out.
  cbv zeta.
  change (DKT.uptr (DKT.CA_6038_SETADDR (CYL (DKT.uptr s u))
                      (SECT (DKT.uptr s u)) s) u) with (DKT.uptr s u).
  destruct (Z.eqb_spec (FUNC (DKT.uptr s u)) DKT.SC_6038_READNEXT) as [E|E].
  - svc_cases_eqn; cbn -[Z.lor Z.land Z.lnot Z.shiftl Z.add];
      (split; [reflexivity|]); (split; [|intros; try contradiction; reflexivity]);
      intros a Ha; try reflexivity;
      match goal with
      | H : dma_in ?c ?mp ?tb ?m ?ma = (?m', _) |- ?m' a = _ =>
          let X := fresh in
          pose proof (dma_in_bounds c mp tb m ma a Ha) as X;
          rewrite H in X; exact X
      end.
  - svc_cases_eqn; cbn -[Z.lor Z.land Z.lnot Z.shiftl Z.add];
      repeat split.
Qed.

(** Property X13.  A service routine never stores to an address that fails
    [MEM_ADDR_OK], and it changes memory only when the pending function is a
    read from disk (read for the hard disk, read next for the floppy). *)
Theorem svc_stores_only_in_memory :
  (forall u s r s', DHP.dhp_svc u s = Some (r, s') ->
     (forall a, MEM_ADDR_OK (DHP.cpu s) a = false -> DHP.M s' a = DHP.M s a) /\
     (FUNC (DHP.uptr s u) <> DHP.FCCY_READ -> DHP.M s' = DHP.M s)) /\
  (forall u s,
     (forall a, MEM_ADDR_OK (DKT.cpu s) a = false ->
        DKT.M (snd (DKT.dkt_svc u s)) a = DKT.M s a) /\
     (FUNC (DKT.uptr s u) <> DKT.SC_6038_READNEXT ->
        DKT.M (snd (DKT.dkt_svc u s)) = DKT.M s)).
Proof.
  split.
  - intros u s r s' H. apply dhp_svc_mem in H. destruct H as (_ & Ha & Hr).
    split; [exact Ha|]. intros Hf. apply Hr. now apply Z.eqb_neq.
  - intros u s. destruct (dkt_svc_mem u s) as (_ & Ha & Hr). auto.
Qed.

Lemma svc_stores_only_in_memory_witness :
  DKT.M (snd (DKT.dkt_svc 0 dkt_read5)) 40000 = DKT.M dkt_read5 40000 /\
  (exists r s', dhp_svc 0 dhp_reading = Some (r, s') /\
                M s' 40000 = M dhp_reading 40000).
Proof.
  destruct svc_stores_only_in_memory as [Hh Hf]. split.
  - apply (proj1 (Hf 0 dkt_read5)). vm_compute. reflexivity.
  - destruct (dhp_svc_total 0 dhp_reading) as [[r s'] E].
    exists r, s'. split; [exact E|].
    apply (proj1 (Hh 0 dhp_reading r s' E)). vm_compute. reflexivity.
Defined.

(** ** Hard disk: termination, frame and loop invariant *)

(** Property X14.  The hard-disk service routine always returns: the count
    field has four bits and goes up by one each pass, so the transfer loop
    ends within sixteen passes whatever the register holds, and more fuel
    does not change its result. *)
Theorem dhp_svc_terminates u s :
  (exists r, dhp_svc u s = Some r) /\
  (forall rval, exists r, forall k, dhp_rw_loop (16 + k) u s rval = Some r) /\
  (forall fuel rval s' rval',
     dhp_rw_loop fuel u s rval = Some (s', rval') ->
     forall k, dhp_rw_loop (fuel + k) u s rval = Some (s', rval')).
Proof.
  split; [apply dhp_svc_total|]. split.
  - intros rval. destruct (dhp_rw_loop_ends 16 u s rval) as [r E].
    + pose proof (GET_COUNT_range (dhp_ussc s)). lia.
    + exists r. intros k. now apply dhp_rw_loop_more.
  - intros fuel rval s' rval' E k. now apply dhp_rw_loop_more.
Qed.

Lemma dhp_svc_terminates_witness :
  exists r, dhp_rw_loop 20 0 dhp_reading SCPE_OK = Some r.
Proof.
  destruct (dhp_svc_terminates 0 dhp_reading) as (_ & H & _).
  destruct (H SCPE_OK) as [r Hr]. exists r. exact (Hr 4%nat).
Defined.


(** Property X15.  The hard-disk service routine of unit [u] leaves every
    other unit, the event queue and the CPU parameters as they were, and does
    not change the function of its own unit. *)
Theorem dhp_svc_touches_own_unit_only u s r s' :
  dhp_svc u s = Some (r, s') ->
  (forall v, v <> u -> uptr s' v = uptr s v) /\
  sim_clock_queue s' = sim_clock_queue s /\
  cpu s' = cpu s /\
  FUNC (uptr s' u) = FUNC (uptr s u).
Proof.
  intros E. pose proof (dhp_svc_frame u s r s' E) as [Fu Fq].
  pose proof (dhp_svc_mem u s r s' E) as (Fc & _).
  pose proof (dhp_svc_func u s r s' E) as Ff.
  auto.
Qed.

Lemma dhp_svc_touches_own_unit_only_witness :
  exists r s', dhp_svc 0 dhp_reading = Some (r, s') /\
               sim_clock_queue s' = sim_clock_queue dhp_reading.
Proof.
  destruct (dhp_svc_total 0 dhp_reading) as [[r s'] E].
  exists r, s'. split; [exact E|].
  apply (dhp_svc_touches_own_unit_only 0 dhp_reading r s' E).
Defined.

(** Property X16.  The entries of the unit array beyond the units of the
    device are idle at power on and stay idle under [dhp], [dhp_svc] and
    [dhp_reset]; reset then leaves every entry of the array idle at cylinder
    0 with function 0. *)
Theorem dhp_spare_units_stay_idle :
  dhp_spare_idle dhp_power_on /\
  (forall s, dhp_spare_idle s ->
     (forall pulse code AC, dhp_spare_idle (snd (dhp pulse code AC s))) /\
     (forall u r s', 0 <= u < DHP_NUMDR -> dhp_svc u s = Some (r, s') ->
        dhp_spare_idle s') /\
     dhp_spare_idle (snd (dhp_reset s)) /\
     (forall v, 0 <= v ->
        sim_is_active v (snd (dhp_reset s)) = false /\
        CYL (uptr (snd (dhp_reset s)) v) = 0 /\
        FUNC (uptr (snd (dhp_reset s)) v) = 0)).
Proof.
  split; [apply dhp_power_on_spare_idle|].
  intros s H. split; [|split; [|split]].
  - intros pulse code AC. now apply dhp_spare_idle_dhp.
  - intros u r s' Hu E. now apply (dhp_spare_idle_svc u s r s').
  - now apply dhp_spare_idle_reset.
  - intros v Hv. now apply dhp_reset_whole_array.
Qed.

Lemma dhp_spare_units_stay_idle_witness :
  dhp_spare_idle (snd (dhp_reset (snd (dhp iopS ioDOA 0 dhp_power_on)))) /\
  FUNC (uptr (snd (dhp_reset dhp_power_on)) 3) = 0.
Proof.
  destruct dhp_spare_units_stay_idle as [H0 H].
  destruct (H dhp_power_on H0) as (Hd & _ & _ & Hr).
  split.
  - destruct (H _ (Hd iopS ioDOA 0)) as (_ & _ & Hr' & _). exact Hr'.
  - destruct (Hr 3 ltac:(lia)) as (_ & _ & Hf). exact Hf.
Defined.

(** Property X17.  The transfer loop is entered with the surface below the
    surface count and the sector below the sector count; at the start of
    every later pass the surface is still below the surface count and the
    sector is at most the sector count. *)
Theorem dhp_rw_loop_invariant u s0 s :
  let dtype := GET_DTYPE (uptr s0 u) in
  GET_SURF (dhp_ussc s0) dtype < surf (drv_tab dtype) ->
  GET_SECT (dhp_ussc s0) dtype < sect (drv_tab dtype) ->
  dhp_rw_pass u s0 s ->
  let dtype' := GET_DTYPE (uptr s u) in
  GET_SURF (dhp_ussc s) dtype' < surf (drv_tab dtype') /\
  GET_SECT (dhp_ussc s) dtype' <= sect (drv_tab dtype').
Proof.
  intros dtype Hsf Hsc Hp.
  apply (dhp_rw_pass_inv u s0 s); [|exact Hp].
  split; [exact Hsf | fold dtype; lia].
Qed.

Lemma dhp_rw_loop_invariant_witness :
  GET_SURF (dhp_ussc dhp_last_sector) 0 < 4 /\
  GET_SECT (dhp_ussc dhp_last_sector) 0 <= 12.
Proof.
  destruct (dhp_rw_loop_invariant 0 dhp_last_sector dhp_last_sector)
    as [H1 H2].
  - vm_compute. reflexivity.
  - vm_compute. reflexivity.
  - apply pass_first.
  - split; [exact H1 | exact H2].
Defined.

(** Property X18.  The word loops of a sector transfer, for an address mask
    of [k] ones.  Reading from disk stores nothing at an address that fails
    [MEM_ADDR_OK] and leaves the memory address advanced by the number of
    words, masked.  Writing to disk fetches exactly [n] words, word [i] from
    the mapped address of the masked sum of the start address and [i], and
    advances the memory address in the same way. *)
Theorem dma_word_loops c map k :
  AMASK c = Z.ones k -> 0 <= k ->
  (forall tbuf m ma,
     (tbuf <> [] ->
        snd (dma_in c map tbuf m ma)
        = Z.land (ma + Z.of_nat (length tbuf)) (AMASK c)) /\
     (forall a, MEM_ADDR_OK c a = false -> fst (dma_in c map tbuf m ma) a = m a)) /\
  (forall n m ma,
     length (fst (dma_out c map n m ma)) = n /\
     (n <> 0%nat ->
        snd (dma_out c map n m ma) = Z.land (ma + Z.of_nat n) (AMASK c)) /\
     (forall i, (i < n)%nat ->
        nth i (fst (dma_out c map n m ma)) 0
        = m (MapAddr c map (Z.land (ma + Z.of_nat i) (AMASK c))))).
Proof.
  intros HA Hk. split.
  - intros tbuf m ma. split.
    + intros Hne. now apply (dma_in_ma c map k).
    + intros a Ha. now apply dma_in_bounds.
  - intros n m ma. split; [apply dma_out_length|]. split.
    + intros Hn. now apply (dma_out_ma c map m k).
    + intros i Hi. now apply (dma_out_nth c map m k).
Qed.

Lemma dma_word_loops_witness :
  snd (dma_in nova_cpu 0 [1; 2; 3] (fun _ => 0) 32766) = 1 /\
  nth 1 (fst (dma_out nova_cpu 0 2 (fun a => a) 32767)) 0 = 0.
Proof.
  destruct (dma_word_loops nova_cpu 0 15 eq_refl ltac:(lia)) as [Hin Hout].
  split.
  - apply (Hin [1; 2; 3] (fun _ => 0) 32766). discriminate.
  - destruct (Hout 2%nat (fun a => a) 32767) as (_ & _ & Hn).
    exact (Hn 1%nat ltac:(lia)).
Defined.

(** ** Floppy: the instructions *)

Import DKT.

Lemma SC_6038_GET_UNIT_range x : 0 <= SC_6038_GET_UNIT x < DKT_NUMDR.
Proof.
  unfold SC_6038_GET_UNIT, SC_6038_M_UNIT, DKT_NUMDR.
  pose proof (Z.land_ones (Z.shiftr x SC_6038_V_UNIT) 1 ltac:(lia)) as E.
  change (Z.ones 1) with 1 in E. rewrite E.
  pose proof (Z.mod_pos_bound (Z.shiftr x SC_6038_V_UNIT) (2 ^ 1) ltac:(lia)).
  lia.
Qed.

Lemma time_cancel_other u v q :
  u <> v -> sim_activate_time v (Sim.sim_cancel u q) = sim_activate_time v q.
Proof.
  intros Hne. unfold sim_activate_time, Sim.sim_cancel. f_equal.
  induction q as [|e q IH]; simpl; [reflexivity|].
  destruct (Z.eqb_spec (fst e) u) as [E|E]; simpl.
  - destruct (Z.eqb_spec (fst e) v); [congruence | exact IH].
  - destruct (fst e =? v); [reflexivity | exact IH].
Qed.

(** The closing error summary changes the status word only. *)
Lemma general_error_sta s :
  general_error s
  = set_sta (if tst (dkt_sta s) STA_FLGS_GENERAL_ERROR
             then Z.lor (dkt_sta s) STA_6038_ERROR else dkt_sta s) s.
Proof.
  unfold general_error. destruct (tst (dkt_sta s) STA_FLGS_GENERAL_ERROR);
    [reflexivity | now destruct s].
Qed.

Lemma tst_general_clear x :
  tst (Z.land x (Z.lnot STA_EFLGS)) STA_FLGS_GENERAL_ERROR = false.
Proof.
  unfold STA_FLGS_GENERAL_ERROR. rewrite !tst_lor.
  tst_bit STA_6038_ILLEGAL 5. tst_bit STA_6038_SECTORERR 4.
  tst_bit STA_6038_CHECKWORDERR 3. tst_bit STA_6038_DATALATE 2.
  tst_bit STA_6038_WRITEFAULT 1.
  dkt_consts. eval_bits. reflexivity.
Qed.

(** Property X19.  The clear pulse of the floppy controller cancels the event
    of the selected drive whatever its pending command, leaves every other
    event, the sector timer among them, where it was, clears busy, done, the
    interrupt request and every error flag, and changes neither a unit nor
    the command register. *)
Theorem dkt_clear_pulse code AC s :
  let u := SC_6038_GET_UNIT (dkt_6038_sc s) in
  let s' := snd (dkt iopC code AC s) in
  sim_is_active u s' = false /\
  (forall v, v <> u ->
     sim_activate_time v (sim_clock_queue s')
     = sim_activate_time v (sim_clock_queue s)) /\
  sim_is_active DKT_TIMER s' = sim_is_active DKT_TIMER s /\
  dev_busy s' = false /\ dev_done s' = false /\ int_req s' = false /\
  Z.land (dkt_sta s') STA_EFLGS = 0 /\
  dkt_unit s' = dkt_unit s /\ dkt_6038_sc s' = dkt_6038_sc s.
Proof.
  intros u s'. subst s'.
  pose proof (SC_6038_GET_UNIT_range (dkt_6038_sc s)) as Hu. fold u in Hu.
  assert (Hne : u <> DKT_TIMER) by (unfold DKT_TIMER; lia).
  unfold dkt.
  destruct code; cbn -[Z.land Z.lnot Z.lor tst STA_EFLGS STA_FLGS_GENERAL_ERROR
                        Sim.sim_cancel sim_activate_time Sim.sim_is_active];
    rewrite general_error_sta;
    cbn -[Z.land Z.lnot Z.lor tst STA_EFLGS STA_FLGS_GENERAL_ERROR
          Sim.sim_cancel sim_activate_time Sim.sim_is_active];
    rewrite tst_general_clear; fold u; unfold sim_is_active;
    cbn -[Z.land Z.lnot Z.lor tst STA_EFLGS STA_FLGS_GENERAL_ERROR
          Sim.sim_cancel sim_activate_time Sim.sim_is_active];
    (split; [apply active_cancel|]);
    (split; [intros v Hv; apply time_cancel_other; congruence|]);
    (split; [apply active_cancel_other; assumption|]);
    repeat split; apply land_lnot_same.
Qed.

Lemma dkt_clear_pulse_witness :
  sim_is_active 0 (snd (dkt iopC ioNIO 0 dkt_read5)) = false /\
  sim_activate_time DKT_TIMER (sim_clock_queue (snd (dkt iopC ioNIO 0 dkt_read5)))
  = sim_activate_time DKT_TIMER (sim_clock_queue dkt_read5).
Proof.
  destruct (dkt_clear_pulse ioNIO 0 dkt_read5) as (H1 & H2 & _).
  split; [exact H1|]. apply H2. vm_compute. discriminate.
Defined.


(** Property X20.  A start pulse that arrives while the drive selected by the
    command register has an event queued is dropped: the instruction returns
    0 and the only change is the error bit of the status register.  The new
    command is not stored and the program-load ROM address does not move. *)
Theorem dkt_start_ignored_while_selected_drive_busy code AC s :
  sim_is_active (SC_6038_GET_UNIT (dkt_6038_sc s)) s = true ->
  fst (dkt iopS code AC s) = 0 /\
  snd (dkt iopS code AC s) = set_sta (Z.lor (dkt_sta s) STA_6038_ERROR) s.
Proof.
  intros H. unfold dkt. rewrite H. cbn [fst snd]. split; [reflexivity|].
  rewrite general_error_sta.
  cbn -[Z.lor tst STA_FLGS_GENERAL_ERROR].
  destruct (tst _ STA_FLGS_GENERAL_ERROR); [|reflexivity].
  unfold or_sta, set_sta. cbn -[Z.lor].
  now rewrite <- Z.lor_assoc, Z.lor_diag.
Qed.

Lemma dkt_start_ignored_while_selected_drive_busy_witness :
  fst (dkt iopS ioDIA 0 (snd (dkt iopS ioDOA 0 (dkt_ready false)))) = 0.
Proof.
  apply (dkt_start_ignored_while_selected_drive_busy ioDIA 0
           (snd (dkt iopS ioDOA 0 (dkt_ready false)))).
  vm_compute. reflexivity.
Defined.

Lemma dkt_uptr_same u f s : uptr (with_unit u f s) u = f (uptr s u).
Proof. unfold uptr, with_unit, unit_at, upd_unit. simpl. now rewrite Z.eqb_refl. Qed.

Lemma dkt_uptr_other u v f s : v <> u -> uptr (with_unit u f s) v = uptr s v.
Proof.
  intros H. unfold uptr, with_unit, unit_at, upd_unit. simpl.
  destruct (Z.eqb_spec v u); [contradiction | reflexivity].
Qed.

Lemma dkt_uptr_activate u t s v : uptr (sim_activate u t s) v = uptr s v.
Proof. reflexivity. Qed.

Lemma time_idle u q : Sim.sim_is_active u q = false -> sim_activate_time u q = None.
Proof.
  unfold Sim.sim_is_active, sim_activate_time.
  induction q as [|e q IH]; simpl; [reflexivity|].
  intros H. apply orb_false_iff in H. destruct H as [He Hq].
  rewrite He. now apply IH.
Qed.

Lemma land_EFLGS_clear x m :
  Z.land m STA_EFLGS = 0 ->
  Z.land (Z.lor (Z.land x (Z.lnot STA_EFLGS)) m) STA_EFLGS = 0.
Proof.
  intros H. rewrite Z.land_lor_distr_l, land_lnot_same, H. reflexivity.
Qed.

(** Property X21.  [DOAS] for an attached idle drive that is not write
    protected when the command is a format, the previously selected drive
    being idle too, stores the command, records it in the drive and leaves
    the controller busy and not done with no error flag.  Head settle
    is queued after the settle time, a head step after the step time and a
    format after the rotational delay; a read preamble, read next or write
    next, like an unknown command, queues nothing.  No other event moves. *)
Theorem dkt_start_command AC s :
  let u := SC_6038_GET_UNIT (dkt_6038_sc s) in
  let newu := SC_6038_GET_UNIT AC in
  let cmd := SC_6038_GET_CMD AC in
  let s' := snd (dkt iopS ioDOA AC s) in
  sim_is_active u s = false ->
  UNIT_ATT (uptr s newu) = true ->
  sim_is_active newu s = false ->
  UNIT_WPRT (uptr s newu) = false \/
    (cmd <> SC_6038_FORMAT0 /\ cmd <> SC_6038_FORMATNEXT) ->
  dkt_6038_sc s' = AC /\
  FUNC (uptr s' newu) = cmd /\
  dev_busy s' = true /\ dev_done s' = false /\
  sim_activate_time newu (sim_clock_queue s')
  = (if cmd =? SC_6038_SETTLE then Some (dkt_settle s)
     else if (cmd =? SC_6038_STEPIN) || (cmd =? SC_6038_STEPOUT)
     then Some (dkt_step s)
     else if (cmd =? SC_6038_FORMAT0) || (cmd =? SC_6038_FORMATNEXT)
     then Some (dkt_rwait s)
     else None) /\
  (forall v, v <> newu ->
     sim_activate_time v (sim_clock_queue s')
     = sim_activate_time v (sim_clock_queue s)) /\
  tst (dkt_sta s') STA_EFLGS = false.
Proof.
  intros u newu cmd s' Hu Hatt Hidle Hw. subst s'.
  unfold dkt. fold u. rewrite Hu. fold newu.
  set (s1 := DEV_CLR_DONE (DEV_SET_BUSY (clr_sta STA_FLGS_SCLR s))).
  set (s2 := if negb (newu =? u) then _ else s1).
  assert (H2 : dkt_unit s2 = dkt_unit s /\ sim_clock_queue s2 = sim_clock_queue s /\
               dev_busy s2 = true /\ dev_done s2 = false /\
               dkt_settle s2 = dkt_settle s /\ dkt_step s2 = dkt_step s /\
               dkt_rwait s2 = dkt_rwait s).
  { subst s2 s1. destruct (negb (newu =? u)); repeat split. }
  destruct H2 as (HU & HQ & HB & HD & Hse & Hst & Hrw).
  set (s3 := set_sc AC s2).
  assert (H3 : dkt_unit s3 = dkt_unit s /\ sim_clock_queue s3 = sim_clock_queue s /\
               dev_busy s3 = true /\ dev_done s3 = false /\
               dkt_settle s3 = dkt_settle s /\ dkt_step s3 = dkt_step s /\
               dkt_rwait s3 = dkt_rwait s /\ dkt_6038_sc s3 = AC)
    by (subst s3; repeat split; assumption).
  clearbody s3. clear s2 HU HQ HB HD Hse Hst Hrw s1.
  destruct H3 as (HU & HQ & HB & HD & Hse & Hst & Hrw & Hsc).
  unfold dkt_go.
  change (dkt_6038_sc (clr_sta STA_EFLGS s3)) with (dkt_6038_sc s3).
  rewrite Hsc. fold newu. fold cmd.
  set (s4 := clr_sta STA_EFLGS s3).
  assert (Hatt4 : UNIT_ATT (uptr s4 newu) = true)
    by (unfold uptr, s4; simpl; rewrite HU; exact Hatt).
  assert (Hidle4 : sim_is_active newu s4 = false)
    by (unfold sim_is_active, s4; simpl; rewrite HQ; exact Hidle).
  rewrite Hatt4, Hidle4. cbn [negb orb].
  rewrite dkt_uptr_same. cbn [FUNC set_FUNC].
  assert (Hw4 : UNIT_WPRT (set_FUNC cmd (uptr s4 newu)) = UNIT_WPRT (uptr s newu))
    by (unfold uptr, s4; simpl; rewrite HU; reflexivity).
  rewrite Hw4.
  assert (Hq4 : forall t, sim_clock_queue
       (sim_activate newu t (with_unit newu (set_FUNC cmd) s4))
       = Sim.sim_activate newu t (sim_clock_queue s))
    by (intros t; unfold sim_activate, s4; simpl; rewrite HQ; reflexivity).
  assert (Hg : forall x : state,
             tst (dkt_sta x) STA_EFLGS = false ->
             tst (dkt_sta (general_error x)) STA_EFLGS = false /\
             general_error x = x).
  { intros x Hx. unfold general_error.
    assert (E : tst (dkt_sta x) STA_FLGS_GENERAL_ERROR = false).
    { revert Hx. unfold STA_EFLGS, STA_FLGS_GENERAL_ERROR. rewrite !tst_lor.
      intros Hx. repeat (apply orb_false_iff in Hx; destruct Hx as [? Hx]).
      repeat match goal with H : _ = false |- _ => rewrite H end. reflexivity. }
    rewrite E. auto. }
  assert (Hs4 : tst (dkt_sta s4) STA_EFLGS = false).
  { unfold s4, clr_sta, set_sta, tst. simpl dkt_sta. now rewrite land_lnot_same. }
  destruct (Z.eqb_spec cmd SC_6038_SETTLE) as [Hc|Hc].
  { cbn [fst snd]. destruct (Hg (sim_activate newu (dkt_settle
        (with_unit newu (set_FUNC cmd) s4)) (with_unit newu (set_FUNC cmd) s4)))
      as [Hg1 Hg2]; [exact Hs4|]. rewrite Hg2, Hq4.
    change (dkt_settle (with_unit newu (set_FUNC cmd) s4)) with (dkt_settle s3).
    rewrite Hse.
    repeat split; try assumption.
    - rewrite dkt_uptr_activate, dkt_uptr_same. reflexivity.
    - now apply time_activate.
    - intros v Hv. apply time_activate_other. congruence. }
  destruct ((cmd =? SC_6038_STEPIN) || (cmd =? SC_6038_STEPOUT)).
  { cbn [fst snd]. destruct (Hg (sim_activate newu (dkt_step
        (with_unit newu (set_FUNC cmd) s4)) (with_unit newu (set_FUNC cmd) s4)))
      as [Hg1 Hg2]; [exact Hs4|]. rewrite Hg2, Hq4.
    change (dkt_step (with_unit newu (set_FUNC cmd) s4)) with (dkt_step s3).
    rewrite Hst.
    repeat split; try assumption.
    - rewrite dkt_uptr_activate, dkt_uptr_same. reflexivity.
    - now apply time_activate.
    - intros v Hv. apply time_activate_other. congruence. }
  destruct ((cmd =? SC_6038_FORMAT0) || (cmd =? SC_6038_FORMATNEXT)) eqn:Ef.
  { assert (Hwp : UNIT_WPRT (uptr s newu) = false).
    { destruct Hw as [Hw | [Hw1 Hw2]]; [exact Hw|].
      apply orb_true_iff in Ef. destruct Ef as [Ef|Ef];
        apply Z.eqb_eq in Ef; contradiction. }
    rewrite Hwp.
    cbn [fst snd]. destruct (Hg (sim_activate newu (dkt_rwait
        (with_unit newu (set_FUNC cmd) s4)) (with_unit newu (set_FUNC cmd) s4)))
      as [Hg1 Hg2]; [exact Hs4|]. rewrite Hg2, Hq4.
    change (dkt_rwait (with_unit newu (set_FUNC cmd) s4)) with (dkt_rwait s3).
    rewrite Hrw.
    repeat split; try assumption.
    - rewrite dkt_uptr_activate, dkt_uptr_same. reflexivity.
    - now apply time_activate.
    - intros v Hv. apply time_activate_other. congruence. }
  cbn [fst snd].
  destruct (Hg (with_unit newu (set_FUNC cmd) s4)) as [Hg1 Hg2]; [exact Hs4|].
  rewrite Hg2.
  change (sim_clock_queue (with_unit newu (set_FUNC cmd) s4))
    with (sim_clock_queue s3).
  rewrite HQ.
  repeat split; try assumption.
  - rewrite dkt_uptr_same. reflexivity.
  - now apply time_idle.
Qed.

Lemma dkt_start_command_witness :
  FUNC (uptr (snd (dkt iopS ioDOA 1296 (dkt_ready false))) 0) = SC_6038_READNEXT /\
  dev_busy (snd (dkt iopS ioDOA 1296 (dkt_ready false))) = true.
Proof.
  destruct (dkt_start_command 1296 (dkt_ready false)) as (_ & Hf & Hb & _).
  - vm_compute. reflexivity.
  - vm_compute. reflexivity.
  - vm_compute. reflexivity.
  - left. vm_compute. reflexivity.
  - split; [exact Hf | exact Hb].
Defined.

(** ** Floppy: what the event queue holds *)

(** Fewer events and the same functions keep the queue in order. *)
Lemma dkt_queue_ok_sub s s' :
  (forall v, sim_is_active v s' = true ->
     sim_is_active v s = true /\ FUNC (uptr s' v) = FUNC (uptr s v)) ->
  dkt_queue_ok s -> dkt_queue_ok s'.
Proof.
  intros H Hok v Hv. destruct (H v Hv) as [Ha Hf]. rewrite Hf. now apply Hok.
Qed.

Lemma dkt_queue_ok_general_error s :
  dkt_queue_ok s -> dkt_queue_ok (general_error s).
Proof.
  apply dkt_queue_ok_sub. intros v Hv. rewrite general_error_sta in *. auto.
Qed.

Lemma active_activate v u t q :
  Sim.sim_is_active v (Sim.sim_activate u t q) = true ->
  Sim.sim_is_active v q = true \/ v = u.
Proof.
  destruct (Z.eq_dec u v) as [->|Hne]; [auto|].
  rewrite active_activate_other by assumption. auto.
Qed.

Lemma dkt_go_queue_ok pulse s :
  dkt_queue_ok s -> dkt_queue_ok (snd (dkt_go pulse s)).
Proof.
  intros Hok. unfold dkt_go.
  set (s0 := clr_sta STA_EFLGS s).
  set (u := SC_6038_GET_UNIT (dkt_6038_sc s0)).
  assert (Hok0 : dkt_queue_ok s0) by (revert Hok; apply dkt_queue_ok_sub; auto).
  destruct (negb (UNIT_ATT (uptr s0 u)) || sim_is_active u s0) eqn:E.
  { cbn [snd]. revert Hok0. apply dkt_queue_ok_sub. auto. }
  apply orb_false_iff in E. destruct E as [_ Hidle].
  rewrite dkt_uptr_same. cbn [FUNC set_FUNC].
  set (cmd := SC_6038_GET_CMD (dkt_6038_sc s0)).
  set (s1 := with_unit u (set_FUNC cmd) s0).
  assert (Hs1 : forall v, v <> u -> sim_is_active v s1 = true ->
            v = DKT_TIMER \/ dkt_func_known (FUNC (uptr s1 v)) = true).
  { intros v Hne Hv. unfold s1. rewrite dkt_uptr_other by assumption.
    apply Hok0. exact Hv. }
  assert (Hs1u : sim_is_active u s1 = false) by exact Hidle.
  assert (Hidle1 : dkt_queue_ok s1).
  { intros v Hv. destruct (Z.eq_dec v u) as [->|Hne]; [congruence | auto]. }
  assert (Hact : forall t, dkt_func_known cmd = true ->
            dkt_queue_ok (sim_activate u t s1)).
  { intros t Hk v Hv. rewrite dkt_uptr_activate.
    destruct (Z.eq_dec v u) as [->|Hne].
    - right. unfold s1. rewrite dkt_uptr_same. exact Hk.
    - apply Hs1; [assumption|].
      unfold sim_is_active, sim_activate in Hv. simpl in Hv.
      rewrite active_activate_other in Hv by congruence. exact Hv. }
  unfold dkt_func_known in Hact.
  destruct (cmd =? SC_6038_SETTLE).
  { cbn [snd]. apply Hact. reflexivity. }
  destruct (cmd =? SC_6038_STEPIN).
  { cbn [snd orb]. apply Hact. reflexivity. }
  destruct (cmd =? SC_6038_STEPOUT).
  { cbn [snd orb]. apply Hact. reflexivity. }
  cbn [orb].
  destruct (cmd =? SC_6038_FORMAT0).
  { cbn [orb]. destruct (UNIT_WPRT _); cbn [snd].
    - revert Hidle1. apply dkt_queue_ok_sub.
      intros v Hv. split; [exact Hv | reflexivity].
    - apply Hact. now rewrite !orb_true_r. }
  destruct (cmd =? SC_6038_FORMATNEXT).
  { cbn [orb]. destruct (UNIT_WPRT _); cbn [snd].
    - revert Hidle1. apply dkt_queue_ok_sub.
      intros v Hv. split; [exact Hv | reflexivity].
    - apply Hact. now rewrite !orb_true_r. }
  exact Hidle1.
Qed.

Lemma dkt_queue_ok_dkt pulse code AC s :
  dkt_queue_ok s -> dkt_queue_ok (snd (dkt pulse code AC s)).
Proof.
  intros Hok. unfold dkt.
  set (u := SC_6038_GET_UNIT (dkt_6038_sc s)).
  destruct pulse.
  1, 3, 4:
    destruct code; cbn [fst snd]; apply dkt_queue_ok_general_error;
    revert Hok; apply dkt_queue_ok_sub; intros v Hv;
    first
      [ split; [exact Hv | reflexivity]
      | split; [|reflexivity];
        unfold sim_is_active, sim_cancel in Hv; simpl in Hv;
        destruct (Z.eq_dec (SC_6038_GET_UNIT (dkt_6038_sc s)) v) as [E|E];
        [ rewrite E, active_cancel in Hv; discriminate
        | rewrite active_cancel_other in Hv by assumption; exact Hv ] ].
  destruct (sim_is_active u s) eqn:Hu.
  { cbn [snd]. apply dkt_queue_ok_general_error.
    revert Hok. apply dkt_queue_ok_sub. auto. }
  destruct code; cbn [fst snd]; try (apply dkt_queue_ok_general_error;
    revert Hok; apply dkt_queue_ok_sub; intros v Hv; split; [exact Hv | reflexivity]).
  set (s2 := set_sc AC _).
  assert (H2 : dkt_queue_ok s2).
  { revert Hok. apply dkt_queue_ok_sub. intros v Hv. subst s2.
    destruct (negb (SC_6038_GET_UNIT AC =? u)); split; (exact Hv || reflexivity). }
  pose proof (dkt_go_queue_ok iopS s2 H2) as Hgo.
  destruct (dkt_go iopS s2) as [ok s3]. cbn [snd] in Hgo.
  destruct ok; cbn [snd]; apply dkt_queue_ok_general_error; [exact Hgo|].
  revert Hgo. apply dkt_queue_ok_sub. auto.
Qed.

Lemma dkt_svc_frame u s :
  let s' := snd (dkt_svc u s) in
  sim_clock_queue s' = sim_clock_queue s /\
  dkt_6038_sc s' = dkt_6038_sc s /\ cpu s' = cpu s /\
  (forall v, FUNC (uptr s' v) = FUNC (uptr s v) /\
             SECT (uptr s' v) = SECT (uptr s v) /\
             UNIT_ATT (uptr s' v) = UNIT_ATT (uptr s v) /\
             UNIT_WPRT (uptr s' v) = UNIT_WPRT (uptr s v) /\
             DTYPE (uptr s' v) = DTYPE (uptr s v)) /\
  (forall v, v <> u -> uptr s' v = uptr s v).
Proof.
  unfold dkt_svc, general_error, dkt_dma_in, dkt_dma_out. cbv zeta.
  svc_cases;
    cbn -[Z.lor Z.land Z.lnot Z.shiftl tst];
    (split; [reflexivity|]); (split; [reflexivity|]); (split; [reflexivity|]);
    (split; intros v; [|intros Hv]);
    unfold uptr, unit_at, upd_unit; cbn -[Z.lor Z.land Z.lnot Z.shiftl tst];
    try reflexivity;
    try (destruct (Z.eqb_spec v u); [try contradiction|]; repeat split; reflexivity);
    repeat split.
Qed.

Lemma advance_sectors_units s :
  let s' := advance_sectors (Z.to_nat DKT_NUMDR) 0 s in
  forall v, FUNC (uptr s' v) = FUNC (uptr s v) /\
            CYL (uptr s' v) = CYL (uptr s v) /\
            UNIT_ATT (uptr s' v) = UNIT_ATT (uptr s v) /\
            (DKT_NUMDR <= v -> uptr s' v = uptr s v).
Proof.
  change (Z.to_nat DKT_NUMDR) with 2%nat. cbn -[Z.land]. intros v.
  unfold uptr, unit_at, upd_unit, DKT_NUMDR. cbn -[Z.land].
  destruct (Z.eqb_spec v 1); destruct (Z.eqb_spec v 0); cbn -[Z.land];
    repeat split; intros; lia.
Qed.

Lemma dkt_queue_ok_tmrsvc s :
  dkt_queue_ok s -> dkt_queue_ok (snd (dkt_tmrsvc DKT_TIMER s)).
Proof.
  intros Hok. unfold dkt_tmrsvc.
  destruct (advance_sectors_spec s) as (_ & HQ & _ & _).
  pose proof (advance_sectors_units s) as HU.
  set (s1 := advance_sectors (Z.to_nat DKT_NUMDR) 0 s) in *.
  assert (H1 : dkt_queue_ok s1).
  { revert Hok. apply dkt_queue_ok_sub. intros v Hv.
    unfold sim_is_active in *. rewrite HQ in Hv. split; [exact Hv | apply HU]. }
  clearbody s1. clear HQ HU Hok s.
  assert (Hact : forall u t x, dkt_queue_ok x ->
            u = DKT_TIMER \/ dkt_func_known (FUNC (uptr x u)) = true ->
            dkt_queue_ok (sim_activate_after u t x)).
  { intros u t x Hx Hu v Hv.
    change (uptr (sim_activate_after u t x) v) with (uptr x v).
    unfold sim_is_active, sim_activate_after, Sim.sim_activate_after in Hv.
    simpl in Hv. apply active_activate in Hv. destruct Hv as [Hv | ->].
    - now apply Hx.
    - exact Hu. }
  cbn [snd]. apply Hact; [|now left].
  destruct (DEV_IS_BUSY s1); [|exact H1].
  destruct (negb _); [|exact H1].
  set (u := SC_6038_GET_UNIT (dkt_6038_sc s1)).
  destruct (Z.eqb_spec (FUNC (uptr s1 u)) SC_6038_READPREAMB) as [E|_];
    [apply Hact; [exact H1 | right; rewrite E; reflexivity]|].
  destruct (Z.eqb_spec (FUNC (uptr s1 u)) SC_6038_READNEXT) as [E|_];
    [apply Hact; [exact H1 | right; rewrite E; reflexivity]|].
  destruct (Z.eqb_spec (FUNC (uptr s1 u)) SC_6038_WRITENEXT) as [E|_];
    [apply Hact; [exact H1 | right; rewrite E; reflexivity]|].
  exact H1.
Qed.

Lemma dkt_reset_units s :
  let s' := reset_units (Z.to_nat DKT_NUMDR) 0 s in
  (forall v, 0 <= v < DKT_NUMDR ->
     FUNC (uptr s' v) = 0 /\ CYL (uptr s' v) = 0 /\ SECT (uptr s' v) = 0 /\
     sim_is_active v s' = false) /\
  (forall v, ~ 0 <= v < DKT_NUMDR ->
     uptr s' v = uptr s v /\ sim_is_active v s' = sim_is_active v s).
Proof.
  change (Z.to_nat DKT_NUMDR) with 2%nat. unfold DKT_NUMDR.
  cbn -[Sim.sim_cancel Sim.sim_is_active].
  unfold sim_is_active, uptr, unit_at, upd_unit.
  cbn -[Sim.sim_cancel Sim.sim_is_active].
  split; intros v Hv.
  - assert (H : v = 0 \/ v = 1) by lia.
    destruct H; subst v; cbn -[Sim.sim_cancel Sim.sim_is_active];
      repeat split.
    + rewrite active_cancel_other by lia. apply active_cancel.
    + apply active_cancel.
  - destruct (Z.eqb_spec v 1); [lia|]. destruct (Z.eqb_spec v 0); [lia|].
    cbn -[Sim.sim_cancel Sim.sim_is_active].
    split; [reflexivity|]. rewrite !active_cancel_other by lia. reflexivity.
Qed.

Lemma dkt_queue_ok_timer s0 s1 :
  dkt_queue_ok s0 ->
  (forall v, 0 <= v < DKT_NUMDR -> FUNC (uptr s1 v) = 0) ->
  (forall v, ~ 0 <= v < DKT_NUMDR ->
     uptr s1 v = uptr s0 v /\ sim_is_active v s1 = sim_is_active v s0) ->
  dkt_queue_ok (sim_activate_after DKT_TIMER DKT_SIM_SECTORTIME
                  (sim_cancel DKT_TIMER s1)).
Proof.
  intros Hok0 Hd Ho v Hv.
  change (uptr (sim_activate_after DKT_TIMER DKT_SIM_SECTORTIME
                 (sim_cancel DKT_TIMER s1)) v) with (uptr s1 v).
  destruct (Z.eq_dec v DKT_TIMER) as [->|Hne]; [now left|]. right.
  change (Sim.sim_is_active v (Sim.sim_activate DKT_TIMER DKT_SIM_SECTORTIME
            (Sim.sim_cancel DKT_TIMER (sim_clock_queue s1))) = true) in Hv.
  rewrite active_activate_other, active_cancel_other in Hv by congruence.
  destruct (Z_lt_le_dec v 0) as [Hneg|Hpos];
    [|destruct (Z_lt_le_dec v DKT_NUMDR) as [Hlt|Hge]].
  - assert (Hx : ~ 0 <= v < DKT_NUMDR) by lia.
    destruct (Ho v Hx) as [Hu Ha]. rewrite Hu.
    unfold sim_is_active in Ha. rewrite Ha in Hv.
    destruct (Hok0 v Hv) as [?|H]; [contradiction | exact H].
  - rewrite (Hd v (conj Hpos Hlt)). reflexivity.
  - assert (Hx : ~ 0 <= v < DKT_NUMDR) by lia.
    destruct (Ho v Hx) as [Hu Ha]. rewrite Hu.
    unfold sim_is_active in Ha. rewrite Ha in Hv.
    destruct (Hok0 v Hv) as [?|H]; [contradiction | exact H].
Qed.

Lemma dkt_reset_shape s :
  exists s0,
    snd (dkt_reset s)
    = sim_activate_after DKT_TIMER DKT_SIM_SECTORTIME
        (sim_cancel DKT_TIMER (reset_units (Z.to_nat DKT_NUMDR) 0 s0)) /\
    dkt_unit s0 = dkt_unit s /\ sim_clock_queue s0 = sim_clock_queue s /\
    M s0 = M s /\ cpu s0 = cpu s.
Proof.
  eexists. split; [unfold dkt_reset; cbn [snd]; reflexivity|].
  repeat split.
Qed.

Lemma dkt_queue_ok_reset s :
  dkt_queue_ok s -> dkt_queue_ok (snd (dkt_reset s)).
Proof.
  intros Hok. destruct (dkt_reset_shape s) as (s0 & E & HU & HQ & _).
  rewrite E. clear E.
  destruct (dkt_reset_units s0) as [Hd Ho].
  apply (dkt_queue_ok_timer s0).
  - intros v Hv. unfold uptr, sim_is_active in *. rewrite HU. rewrite HQ in Hv.
    now apply Hok.
  - intros v Hv. apply Hd. exact Hv.
  - exact Ho.
Qed.

Lemma active_shift v t q :
  Sim.sim_is_active v (map (fun e => (fst e, snd e - t)) q) = Sim.sim_is_active v q.
Proof.
  unfold Sim.sim_is_active. induction q as [|e q IH]; simpl; [reflexivity|].
  now rewrite IH.
Qed.

Lemma dkt_svc_keeps_illegal u s :
  dkt_func_known (FUNC (uptr s u)) = true ->
  tst (dkt_sta (snd (dkt_svc u s))) STA_6038_ILLEGAL
  = tst (dkt_sta s) STA_6038_ILLEGAL.
Proof.
  intros H. tst_bit STA_6038_ILLEGAL 5.
  unfold dkt_func_known in H.
  unfold dkt_svc, general_error, dkt_dma_in, dkt_dma_out. cbv zeta.
  change (uptr (CA_6038_SETADDR (CYL (uptr s u)) (SECT (uptr s u)) s) u)
    with (uptr s u).
  destruct (Z.eqb_spec (FUNC (uptr s u)) SC_6038_SETTLE) as [E|_];
    [|destruct (Z.eqb_spec (FUNC (uptr s u)) SC_6038_STEPIN) as [E|_];
    [|destruct (Z.eqb_spec (FUNC (uptr s u)) SC_6038_STEPOUT) as [E|_];
    [|destruct (Z.eqb_spec (FUNC (uptr s u)) SC_6038_READPREAMB) as [E|_];
    [|destruct (Z.eqb_spec (FUNC (uptr s u)) SC_6038_READNEXT) as [E|_];
    [|destruct (Z.eqb_spec (FUNC (uptr s u)) SC_6038_WRITENEXT) as [E|_];
    [|destruct (Z.eqb_spec (FUNC (uptr s u)) SC_6038_FORMAT0) as [E|_];
    [|destruct (Z.eqb_spec (FUNC (uptr s u)) SC_6038_FORMATNEXT) as [E|_];
    [|discriminate H]]]]]]]];
    clear H; try rewrite E; cbn [orb Z.eqb SC_6038_FORMAT0 SC_6038_FORMATNEXT
      SC_6038_SETTLE SC_6038_STEPIN SC_6038_STEPOUT SC_6038_READPREAMB
      SC_6038_READNEXT SC_6038_WRITENEXT Pos.eqb];
    svc_cases;
    cbn -[Z.lor Z.land Z.lnot Z.shiftl Z.testbit tst];
    dkt_consts; eval_bits; rewrite ?orb_false_r, ?andb_true_r; reflexivity.
Qed.

Lemma dkt_queue_ok_svc u s :
  dkt_queue_ok s -> dkt_queue_ok (snd (dkt_svc u s)).
Proof.
  destruct (dkt_svc_frame u s) as (HQ & _ & _ & HU & _).
  apply dkt_queue_ok_sub. intros v Hv. unfold sim_is_active in *.
  rewrite HQ in Hv. split; [exact Hv | apply HU].
Qed.

Lemma dkt_queue_ok_event s u t s' :
  dkt_queue_ok s -> sim_process_event s = Some (u, t, s') ->
  dkt_queue_ok s' /\
  sim_is_active u s = true /\
  (u <> DKT_TIMER -> dkt_func_known (FUNC (uptr s u)) = true).
Proof.
  intros Hok. unfold sim_process_event, sim_next_event.
  destruct (sim_clock_queue s) as [|[u0 t0] q] eqn:Eq; [discriminate|].
  intros E. injection E as <- <- <-.
  assert (Hu : sim_is_active u0 s = true).
  { unfold sim_is_active. rewrite Eq. simpl. now rewrite Z.eqb_refl. }
  set (s1 := set_queue _ s).
  assert (H1 : dkt_queue_ok s1).
  { revert Hok. apply dkt_queue_ok_sub. intros v Hv.
    split; [|reflexivity]. unfold sim_is_active in *. rewrite Eq.
    unfold s1 in Hv. simpl sim_clock_queue in Hv. rewrite active_shift in Hv.
    simpl. rewrite Hv. apply orb_true_r. }
  split; [|split; [exact Hu|]].
  - destruct (Z.eqb_spec u0 DKT_TIMER) as [->|_].
    + now apply dkt_queue_ok_tmrsvc.
    + now apply dkt_queue_ok_svc.
  - intros Hne. destruct (Hok u0 Hu); [contradiction | assumption].
Qed.

(** Property X22.  Every queued event of the floppy controller is the sector
    timer or a drive with a command that [dkt_svc] has an arm for.  This holds
    at power on and is kept by [dkt], [dkt_reset] and by every event the
    scheduler dispatches; so the drive an event fires for has a known
    command, and the dispatch leaves the illegal command bit as it was. *)
Theorem dkt_scheduled_function_known :
  dkt_queue_ok dkt_power_on /\
  forall s, dkt_queue_ok s ->
    (forall pulse code AC, dkt_queue_ok (snd (dkt pulse code AC s))) /\
    dkt_queue_ok (snd (dkt_reset s)) /\
    (forall u t s', sim_process_event s = Some (u, t, s') ->
       dkt_queue_ok s' /\
       (u <> DKT_TIMER ->
          dkt_func_known (FUNC (uptr s u)) = true /\
          tst (dkt_sta s') STA_6038_ILLEGAL = tst (dkt_sta s) STA_6038_ILLEGAL)).
Proof.
  split; [intros v Hv; discriminate|].
  intros s Hok. split; [|split].
  - intros pulse code AC. now apply dkt_queue_ok_dkt.
  - now apply dkt_queue_ok_reset.
  - intros u t s' E. destruct (dkt_queue_ok_event s u t s' Hok E) as (H1 & _ & H2).
    split; [exact H1|]. intros Hne. split; [now apply H2|].
    unfold sim_process_event in E.
    destruct (sim_next_event (sim_clock_queue s)) as [[[u0 t0] q]|]; [|discriminate].
    injection E as <- <- <-.
    destruct (Z.eqb_spec u0 DKT_TIMER); [contradiction|].
    apply (dkt_svc_keeps_illegal u0 (set_queue q s)). now apply H2.
Qed.

Lemma dkt_scheduled_function_known_witness :
  dkt_queue_ok (snd (dkt_reset dkt_power_on)).
Proof.
  destruct dkt_scheduled_function_known as [H0 H].
  destruct (H dkt_power_on H0) as (_ & Hr & _). exact Hr.
Defined.

(** ** Floppy: head position and the sector timer *)

Lemma dkt_svc_cyl u s :
  let s' := snd (dkt_svc u s) in
  let f := FUNC (uptr s u) in
  let c := CYL (uptr s u) in
  tst (dkt_sta s') STA_6038_TRACK0 = (CYL (uptr s' u) =? 0) /\
  CYL (uptr s' u)
  = (if f =? SC_6038_STEPIN then c + 1
     else if f =? SC_6038_STEPOUT then (if c =? 0 then 0 else c - 1)
     else c) /\
  (forall v, v <> u -> CYL (uptr s' v) = CYL (uptr s v)).
Proof.
  cbv zeta. tst_bit STA_6038_TRACK0 14.
  unfold dkt_svc, general_error, dkt_dma_in, dkt_dma_out. cbv zeta.
  change (uptr (CA_6038_SETADDR (CYL (uptr s u)) (SECT (uptr s u)) s) u)
    with (uptr s u).
  destruct (Z.eqb_spec (FUNC (uptr s u)) SC_6038_STEPIN) as [E|_];
    [|destruct (Z.eqb_spec (FUNC (uptr s u)) SC_6038_STEPOUT) as [E|_]];
    try rewrite E;
    cbn [Z.eqb Pos.eqb SC_6038_SETTLE SC_6038_STEPIN SC_6038_STEPOUT
         SC_6038_READPREAMB SC_6038_READNEXT SC_6038_WRITENEXT
         SC_6038_FORMAT0 SC_6038_FORMATNEXT orb];
    svc_cases_eqn;
    unfold uptr, unit_at, with_unit, upd_unit in *;
    cbn -[Z.lor Z.land Z.lnot Z.shiftl Z.testbit tst Z.eqb Z.add Z.sub] in *;
    rewrite ?Z.eqb_refl in *;
    cbn -[Z.lor Z.land Z.lnot Z.shiftl Z.testbit tst Z.eqb Z.add Z.sub] in *;
    try discriminate;
    repeat match goal with H : (_ =? 0) = _ |- _ => rewrite H end;
    (split; [dkt_consts; eval_bits; reflexivity|]);
    (split; [first [reflexivity | apply Z.eqb_eq; assumption]|]);
    intros v Hv; (destruct (Z.eqb_spec v u); [contradiction | reflexivity]) || reflexivity.
Qed.

(** Property X23.  After every floppy service the track 0 status bit says
    whether the serviced drive is at cylinder 0.  A step in adds one to the
    cylinder without an upper limit, a step out takes one off but stays at 0,
    every other command keeps the cylinder; a cylinder that was not negative
    stays so. *)
Theorem dkt_svc_track0 u s :
  let s' := snd (dkt_svc u s) in
  let f := FUNC (uptr s u) in
  let c := CYL (uptr s u) in
  tst (dkt_sta s') STA_6038_TRACK0 = (CYL (uptr s' u) =? 0) /\
  CYL (uptr s' u)
  = (if f =? SC_6038_STEPIN then c + 1
     else if f =? SC_6038_STEPOUT then (if c =? 0 then 0 else c - 1)
     else c) /\
  (0 <= c -> 0 <= CYL (uptr s' u)).
Proof.
  cbv zeta. destruct (dkt_svc_cyl u s) as (H1 & H2 & _).
  split; [exact H1|]. split; [exact H2|].
  intros Hc. rewrite H2.
  destruct (_ =? SC_6038_STEPIN); [lia|].
  destruct (_ =? SC_6038_STEPOUT); [|lia].
  destruct (Z.eqb_spec (CYL (uptr s u)) 0); lia.
Qed.

Lemma dkt_svc_track0_witness :
  0 <= CYL (uptr (snd (dkt_svc 0 (with_unit 0 (set_FUNC SC_6038_STEPOUT)
                                    (dkt_ready false)))) 0).
Proof.
  destruct (dkt_svc_track0 0 (with_unit 0 (set_FUNC SC_6038_STEPOUT)
                                (dkt_ready false))) as (_ & _ & H).
  apply H. vm_compute. discriminate.
Defined.

Lemma pending_cancel_other u v q :
  u <> v -> pending v (Sim.sim_cancel u q) = pending v q.
Proof.
  intros Hne. unfold pending, Sim.sim_cancel.
  induction q as [|e q IH]; simpl; [reflexivity|].
  destruct (Z.eqb_spec (fst e) u) as [E|E]; simpl.
  - destruct (Z.eqb_spec (fst e) v); [congruence | exact IH].
  - destruct (fst e =? v); simpl; now rewrite IH.
Qed.

Lemma pending_activate_other u v t q :
  u <> v -> pending v (Sim.sim_activate u t q) = pending v q.
Proof.
  intros Hne. unfold Sim.sim_activate.
  destruct (Sim.sim_is_active u q); [reflexivity|].
  rewrite pending_enqueue. destruct (Z.eqb_spec u v); [contradiction | lia].
Qed.

Lemma pending_shift v t q :
  pending v (map (fun e => (fst e, snd e - t)) q) = pending v q.
Proof.
  unfold pending. induction q as [|e q IH]; simpl; [reflexivity|].
  destruct (fst e =? v); simpl; now rewrite IH.
Qed.

Lemma dkt_go_timer pulse s :
  pending DKT_TIMER (sim_clock_queue (snd (dkt_go pulse s)))
  = pending DKT_TIMER (sim_clock_queue s).
Proof.
  unfold dkt_go.
  pose proof (SC_6038_GET_UNIT_range (dkt_6038_sc (clr_sta STA_EFLGS s))) as Hu.
  set (u := SC_6038_GET_UNIT _) in *.
  assert (Hne : u <> DKT_TIMER) by (unfold DKT_TIMER; lia).
  svc_cases; cbn [snd]; try reflexivity;
    apply (pending_activate_other u DKT_TIMER _ _ Hne).
Qed.

Lemma queue_general_error s :
  sim_clock_queue (general_error s) = sim_clock_queue s.
Proof. now rewrite general_error_sta. Qed.

Lemma dkt_timer_dkt pulse code AC s :
  pending DKT_TIMER (sim_clock_queue (snd (dkt pulse code AC s)))
  = pending DKT_TIMER (sim_clock_queue s).
Proof.
  unfold dkt.
  pose proof (SC_6038_GET_UNIT_range (dkt_6038_sc s)) as Hu.
  set (u := SC_6038_GET_UNIT (dkt_6038_sc s)) in *.
  assert (Hne : u <> DKT_TIMER) by (unfold DKT_TIMER; lia).
  destruct pulse.
  1, 3, 4: destruct code; cbn [fst snd]; rewrite queue_general_error; first
    [ reflexivity | apply (pending_cancel_other u DKT_TIMER _ Hne) ].
  destruct (sim_is_active u s);
    [cbn [snd]; rewrite queue_general_error; reflexivity|].
  destruct code; cbn [snd]; rewrite ?queue_general_error; try reflexivity.
  set (s2 := set_sc AC _).
  assert (H2 : sim_clock_queue s2 = sim_clock_queue s)
    by (subst s2; destruct (negb _); reflexivity).
  pose proof (dkt_go_timer iopS s2) as Hgo. rewrite H2 in Hgo.
  destruct (dkt_go iopS s2) as [[|] s3]; cbn [snd] in *;
    rewrite queue_general_error; exact Hgo.
Qed.

Lemma dkt_tmrsvc_queue s :
  exists q,
    sim_clock_queue (snd (dkt_tmrsvc DKT_TIMER s))
    = Sim.sim_activate DKT_TIMER DKT_SIM_SECTORTIME q /\
    pending DKT_TIMER q = pending DKT_TIMER (sim_clock_queue s).
Proof.
  unfold dkt_tmrsvc.
  destruct (advance_sectors_spec s) as (_ & HQ & _ & HC).
  set (s1 := advance_sectors (Z.to_nat DKT_NUMDR) 0 s) in *.
  clearbody s1.
  pose proof (SC_6038_GET_UNIT_range (dkt_6038_sc s1)) as Hu.
  set (u := SC_6038_GET_UNIT (dkt_6038_sc s1)) in *.
  assert (Hne : u <> DKT_TIMER) by (unfold DKT_TIMER; lia).
  cbn [snd]. eexists. split; [reflexivity|].
  rewrite <- HQ.
  svc_cases; try reflexivity;
    apply (pending_activate_other u DKT_TIMER _ _ Hne).
Qed.

Lemma dkt_timer_event s u t s' :
  pending DKT_TIMER (sim_clock_queue s) = 1%nat ->
  sim_process_event s = Some (u, t, s') ->
  pending DKT_TIMER (sim_clock_queue s') = 1%nat.
Proof.
  intros Hp. unfold sim_process_event, sim_next_event.
  destruct (sim_clock_queue s) as [|[u0 t0] q] eqn:Eq; [discriminate|].
  intros E. injection E as <- <- <-.
  set (s1 := set_queue _ s).
  assert (H1 : pending DKT_TIMER (sim_clock_queue s1)
               = if u0 =? DKT_TIMER then 0%nat else 1%nat).
  { unfold s1. simpl sim_clock_queue. rewrite pending_shift.
    unfold pending in *. simpl in Hp.
    destruct (u0 =? DKT_TIMER); simpl in Hp; lia. }
  clearbody s1.
  destruct (Z.eqb_spec u0 DKT_TIMER) as [->|_].
  - destruct (dkt_tmrsvc_queue s1) as (q1 & E1 & E2). rewrite E1.
    apply pending_activate_idle. rewrite active_pending, E2, H1. reflexivity.
  - destruct (dkt_svc_frame u0 s1) as (HQ & _). rewrite HQ. exact H1.
Qed.

(** Property X24.  Reset queues the sector timer exactly once, and it stays
    queued exactly once under every instruction and every dispatched event:
    the clear pulse and the dispatcher only touch the two drives, and the
    timer service requeues itself.  The scheduler therefore always has an
    event to dispatch. *)
Theorem dkt_sector_timer_always_queued :
  (forall s, pending DKT_TIMER (sim_clock_queue (snd (dkt_reset s))) = 1%nat) /\
  (forall s, pending DKT_TIMER (sim_clock_queue s) = 1%nat ->
     (forall pulse code AC,
        pending DKT_TIMER (sim_clock_queue (snd (dkt pulse code AC s))) = 1%nat) /\
     (exists u t s', sim_process_event s = Some (u, t, s')) /\
     (forall u t s', sim_process_event s = Some (u, t, s') ->
        pending DKT_TIMER (sim_clock_queue s') = 1%nat)).
Proof.
  split.
  - intros s. destruct (dkt_reset_shape s) as (s0 & E & _). rewrite E.
    apply pending_activate_idle. apply active_cancel.
  - intros s Hp. split; [|split].
    + intros pulse code AC. now rewrite dkt_timer_dkt.
    + unfold sim_process_event, sim_next_event.
      destruct (sim_clock_queue s) as [|[u0 t0] q]; [discriminate|].
      eauto.
    + intros u t s'. now apply dkt_timer_event.
Qed.

Lemma dkt_sector_timer_always_queued_witness :
  pending DKT_TIMER
    (sim_clock_queue (snd (dkt iopC ioNIO 0 (snd (dkt_reset dkt_power_on)))))
  = 1%nat.
Proof.
  destruct dkt_sector_timer_always_queued as [H0 H].
  destruct (H _ (H0 dkt_power_on)) as (Hd & _). exact (Hd iopC ioNIO 0).
Defined.

(** ** Floppy: the program-load ROM *)

Lemma skipn_nth {A} (d : A) (l : list A) : forall k,
  (k < length l)%nat -> skipn k l = nth k l d :: skipn (S k) l.
Proof.
  induction l as [|a l IH]; intros k Hk; simpl in Hk; [lia|].
  destruct k as [|k]; [reflexivity|].
  simpl. apply IH. lia.
Qed.

Lemma dkt_rom_step s :
  sim_is_active (SC_6038_GET_UNIT (dkt_6038_sc s)) s = false ->
  let r := dkt iopS ioDIA 0 s in
  fst r = nth (Z.to_nat (dkt_6038_progload_romaddr s)) progload_rom_6038 0 /\
  dkt_6038_progload_romaddr (snd r) = dkt_6038_progload_romaddr s + 1 /\
  dkt_6038_sc (snd r) = dkt_6038_sc s /\
  sim_clock_queue (snd r) = sim_clock_queue s /\
  dev_busy (snd r) = false /\ dev_done (snd r) = true.
Proof.
  intros H. unfold dkt. rewrite H. cbn [fst snd].
  rewrite general_error_sta. repeat split.
Qed.

Lemma dkt_rom_read_from n : forall s k,
  sim_is_active (SC_6038_GET_UNIT (dkt_6038_sc s)) s = false ->
  dkt_6038_progload_romaddr s = Z.of_nat k ->
  (k + n <= length progload_rom_6038)%nat ->
  fst (dkt_rom_read n s) = firstn n (skipn k progload_rom_6038) /\
  dkt_6038_progload_romaddr (snd (dkt_rom_read n s)) = Z.of_nat (k + n).
Proof.
  induction n as [|n IH]; intros s k Hidle Hk Hn.
  - cbn [dkt_rom_read fst snd firstn]. now rewrite Nat.add_0_r.
  - cbn [dkt_rom_read].
    destruct (dkt_rom_step s Hidle) as (Hb & Ha & Hsc & Hq & _).
    destruct (dkt iopS ioDIA 0 s) as [b s1]. cbn [fst snd] in *.
    destruct (IH s1 (S k)) as [IH1 IH2].
    + unfold sim_is_active in *. now rewrite Hsc, Hq.
    + rewrite Ha, Hk. lia.
    + lia.
    + destruct (dkt_rom_read n s1) as [bs s2]. cbn [fst snd] in *.
      rewrite (skipn_nth 0 _ k) by lia. cbn [firstn].
      rewrite Hb, Hk, Nat2Z.id, IH1, IH2. split; [reflexivity | f_equal; lia].
Qed.

(** Property X25.  [NIOS] with the selected drive idle completes at once and
    rewinds the program-load ROM; the next [n] reads with [DIAS] return the
    first [n] bytes of the ROM in order and leave the ROM address at [n], for
    every [n] up to the size of the ROM. *)
Theorem dkt_program_load_rom n AC s :
  sim_is_active (SC_6038_GET_UNIT (dkt_6038_sc s)) s = false ->
  (n <= length progload_rom_6038)%nat ->
  let s0 := snd (dkt iopS ioNIO AC s) in
  dev_done s0 = true /\ dev_busy s0 = false /\
  fst (dkt_rom_read n s0) = firstn n progload_rom_6038 /\
  dkt_6038_progload_romaddr (snd (dkt_rom_read n s0)) = Z.of_nat n.
Proof.
  intros Hidle Hn s0.
  assert (H0 : dkt_6038_progload_romaddr s0 = 0 /\ dev_done s0 = true /\
               dev_busy s0 = false /\ dkt_6038_sc s0 = dkt_6038_sc s /\
               sim_clock_queue s0 = sim_clock_queue s).
  { subst s0. unfold dkt. rewrite Hidle. cbn [fst snd].
    rewrite general_error_sta. repeat split. }
  destruct H0 as (Ha & Hd & Hb & Hsc & Hq).
  split; [exact Hd|]. split; [exact Hb|].
  apply (dkt_rom_read_from n s0 0%nat).
  - unfold sim_is_active in *. now rewrite Hsc, Hq.
  - exact Ha.
  - exact Hn.
Qed.

Lemma dkt_program_load_rom_witness :
  fst (dkt_rom_read 4 (snd (dkt iopS ioNIO 0 dkt_power_on))) = [0; 7; 255; 192].
Proof.
  destruct (dkt_program_load_rom 4 0 dkt_power_on) as (_ & _ & H & _).
  - reflexivity.
  - vm_compute. lia.
  - exact H.
Defined.

(** ** Floppy: sector transfers *)

Lemma dkt_drv_tab_nonneg t : 0 <= sect (drv_tab t) /\ 0 <= surf (drv_tab t).
Proof.
  unfold drv_tab, drv_tab_entries.
  destruct (Z.to_nat t) as [|[|[|n]]]; vm_compute; split; discriminate.
Qed.

Lemma dkt_drv_tab_small t : sect (drv_tab t) <= 8 /\ surf (drv_tab t) <= 1.
Proof.
  unfold drv_tab, drv_tab_entries.
  destruct (Z.to_nat t) as [|[|[|n]]]; vm_compute; split; discriminate.
Qed.

Lemma dkt_sa_nonneg c sc t : 0 <= c -> 0 <= sc -> 0 <= GET_SA c 0 sc (drv_tab t).
Proof.
  intros Hc Hs. destruct (dkt_drv_tab_nonneg t) as [H1 H2]. unfold GET_SA.
  rewrite Z.add_0_r.
  assert (0 <= c * surf (drv_tab t)) by (apply Z.mul_nonneg_nonneg; assumption).
  assert (0 <= c * surf (drv_tab t) * sect (drv_tab t))
    by (apply Z.mul_nonneg_nonneg; assumption).
  lia.
Qed.

Lemma fseek_ok f off :
  0 <= off -> fseek f off = (0, mkFILE (fdata f) off (ferr f) (frdonly f)).
Proof.
  intros H. unfold fseek. destruct (Z.ltb_spec off 0); [lia | reflexivity].
Qed.

Lemma fseek_fails f off : off < 0 -> fseek f off = (-1, f).
Proof.
  intros H. unfold fseek. destruct (Z.ltb_spec off 0); [reflexivity | lia].
Qed.

Lemma dkt_sa_small c sc t :
  0 <= c -> 0 <= sc < 8 -> GET_SA c 0 sc (drv_tab t) <= c * 8 + 7.
Proof.
  intros Hc Hs. destruct (dkt_drv_tab_nonneg t) as [H1 H2].
  destruct (dkt_drv_tab_small t) as [H3 H4]. unfold GET_SA.
  rewrite Z.add_0_r.
  assert (c * surf (drv_tab t) <= c * 1) by (apply Z.mul_le_mono_nonneg_l; lia).
  assert (0 <= c * surf (drv_tab t)) by (apply Z.mul_nonneg_nonneg; assumption).
  assert (c * surf (drv_tab t) * sect (drv_tab t) <= c * 1 * 8)
    by (apply Z.mul_le_mono_nonneg; lia).
  lia.
Qed.

(** Below cylinder 2^19 the offset fits the 32 bits and is the product. *)
Lemma dkt_bda_fits u s :
  0 <= CYL (uptr s u) < DKT_CYL_FIT -> 0 <= SECT (uptr s u) < 8 ->
  dkt_bda u s
  = GET_SA (CYL (uptr s u)) 0 (SECT (uptr s u))
           (drv_tab (GET_DTYPE (uptr s u))) * DKT_NUMWD * 2 /\
  0 <= dkt_bda u s.
Proof.
  unfold DKT_CYL_FIT. intros Hc Hs. unfold dkt_bda, DKT_NUMWD.
  pose proof (dkt_sa_nonneg (CYL (uptr s u)) (SECT (uptr s u))
                (GET_DTYPE (uptr s u)) ltac:(lia) ltac:(lia)).
  pose proof (dkt_sa_small (CYL (uptr s u)) (SECT (uptr s u))
                (GET_DTYPE (uptr s u)) ltac:(lia) Hs).
  rewrite to_int32_fits by lia. lia.
Qed.

(** From cylinder 2^19 on the offset of a 6038 diskette is negative. *)
Lemma dkt_bda_negative u s :
  GET_DTYPE (uptr s u) = TYPE_6038 ->
  DKT_CYL_FIT <= CYL (uptr s u) < DKT_CYL_DEFINED -> 0 <= SECT (uptr s u) < 8 ->
  dkt_bda u s < 0.
Proof.
  unfold DKT_CYL_FIT, DKT_CYL_DEFINED. intros Ht Hc Hs.
  unfold dkt_bda. rewrite Ht.
  change (drv_tab TYPE_6038) with (mkDRV 8 1 77 157696 false).
  unfold GET_SA, DKT_NUMWD, to_int32. cbn [sect surf].
  set (x := ((CYL (uptr s u) * 1 + 0) * 8 + SECT (uptr s u)) * 256 * 2).
  assert (Hx : 2147483648 <= x < 4294967296) by (subst x; lia).
  replace (x + 2147483648) with (x - 2147483648 + 1 * 4294967296) by lia.
  rewrite Z.mod_add by lia. rewrite Z.mod_small by lia. lia.
Qed.

Lemma dkt_svc_write u s :
  FUNC (uptr s u) = SC_6038_WRITENEXT ->
  SECT (uptr s u) = SC_6038_GET_SECT (dkt_6038_sc s) ->
  0 <= dkt_bda u s ->
  let f := fileref (uptr s u) in
  let f0 := mkFILE (fdata f) (dkt_bda u s) (ferr f) (frdonly f) in
  let out := dma_out (cpu s) 0 256 (M s) (dkt_6038_ma s) in
  let f1 := fxwrite (fst out) f0 in
  let r := dkt_svc u s in
  fst r = (if ferr f1 then SCPE_IOERR else SCPE_OK) /\
  fileref (uptr (snd r) u) = (if ferr f1 then clearerr f1 else f1) /\
  M (snd r) = M s /\ dkt_6038_ma (snd r) = snd out.
Proof.
  intros Hf Hs Hb f f0 out f1 r. subst r.
  unfold dkt_svc, general_error, dkt_dma_out. cbv zeta. rewrite Hf.
  cbn [Z.eqb Pos.eqb SC_6038_SETTLE SC_6038_STEPIN SC_6038_STEPOUT
       SC_6038_READPREAMB SC_6038_READNEXT SC_6038_WRITENEXT orb].
  change (uptr (CA_6038_SETADDR (CYL (uptr s u)) (SECT (uptr s u)) s) u)
    with (uptr s u).
  change (dkt_6038_sc (CA_6038_SETADDR (CYL (uptr s u)) (SECT (uptr s u)) s))
    with (dkt_6038_sc s).
  rewrite <- Hs, Z.eqb_refl. cbn [negb].
  fold (dkt_bda u s). rewrite (fseek_ok _ _ Hb).
  cbv beta iota. rewrite Hf.
  cbn [Z.eqb Pos.eqb SC_6038_READNEXT SC_6038_WRITENEXT].
  change (Z.to_nat DKT_NUMWD) with 256%nat.
  change (cpu (CA_6038_SETADDR (CYL (uptr s u)) (SECT (uptr s u)) s)) with (cpu s).
  change (M (CA_6038_SETADDR (CYL (uptr s u)) (SECT (uptr s u)) s)) with (M s).
  change (dkt_6038_ma (CA_6038_SETADDR (CYL (uptr s u)) (SECT (uptr s u)) s))
    with (dkt_6038_ma s).
  fold f. fold f0. fold out. destruct out as [ws ma']. cbn [fst snd] in *.
  fold f1. unfold ferror.
  destruct (ferr f1); svc_cases;
    cbn -[Z.lor Z.land Z.lnot Z.shiftl tst];
    unfold uptr, unit_at, upd_unit; rewrite ?Z.eqb_refl;
    repeat split.
Qed.

Lemma dkt_svc_read u s :
  FUNC (uptr s u) = SC_6038_READNEXT ->
  SECT (uptr s u) = SC_6038_GET_SECT (dkt_6038_sc s) ->
  0 <= dkt_bda u s ->
  let f := fileref (uptr s u) in
  let f0 := mkFILE (fdata f) (dkt_bda u s) (ferr f) (frdonly f) in
  let rd := fxread DKT_NUMWD f0 in
  let tbuf := fst rd ++ repeat 0 (256 - length (fst rd)) in
  let inp := dma_in (cpu s) 0 tbuf (M s) (dkt_6038_ma s) in
  let r := dkt_svc u s in
  fst r = (if ferr f then SCPE_IOERR else SCPE_OK) /\
  fileref (uptr (snd r) u)
  = (if ferr f then clearerr (snd rd) else snd rd) /\
  M (snd r) = (if ferr f then M s else fst inp) /\
  dkt_6038_ma (snd r) = (if ferr f then dkt_6038_ma s else snd inp).
Proof.
  intros Hf Hs Hb f f0 rd tbuf inp r. subst r.
  unfold dkt_svc, general_error, dkt_dma_in. cbv zeta. rewrite Hf.
  cbn [Z.eqb Pos.eqb SC_6038_SETTLE SC_6038_STEPIN SC_6038_STEPOUT
       SC_6038_READPREAMB SC_6038_READNEXT SC_6038_WRITENEXT orb].
  change (uptr (CA_6038_SETADDR (CYL (uptr s u)) (SECT (uptr s u)) s) u)
    with (uptr s u).
  change (dkt_6038_sc (CA_6038_SETADDR (CYL (uptr s u)) (SECT (uptr s u)) s))
    with (dkt_6038_sc s).
  rewrite <- Hs, Z.eqb_refl. cbn [negb].
  fold (dkt_bda u s). rewrite (fseek_ok _ _ Hb).
  cbv beta iota. rewrite Hf.
  cbn [Z.eqb Pos.eqb SC_6038_READNEXT SC_6038_WRITENEXT].
  change (Z.to_nat DKT_NUMWD) with 256%nat.
  change (cpu (CA_6038_SETADDR (CYL (uptr s u)) (SECT (uptr s u)) s)) with (cpu s).
  change (M (CA_6038_SETADDR (CYL (uptr s u)) (SECT (uptr s u)) s)) with (M s).
  change (dkt_6038_ma (CA_6038_SETADDR (CYL (uptr s u)) (SECT (uptr s u)) s))
    with (dkt_6038_ma s).
  fold f. fold f0. fold rd.
  assert (Hrd : ferr (snd rd) = ferr f) by reflexivity.
  destruct rd as [ws f1]. cbn [fst snd] in *.
  fold tbuf. fold inp. unfold ferror. rewrite Hrd.
  destruct inp as [m' ma'].
  destruct (ferr f); svc_cases;
    cbn -[Z.lor Z.land Z.lnot Z.shiftl tst];
    unfold uptr, unit_at, upd_unit; rewrite ?Z.eqb_refl;
    repeat split.
Qed.

Lemma dkt_svc_no_transfer u s :
  (FUNC (uptr s u) <> SC_6038_READNEXT /\ FUNC (uptr s u) <> SC_6038_WRITENEXT) \/
  SECT (uptr s u) <> SC_6038_GET_SECT (dkt_6038_sc s) ->
  let r := dkt_svc u s in
  fileref (uptr (snd r) u) = fileref (uptr s u) /\
  M (snd r) = M s /\ dkt_6038_ma (snd r) = dkt_6038_ma s /\
  fst r = SCPE_OK.
Proof.
  intros H r. subst r.
  unfold dkt_svc, general_error. cbv zeta.
  change (uptr (CA_6038_SETADDR (CYL (uptr s u)) (SECT (uptr s u)) s) u)
    with (uptr s u).
  change (dkt_6038_sc (CA_6038_SETADDR (CYL (uptr s u)) (SECT (uptr s u)) s))
    with (dkt_6038_sc s).
  destruct (Z.eqb_spec (FUNC (uptr s u)) SC_6038_READNEXT);
    destruct (Z.eqb_spec (FUNC (uptr s u)) SC_6038_WRITENEXT);
    destruct (Z.eqb_spec (SECT (uptr s u)) (SC_6038_GET_SECT (dkt_6038_sc s)));
    try (exfalso; tauto); cbn [orb negb];
    svc_cases;
    cbn -[Z.lor Z.land Z.lnot Z.shiftl tst];
    unfold uptr, unit_at, upd_unit; rewrite ?Z.eqb_refl;
    repeat split.
Qed.

(** A transfer whose offset is negative: the seek fails, nothing is read or
    written, and the routine reports the error. *)
Lemma dkt_svc_seek_fails u s :
  FUNC (uptr s u) = SC_6038_READNEXT \/ FUNC (uptr s u) = SC_6038_WRITENEXT ->
  SECT (uptr s u) = SC_6038_GET_SECT (dkt_6038_sc s) ->
  dkt_bda u s < 0 ->
  let r := dkt_svc u s in
  fst r = SCPE_IOERR /\
  fileref (uptr (snd r) u) = clearerr (fileref (uptr s u)) /\
  M (snd r) = M s /\ dkt_6038_ma (snd r) = dkt_6038_ma s.
Proof.
  intros Hf Hs Hb r. subst r.
  unfold dkt_svc, general_error. cbv zeta.
  change (uptr (CA_6038_SETADDR (CYL (uptr s u)) (SECT (uptr s u)) s) u)
    with (uptr s u).
  change (dkt_6038_sc (CA_6038_SETADDR (CYL (uptr s u)) (SECT (uptr s u)) s))
    with (dkt_6038_sc s).
  fold (dkt_bda u s). rewrite (fseek_fails _ _ Hb).
  rewrite <- Hs, Z.eqb_refl.
  destruct Hf as [Hf | Hf]; rewrite Hf;
    cbn [Z.eqb Pos.eqb SC_6038_SETTLE SC_6038_STEPIN SC_6038_STEPOUT
         SC_6038_READPREAMB SC_6038_READNEXT SC_6038_WRITENEXT orb negb];
    cbv beta iota;
    svc_cases;
    cbn -[Z.lor Z.land Z.lnot Z.shiftl tst];
    unfold uptr, unit_at, upd_unit; rewrite ?Z.eqb_refl;
    repeat split.
Qed.

(** Property X26.  For an attached drive whose head is on one of the eight
    sectors of a cylinder below 2^20, the error indicator of the image file
    being clear, the floppy service routine returns [SCPE_IOERR] exactly when
    the command is a read next or write next for the sector under the head
    and either the byte offset of the sector, held in 32 bits, is negative,
    or the command is a write next and the image file is open for reading
    only (in the stream model above a read raises no error of its own).  The
    offset is not negative below cylinder 2^19 and is negative from there on
    for a 6038 diskette.  The error indicator is clear again afterwards, and
    in the error case neither the file contents nor memory changed. *)
Theorem dkt_svc_io_error u s :
  UNIT_ATT (uptr s u) = true ->
  0 <= CYL (uptr s u) < DKT_CYL_DEFINED -> 0 <= SECT (uptr s u) < 8 ->
  ferr (fileref (uptr s u)) = false ->
  let r := dkt_svc u s in
  (fst r = SCPE_IOERR <->
     (FUNC (uptr s u) = SC_6038_READNEXT \/ FUNC (uptr s u) = SC_6038_WRITENEXT) /\
     SECT (uptr s u) = SC_6038_GET_SECT (dkt_6038_sc s) /\
     (dkt_bda u s < 0 \/
      (FUNC (uptr s u) = SC_6038_WRITENEXT /\
       frdonly (fileref (uptr s u)) = true))) /\
  (CYL (uptr s u) < DKT_CYL_FIT -> 0 <= dkt_bda u s) /\
  (GET_DTYPE (uptr s u) = TYPE_6038 -> DKT_CYL_FIT <= CYL (uptr s u) ->
   dkt_bda u s < 0) /\
  ferr (fileref (uptr (snd r) u)) = false /\
  (fst r = SCPE_IOERR ->
     fdata (fileref (uptr (snd r) u)) = fdata (fileref (uptr s u)) /\
     M (snd r) = M s).
Proof.
  intros Hatt Hc Hsc He r. subst r.
  assert (Hfit : CYL (uptr s u) < DKT_CYL_FIT -> 0 <= dkt_bda u s).
  { intros H. apply dkt_bda_fits; [lia | exact Hsc]. }
  assert (Hneg : GET_DTYPE (uptr s u) = TYPE_6038 ->
                 DKT_CYL_FIT <= CYL (uptr s u) -> dkt_bda u s < 0).
  { intros Ht H. apply dkt_bda_negative; [exact Ht | lia | exact Hsc]. }
  assert (Hmain :
    (fst (dkt_svc u s) = SCPE_IOERR <->
     (FUNC (uptr s u) = SC_6038_READNEXT \/ FUNC (uptr s u) = SC_6038_WRITENEXT) /\
     SECT (uptr s u) = SC_6038_GET_SECT (dkt_6038_sc s) /\
     (dkt_bda u s < 0 \/
      (FUNC (uptr s u) = SC_6038_WRITENEXT /\
       frdonly (fileref (uptr s u)) = true))) /\
    ferr (fileref (uptr (snd (dkt_svc u s)) u)) = false /\
    (fst (dkt_svc u s) = SCPE_IOERR ->
       fdata (fileref (uptr (snd (dkt_svc u s)) u)) = fdata (fileref (uptr s u)) /\
       M (snd (dkt_svc u s)) = M s)).
  { destruct (Z.eq_dec (SECT (uptr s u)) (SC_6038_GET_SECT (dkt_6038_sc s)))
      as [Hs|Hs].
    2:{ destruct (dkt_svc_no_transfer u s (or_intror Hs)) as (Hu & HM & _ & Hr).
        rewrite Hr, Hu. repeat split; try discriminate; try assumption.
        intros (_ & ? & _). contradiction. }
    destruct (Z.eq_dec (FUNC (uptr s u)) SC_6038_WRITENEXT) as [Hw|Hw];
      [|destruct (Z.eq_dec (FUNC (uptr s u)) SC_6038_READNEXT) as [Hrd|Hrd]].
    - destruct (Z_lt_le_dec (dkt_bda u s) 0) as [Hb|Hb].
      + destruct (dkt_svc_seek_fails u s (or_intror Hw) Hs Hb) as (H1 & H2 & H3 & _).
        rewrite H1, H2, H3. cbn [clearerr ferr fdata]. repeat split; auto.
      + destruct (dkt_svc_write u s Hw Hs Hb) as (H1 & H2 & H3 & _).
        rewrite H1, H2, H3. unfold fxwrite. cbn [frdonly].
        destruct (frdonly (fileref (uptr s u))); cbn [ferr clearerr fdata].
        * repeat split; auto.
        * rewrite He. repeat split; try discriminate.
          intros (_ & _ & [? | [_ ?]]); [lia | discriminate].
    - destruct (Z_lt_le_dec (dkt_bda u s) 0) as [Hb|Hb].
      + destruct (dkt_svc_seek_fails u s (or_introl Hrd) Hs Hb) as (H1 & H2 & H3 & _).
        rewrite H1, H2, H3. cbn [clearerr ferr fdata]. repeat split; auto.
      + destruct (dkt_svc_read u s Hrd Hs Hb) as (H1 & H2 & H3 & _).
        rewrite H1, H2, H3, He. cbn [fxread snd ferr fdata].
        repeat split; try discriminate; try assumption.
        intros (_ & _ & [? | [? _]]); [lia | congruence].
    - destruct (dkt_svc_no_transfer u s (or_introl (conj Hrd Hw)))
        as (Hu & HM & _ & Hr).
      rewrite Hr, Hu. repeat split; try discriminate; try assumption.
      intros ([? | ?] & _); contradiction. }
  destruct Hmain as (H1 & H2 & H3).
  split; [exact H1|]. split; [exact Hfit|]. split; [exact Hneg|].
  split; [exact H2 | exact H3].
Qed.

Lemma dkt_svc_io_error_witness :
  fst (dkt_svc 0 dkt_write_rdonly) = SCPE_IOERR /\
  fst (dkt_svc 0 dkt_far_out) = SCPE_IOERR.
Proof.
  split.
  - destruct (dkt_svc_io_error 0 dkt_write_rdonly) as (H & _).
    + reflexivity.
    + vm_compute. split; [discriminate | reflexivity].
    + vm_compute. split; [discriminate | reflexivity].
    + reflexivity.
    + apply H. split; [right; reflexivity|]. split; [reflexivity|].
      right. split; reflexivity.
  - destruct (dkt_svc_io_error 0 dkt_far_out) as (H & _ & Hneg & _).
    + reflexivity.
    + vm_compute. split; [discriminate | reflexivity].
    + vm_compute. split; [discriminate | reflexivity].
    + reflexivity.
    + apply H. split; [left; reflexivity|]. split; [reflexivity|].
      left. apply Hneg; [reflexivity | vm_compute; discriminate].
Defined.

Lemma land_amask x : 0 <= x < 32768 -> Z.land x 32767 = x.
Proof.
  intros H. change 32767 with (Z.ones 15). rewrite Z.land_ones by lia.
  apply Z.mod_small. exact H.
Qed.

Lemma dma_out_flat c m n : forall ma,
  flat_cpu c -> 0 <= ma -> ma + Z.of_nat n <= 32768 ->
  fst (dma_out c 0 n m ma) = map (fun i => m (ma + Z.of_nat i)) (seq 0 n).
Proof.
  induction n as [|n IH]; intros ma Hc H0 Hn; [reflexivity|].
  destruct Hc as (HA & HM & HI).
  rewrite dma_out_fst. cbn [seq map].
  rewrite HI, HA, land_amask, Z.add_0_r by lia. f_equal.
  destruct n as [|n]; [reflexivity|].
  rewrite land_amask by lia.
  rewrite IH by (repeat split; auto; lia).
  rewrite <- seq_shift, map_map. apply map_ext. intros i. f_equal. lia.
Qed.

Lemma dma_in_flat c tbuf : forall m ma a,
  flat_cpu c -> 0 <= ma -> ma + Z.of_nat (length tbuf) <= 32768 ->
  fst (dma_in c 0 tbuf m ma) a
  = if (ma <=? a) && (a <? ma + Z.of_nat (length tbuf))
    then nth (Z.to_nat (a - ma)) tbuf 0 else m a.
Proof.
  induction tbuf as [|w t IH]; intros m ma a Hc H0 Hn.
  - cbn [dma_in fst length]. destruct (ma <=? a) eqn:E1; [|reflexivity].
    destruct (Z.ltb_spec a (ma + Z.of_nat 0)); [|reflexivity].
    apply Z.leb_le in E1. lia.
  - pose proof Hc as (HA & HM & HI). cbn [length] in Hn.
    cbn [dma_in]. rewrite HI, HA, land_amask by lia.
    assert (Hok : MEM_ADDR_OK c ma = true).
    { unfold MEM_ADDR_OK. rewrite HM. apply andb_true_iff. split.
      - apply Z.leb_le. lia.
      - apply Z.ltb_lt. lia. }
    rewrite Hok.
    destruct t as [|w' t].
    + cbn [dma_in fst length]. unfold mem_store.
      destruct (Z.eqb_spec a ma) as [->|Hne].
      * rewrite Z.leb_refl. destruct (Z.ltb_spec ma (ma + Z.of_nat 1)); [|lia].
        cbn [andb]. now rewrite Z.sub_diag.
      * destruct (Z.leb_spec ma a); [|reflexivity].
        destruct (Z.ltb_spec a (ma + Z.of_nat 1)); [lia | reflexivity].
    + rewrite land_amask by (cbn [length] in Hn; lia).
      rewrite IH by (auto; cbn [length] in *; lia).
      cbn [length] in *. unfold mem_store.
      repeat match goal with
        | |- context [?x <=? ?y] => destruct (Z.leb_spec x y)
        | |- context [?x <? ?y] => destruct (Z.ltb_spec x y)
        | |- context [?x =? ?y] => destruct (Z.eqb_spec x y)
        end; cbn [andb]; try lia; try reflexivity.
      * replace (Z.to_nat (a - ma)) with (S (Z.to_nat (a - (ma + 1)))) by lia.
        reflexivity.
      * subst a. rewrite Z.sub_diag. reflexivity.
Qed.

Lemma fxwrite_fxread f f2 p buf :
  frdonly f = false -> 0 <= p -> fpos f = 2 * p ->
  fdata f2 = fdata (fxwrite buf f) -> fpos f2 = 2 * p ->
  fst (fxread (Z.of_nat (length buf)) f2) = buf.
Proof.
  intros Hr Hp Hpos Hd Hpos2. unfold fxread. cbn [fst].
  rewrite Hd, Hpos2. unfold fxwrite. rewrite Hr. cbn [fdata].
  rewrite Hpos. replace (2 * p / 2) with p by (rewrite Z.mul_comm, Z.div_mul; lia).
  rewrite Nat2Z.id.
  set (P := Z.to_nat p).
  set (old := fdata f ++ repeat 0 (P - length (fdata f))).
  assert (Hlen : (P <= length old)%nat).
  { unfold old. rewrite length_app, repeat_length. lia. }
  assert (HP : length (firstn P old) = P) by (rewrite length_firstn; lia).
  rewrite skipn_app, HP, Nat.sub_diag. cbn [skipn].
  rewrite skipn_all2 by lia. cbn [app].
  rewrite firstn_app, Nat.sub_diag. cbn [firstn].
  rewrite firstn_all, app_nil_r. reflexivity.
Qed.

(** Property X27.  On a flat 32K memory, for an attached drive with a
    writable image file whose head is on one of the eight sectors of a
    cylinder below 2^19, a write next of the sector under the head followed
    by a read next of the same sector of the same drive brings back the 256
    words that were written: word [i] of the read destination equals word
    [i] of the write source, and both services return [SCPE_OK]. *)
Theorem dkt_write_read_round_trip u s s2 :
  flat_cpu (cpu s) -> cpu s2 = cpu s ->
  UNIT_ATT (uptr s u) = true -> UNIT_ATT (uptr s2 u) = true ->
  FUNC (uptr s u) = SC_6038_WRITENEXT ->
  SECT (uptr s u) = SC_6038_GET_SECT (dkt_6038_sc s) ->
  0 <= CYL (uptr s u) < DKT_CYL_FIT -> 0 <= SECT (uptr s u) < 8 ->
  frdonly (fileref (uptr s u)) = false -> ferr (fileref (uptr s u)) = false ->
  0 <= dkt_6038_ma s -> dkt_6038_ma s + 256 <= 32768 ->
  FUNC (uptr s2 u) = SC_6038_READNEXT ->
  SECT (uptr s2 u) = SC_6038_GET_SECT (dkt_6038_sc s2) ->
  CYL (uptr s2 u) = CYL (uptr s u) -> SECT (uptr s2 u) = SECT (uptr s u) ->
  DTYPE (uptr s2 u) = DTYPE (uptr s u) ->
  fdata (fileref (uptr s2 u)) = fdata (fileref (uptr (snd (dkt_svc u s)) u)) ->
  ferr (fileref (uptr s2 u)) = false ->
  0 <= dkt_6038_ma s2 -> dkt_6038_ma s2 + 256 <= 32768 ->
  fst (dkt_svc u s) = SCPE_OK /\ fst (dkt_svc u s2) = SCPE_OK /\
  forall i, 0 <= i < 256 ->
    M (snd (dkt_svc u s2)) (dkt_6038_ma s2 + i) = M s (dkt_6038_ma s + i).
Proof.
  intros Hc Hc2 Hatt Hatt2 Hw Hs Hcy Hse Hro He Hma1 Hma2 Hr Hs2 Hcy2 Hse2 Hdt
    Hfd He2 Hmb1 Hmb2.
  destruct (dkt_bda_fits u s Hcy Hse) as [Hbe Hb].
  assert (Hbda : dkt_bda u s2 = dkt_bda u s)
    by (unfold dkt_bda, GET_DTYPE; rewrite Hcy2, Hse2, Hdt; reflexivity).
  assert (Hb2 : 0 <= dkt_bda u s2) by (rewrite Hbda; exact Hb).
  destruct (dkt_svc_write u s Hw Hs Hb) as (W1 & W2 & _).
  assert (Hferr : ferr (fxwrite (fst (dma_out (cpu s) 0 256 (M s) (dkt_6038_ma s)))
             {| fdata := fdata (fileref (uptr s u)); fpos := dkt_bda u s;
                ferr := ferr (fileref (uptr s u));
                frdonly := frdonly (fileref (uptr s u)) |}) = false).
  { unfold fxwrite. cbn [frdonly]. rewrite Hro. cbn [ferr]. exact He. }
  rewrite Hferr in W1, W2. rewrite W2 in Hfd.
  destruct (dkt_svc_read u s2 Hr Hs2 Hb2) as (R1 & _ & R3 & _).
  rewrite He2 in R1, R3.
  split; [exact W1|]. split; [exact R1|].
  intros i Hi. rewrite R3.
  rewrite Hbda.
  set (ws := fst (dma_out (cpu s) 0 256 (M s) (dkt_6038_ma s))) in *.
  assert (Hlen : length ws = 256%nat) by apply dma_out_length.
  assert (Hrd : fst (fxread DKT_NUMWD
            {| fdata := fdata (fileref (uptr s2 u)); fpos := dkt_bda u s;
               ferr := false; frdonly := frdonly (fileref (uptr s2 u)) |}) = ws).
  { change DKT_NUMWD with (Z.of_nat 256). rewrite <- Hlen.
    eapply (fxwrite_fxread
              {| fdata := fdata (fileref (uptr s u)); fpos := dkt_bda u s;
                 ferr := ferr (fileref (uptr s u));
                 frdonly := frdonly (fileref (uptr s u)) |} _
              (GET_SA (CYL (uptr s u)) 0 (SECT (uptr s u))
                 (drv_tab (GET_DTYPE (uptr s u))) * 256)).
    - cbn [frdonly]. exact Hro.
    - rewrite Hbe in Hb. unfold DKT_NUMWD in Hb. lia.
    - cbn [fpos]. rewrite Hbe. unfold DKT_NUMWD. lia.
    - cbn [fdata]. exact Hfd.
    - cbn [fpos]. rewrite Hbe. unfold DKT_NUMWD. lia. }
  rewrite Hrd, Hlen. cbn [Nat.sub repeat]. rewrite app_nil_r.
  rewrite Hc2, dma_in_flat by (auto; rewrite ?Hlen; lia).
  rewrite Hlen.
  destruct (Z.leb_spec (dkt_6038_ma s2) (dkt_6038_ma s2 + i)); [|lia].
  destruct (Z.ltb_spec (dkt_6038_ma s2 + i) (dkt_6038_ma s2 + Z.of_nat 256)); [|lia].
  cbn [andb].
  replace (dkt_6038_ma s2 + i - dkt_6038_ma s2) with i by lia.
  unfold ws. rewrite dma_out_flat by (auto; lia).
  rewrite (nth_indep _ 0 (M s (dkt_6038_ma s + Z.of_nat 0)))
    by (rewrite length_map, length_seq; lia).
  rewrite (map_nth (fun i => M s (dkt_6038_ma s + Z.of_nat i))).
  rewrite seq_nth by lia. f_equal. lia.
Qed.

Lemma dkt_write_read_round_trip_witness :
  fst (dkt_svc 0 dkt_writing) = SCPE_OK /\
  fst (dkt_svc 0 dkt_reading_back) = SCPE_OK /\
  M (snd (dkt_svc 0 dkt_reading_back)) (256 + 7) = 7.
Proof.
  destruct (dkt_write_read_round_trip 0 dkt_writing dkt_reading_back)
    as (H1 & H2 & H3).
  - repeat split.
  - reflexivity.
  - reflexivity.
  - reflexivity.
  - reflexivity.
  - reflexivity.
  - vm_compute. split; [discriminate | reflexivity].
  - vm_compute. split; [discriminate | reflexivity].
  - reflexivity.
  - reflexivity.
  - vm_compute. discriminate.
  - vm_compute. discriminate.
  - reflexivity.
  - reflexivity.
  - reflexivity.
  - reflexivity.
  - reflexivity.
  - reflexivity.
  - vm_compute. reflexivity.
  - vm_compute. discriminate.
  - vm_compute. discriminate.
  - split; [exact H1|]. split; [exact H2|].
    exact (H3 7 ltac:(lia)).
Defined.

(** ** Floppy: head invariant and drive selection *)

Lemma dkt_go_units pulse s v :
  CYL (uptr (snd (dkt_go pulse s)) v) = CYL (uptr s v) /\
  SECT (uptr (snd (dkt_go pulse s)) v) = SECT (uptr s v).
Proof.
  unfold dkt_go. cbv zeta.
  svc_cases; cbn [snd]; unfold uptr, unit_at, with_unit, upd_unit; cbn;
    try (split; reflexivity);
    destruct (v =? _); split; reflexivity.
Qed.

Lemma dkt_units_dkt pulse code AC s v :
  CYL (uptr (snd (dkt pulse code AC s)) v) = CYL (uptr s v) /\
  SECT (uptr (snd (dkt pulse code AC s)) v) = SECT (uptr s v).
Proof.
  unfold dkt.
  assert (G : forall x, uptr (general_error x) v = uptr x v)
    by (intros x; now rewrite general_error_sta).
  destruct pulse.
  1, 3, 4: destruct code; cbn [fst snd]; rewrite G; split; reflexivity.
  destruct (sim_is_active _ s); [cbn [snd]; rewrite G; split; reflexivity|].
  destruct code; cbn [snd]; rewrite ?G; try (split; reflexivity).
  set (s2 := set_sc AC _).
  assert (H2 : uptr s2 v = uptr s v)
    by (subst s2; destruct (negb _); reflexivity).
  pose proof (dkt_go_units iopS s2 v) as Hgo. rewrite H2 in Hgo.
  destruct (dkt_go iopS s2) as [[|] s3]; cbn [snd] in *; rewrite G; exact Hgo.
Qed.

Lemma dkt_heads_svc u s : dkt_heads_ok s -> dkt_heads_ok (snd (dkt_svc u s)).
Proof.
  intros H d Hd. destruct (H d Hd) as [Hc Hs].
  destruct (dkt_svc_frame u s) as (_ & _ & _ & HU & _).
  destruct (HU d) as (_ & -> & _). split; [|exact Hs].
  destruct (dkt_svc_cyl u s) as (_ & Hcu & Ho).
  destruct (Z.eq_dec d u) as [->|Hne]; [|now rewrite Ho].
  rewrite Hcu.
  destruct (_ =? SC_6038_STEPIN); [lia|].
  destruct (_ =? SC_6038_STEPOUT); [|lia].
  destruct (Z.eqb_spec (CYL (uptr s u)) 0); lia.
Qed.

Lemma dkt_tmrsvc_units s v :
  CYL (uptr (snd (dkt_tmrsvc DKT_TIMER s)) v) = CYL (uptr s v) /\
  (0 <= v < DKT_NUMDR ->
     SECT (uptr (snd (dkt_tmrsvc DKT_TIMER s)) v)
     = (SECT (uptr s v) + 1) mod SECT_6038).
Proof.
  unfold dkt_tmrsvc.
  destruct (advance_sectors_spec s) as (HS & _).
  destruct (advance_sectors_units s v) as (_ & HC & _).
  set (s1 := advance_sectors (Z.to_nat DKT_NUMDR) 0 s) in *. clearbody s1.
  cbn [snd].
  assert (E : forall x, uptr (sim_activate_after DKT_TIMER DKT_SIM_SECTORTIME x) v
                        = uptr x v) by reflexivity.
  rewrite E.
  assert (E1 : uptr (if DEV_IS_BUSY s1
             then
              if negb (sim_is_active (SC_6038_GET_UNIT (dkt_6038_sc s1)) s1)
              then
               if FUNC (uptr s1 (SC_6038_GET_UNIT (dkt_6038_sc s1))) =?
                  SC_6038_READPREAMB
               then sim_activate_after (SC_6038_GET_UNIT (dkt_6038_sc s1))
                      DKT_SIM_ADDRTIME s1
               else
                if FUNC (uptr s1 (SC_6038_GET_UNIT (dkt_6038_sc s1))) =?
                   SC_6038_READNEXT
                then sim_activate_after (SC_6038_GET_UNIT (dkt_6038_sc s1))
                       (DKT_SIM_ADDRTIME + DKT_SIM_DATATIME) s1
                else
                 if FUNC (uptr s1 (SC_6038_GET_UNIT (dkt_6038_sc s1))) =?
                    SC_6038_WRITENEXT
                 then sim_activate_after (SC_6038_GET_UNIT (dkt_6038_sc s1))
                        (DKT_SIM_ADDRTIME + DKT_SIM_DATATIME) s1
                 else s1
              else s1
             else s1) v = uptr s1 v) by (svc_cases; reflexivity).
  rewrite E1. split; [exact HC|]. intros Hv.
  destruct (HS v Hv) as [H _]. exact H.
Qed.

Lemma dkt_uptr_timer x d :
  uptr (sim_activate_after DKT_TIMER DKT_SIM_SECTORTIME (sim_cancel DKT_TIMER x)) d
  = uptr x d.
Proof. reflexivity. Qed.

(** Property X28.  After reset both drives are at cylinder 0, sector 0.  From
    then on the cylinder of a drive is never negative and its sector is one of
    0..7, under [dkt], [dkt_svc] and the sector timer.  For an attached drive
    the byte offset the service routine seeks to, held in 32 bits, is
    therefore not negative and the seek succeeds as long as the cylinder is
    below 2^19; on a 6038 drive stepped in to a cylinder from 2^19 up to
    2^20 the offset is negative and the seek fails. *)
Theorem dkt_heads_stay_on_disk :
  (forall s, dkt_heads_ok (snd (dkt_reset s))) /\
  (forall s, dkt_heads_ok s ->
     (forall pulse code AC, dkt_heads_ok (snd (dkt pulse code AC s))) /\
     (forall u, dkt_heads_ok (snd (dkt_svc u s))) /\
     dkt_heads_ok (snd (dkt_tmrsvc DKT_TIMER s)) /\
     (forall u, 0 <= u < DKT_NUMDR -> UNIT_ATT (uptr s u) = true ->
        (CYL (uptr s u) < DKT_CYL_FIT ->
           0 <= dkt_bda u s /\
           fst (fseek (fileref (uptr s u)) (dkt_bda u s)) = 0) /\
        (GET_DTYPE (uptr s u) = TYPE_6038 ->
         DKT_CYL_FIT <= CYL (uptr s u) < DKT_CYL_DEFINED ->
           dkt_bda u s < 0 /\
           fst (fseek (fileref (uptr s u)) (dkt_bda u s)) = -1))).
Proof.
  split.
  - intros s d Hd. destruct (dkt_reset_shape s) as (s0 & E & _). rewrite E.
    destruct (dkt_reset_units s0) as [Hr _]. destruct (Hr d Hd) as (_ & Hc & Hs & _).
    rewrite dkt_uptr_timer.
    rewrite Hc, Hs. unfold SECT_6038. lia.
  - intros s H. split; [|split; [|split]].
    + intros pulse code AC d Hd. destruct (dkt_units_dkt pulse code AC s d) as [-> ->].
      now apply H.
    + intros u. now apply dkt_heads_svc.
    + intros d Hd. destruct (dkt_tmrsvc_units s d) as [-> Hs].
      rewrite (Hs Hd). destruct (H d Hd) as [Hc _]. split; [exact Hc|].
      apply Z.mod_pos_bound. reflexivity.
    + intros u Hu _. destruct (H u Hu) as [Hc Hs]. unfold SECT_6038 in Hs.
      split.
      * intros Hlt.
        destruct (dkt_bda_fits u s (conj Hc Hlt) Hs) as [_ Hb].
        split; [exact Hb|]. now rewrite fseek_ok.
      * intros Ht Hge.
        pose proof (dkt_bda_negative u s Ht Hge Hs) as Hb.
        split; [exact Hb|]. now rewrite fseek_fails.
Qed.

Lemma dkt_heads_stay_on_disk_witness :
  dkt_heads_ok (snd (dkt_svc 0 (snd (dkt_reset dkt_power_on)))) /\
  fst (fseek (fileref (uptr dkt_writing 0)) (dkt_bda 0 dkt_writing)) = 0 /\
  fst (fseek (fileref (uptr dkt_far_out 0)) (dkt_bda 0 dkt_far_out)) = -1.
Proof.
  destruct dkt_heads_stay_on_disk as [H0 H].
  assert (Hp : forall s, (forall d, CYL (uptr s d) = 0 /\ SECT (uptr s d) = 0) ->
                         dkt_heads_ok s).
  { intros s Hz d _. destruct (Hz d) as [-> ->]. unfold SECT_6038. lia. }
  assert (Hw : dkt_heads_ok dkt_writing).
  { apply Hp. intros d. unfold dkt_writing, uptr, unit_at, with_unit, upd_unit.
    cbn. destruct (d =? 0); split; reflexivity. }
  assert (Hf : dkt_heads_ok dkt_far_out).
  { intros d _. unfold dkt_far_out, uptr, unit_at, with_unit, upd_unit.
    cbn. destruct (d =? 0); cbn; unfold DKT_CYL_FIT, SECT_6038; lia. }
  split; [|split].
  - destruct (H _ (H0 dkt_power_on)) as (_ & Hs & _). exact (Hs 0).
  - destruct (H _ Hw) as (_ & _ & _ & Hk).
    destruct (Hk 0 ltac:(unfold DKT_NUMDR; lia) eq_refl) as [Hk1 _].
    exact (proj2 (Hk1 eq_refl)).
  - destruct (H _ Hf) as (_ & _ & _ & Hk).
    destruct (Hk 0 ltac:(unfold DKT_NUMDR; lia) eq_refl) as [_ Hk2].
    refine (proj2 (Hk2 eq_refl _)). vm_compute. split; [discriminate|reflexivity].
Defined.

Lemma dkt_ca_decode up :
  Z.land (Z.shiftr (dkt_ca_of up) CA_6038_V_TRACK) CA_6038_M_TRACK
  = Z.land (CYL up) CA_6038_M_TRACK /\
  Z.land (Z.shiftr (dkt_ca_of up) CA_6038_V_SECTOR) CA_6038_M_SECTOR
  = Z.land (SECT up) CA_6038_M_SECTOR.
Proof.
  unfold dkt_ca_of, CA_6038_V_TRACK, CA_6038_M_TRACK, CA_6038_V_SECTOR,
    CA_6038_M_SECTOR.
  split; apply Z.bits_inj'; intros n Hn;
    rewrite !Z.land_spec, Z.shiftr_spec, Z.lor_spec, !Z.shiftl_spec,
      !Z.land_spec by lia.
  - change 7 with (Z.ones 3). rewrite (Z.ones_spec_high 3 (n + 8 - 2)) by lia.
    rewrite andb_false_r, orb_false_r.
    replace (n + 8 - 8) with n by lia.
    now rewrite <- andb_assoc, andb_diag.
  - change 7 with (Z.ones 3).
    destruct (Z.lt_ge_cases n 3) as [L|G].
    + rewrite (Z.testbit_neg_r _ (n + 2 - 8)) by lia.
      cbn [andb orb]. replace (n + 2 - 2) with n by lia.
      now rewrite <- andb_assoc, andb_diag.
    + rewrite (Z.ones_spec_high 3 n) by lia. now rewrite !andb_false_r.
Qed.

Lemma dkt_go_regs pulse s :
  dkt_6038_ca (snd (dkt_go pulse s)) = dkt_6038_ca s /\
  dkt_6038_sc (snd (dkt_go pulse s)) = dkt_6038_sc s.
Proof.
  unfold dkt_go. cbv zeta. svc_cases; split; reflexivity.
Qed.

(** Property X29.  [DOAS] with the previously selected drive idle stores the
    accumulator as the command.  If it selects the other drive, the current
    address register is loaded with that drive's track and sector, which
    [DIC] then returns and whose track and sector fields decode to the
    drive's cylinder and sector (masked to seven and three bits); if it
    selects the same drive the register is unchanged. *)
Theorem dkt_select_restores_address AC s :
  let u := SC_6038_GET_UNIT (dkt_6038_sc s) in
  let newu := SC_6038_GET_UNIT AC in
  sim_is_active u s = false ->
  let s' := snd (dkt iopS ioDOA AC s) in
  dkt_6038_sc s' = AC /\
  dkt_6038_ca s' = (if newu =? u then dkt_6038_ca s else dkt_ca_of (uptr s newu)) /\
  (newu <> u ->
     fst (dkt iopN ioDIC 0 s') = dkt_ca_of (uptr s newu) /\
     Z.land (Z.shiftr (dkt_6038_ca s') CA_6038_V_TRACK) CA_6038_M_TRACK
     = Z.land (CYL (uptr s newu)) CA_6038_M_TRACK /\
     Z.land (Z.shiftr (dkt_6038_ca s') CA_6038_V_SECTOR) CA_6038_M_SECTOR
     = Z.land (SECT (uptr s newu)) CA_6038_M_SECTOR).
Proof.
  intros u newu Hidle s'.
  assert (H : dkt_6038_sc s' = AC /\
              dkt_6038_ca s'
              = (if newu =? u then dkt_6038_ca s else dkt_ca_of (uptr s newu))).
  { subst s'. unfold dkt. fold u. rewrite Hidle. fold newu.
    set (s2 := set_sc AC _).
    assert (H2 : dkt_6038_sc s2 = AC /\
                 dkt_6038_ca s2
                 = (if newu =? u then dkt_6038_ca s else dkt_ca_of (uptr s newu))).
    { subst s2. destruct (newu =? u); split; reflexivity. }
    destruct (dkt_go_regs iopS s2) as [G1 G2]. clearbody s2.
    destruct (dkt_go iopS s2) as [[|] s3]; cbn [snd] in *;
      rewrite general_error_sta; cbn [dkt_6038_sc dkt_6038_ca set_sta];
      cbn; rewrite ?G1, ?G2; exact H2. }
  destruct H as [H1 H2]. split; [exact H1|]. split; [exact H2|].
  intros Hne. destruct (Z.eqb_spec newu u); [contradiction|].
  assert (Hdic : fst (dkt iopN ioDIC 0 s') = dkt_6038_ca s') by reflexivity.
  rewrite Hdic, H2. split; [reflexivity|]. apply dkt_ca_decode.
Qed.

Lemma dkt_select_restores_address_witness :
  dkt_6038_sc (snd (dkt iopS ioDOA 32768 (dkt_ready false))) = 32768 /\
  dkt_6038_ca (snd (dkt iopS ioDOA 32768 (dkt_ready false))) = 0.
Proof.
  destruct (dkt_select_restores_address 32768 (dkt_ready false)) as (H1 & H2 & _).
  - vm_compute. reflexivity.
  - split; [exact H1 | exact H2].
Defined.
